(** * ai_bot: the conversation pipeline and its data layer

    A shallow embedding of

    - [app/database/connection.py]  (class [Database]),
    - [app/database/repository.py]  ([UserRepository], [MessageRepository]),
    - [app/services/ai_service.py]  ([AIService]),
    - [app/handlers/router.py]      (the handlers),

    followed by the properties of the specification, each stated over the
    embedded functions.

    Python coroutines are run one after the other: an [await] is a plain
    call.  The SQLite engine, the g4f backend, the Telegram transport and the
    wall clock are outside the repository; the engine is given the semantics
    of the nine statements the repository issues, the other three are
    oracles of the environment.

    The engine fails on a violated constraint only: I/O errors, integers
    beyond 64 bits and the exhaustion of AUTOINCREMENT ids are not part of
    the model.  Exceptions are instances of [Exception]; what only
    [BaseException] covers (cancellation, interrupts) is not modelled. *)

From Stdlib Require Import ZArith List String Ascii Bool Lia.
From Stdlib Require Import Sorted Permutation.
Import ListNotations.

Open Scope Z_scope.

(** ** Python [str] *)

Module PyStr.

(** A [str] is a sequence of Unicode code points. *)
Definition str := list N.

(** An ASCII literal as a [str]. *)
Definition lit (s : string) : str :=
  map N_of_ascii (list_ascii_of_string s).

Definition eqb (a b : str) : bool :=
  if list_eq_dec N.eq_dec a b then true else false.

(** [str.isspace] on one code point (CPython's [_PyUnicode_IsWhitespace]). *)
Definition isspace (c : N) : bool :=
  (((9 <=? c) && (c <=? 13)) || ((28 <=? c) && (c <=? 32))
   || (c =? 133) || (c =? 160) || (c =? 5760)
   || ((8192 <=? c) && (c <=? 8202))
   || (c =? 8232) || (c =? 8233) || (c =? 8239) || (c =? 8287)
   || (c =? 12288))%N.

Fixpoint lstrip (s : str) : str :=
  match s with
  | [] => []
  | c :: s' => if isspace c then lstrip s' else s
  end.

Definition rstrip (s : str) : str := rev (lstrip (rev s)).

(** [s.strip()] with no argument. *)
Definition strip (s : str) : str := rstrip (lstrip s).

(** Truth value of a [str]: the empty string is falsy. *)
Definition truthy (s : str) : bool :=
  match s with [] => false | _ :: _ => true end.

(** Whitespace from end to end (the empty string included). *)
Definition whitespace_only (s : str) : Prop :=
  Forall (fun c => isspace c = true) s.

End PyStr.

Import PyStr.

(** ** Exceptions and results *)

(** The exceptions that travel through the pipeline.  [AllModelsFailed c] is
    [Exception("All AI models failed. Last error: ...")] raised
    [from c]: [c] is its [__cause__]. *)
#[warnings="-register-all"]
Inductive exn : Type :=
| RuntimeError (msg : str)
| IntegrityError (msg : str)
| TypeError (msg : str)
| BackendError (code : N)
| TransportError (code : N)
| AllModelsFailed (last_exception : option exn).

Inductive result (A : Type) : Type :=
| Ok (a : A)
| Raise (e : exn).

Arguments Ok {A} a.
Arguments Raise {A} e.

(** ** Data model (the schema of [Database._init_schema]) *)

Record User : Type := mkUser {
  u_id : Z;
  u_telegram_id : Z;
  u_username : option str;
  u_created_at : Z
}.

Record Message : Type := mkMessage {
  m_id : Z;
  m_user_id : Z;
  m_role : str;
  m_content : str;
  m_created_at : Z
}.

(** A row of [SELECT role, content, created_at FROM messages ...]. *)
Record HistoryRow : Type := mkHistoryRow {
  h_role : str;
  h_content : str;
  h_created_at : Z
}.

(** The connection and the store behind it.  [users] and [messages] hold the
    rows in rowid order; [users_seq] and [messages_seq] are the two entries of
    [sqlite_sequence] (both tables are AUTOINCREMENT), [last_insert_rowid] is
    the connection's last inserted rowid. *)
Record Database : Type := mkDatabase {
  is_connected : bool;
  users : list User;
  messages : list Message;
  users_seq : Z;
  messages_seq : Z;
  last_insert_rowid : Z
}.

(** The store right after [connect()] on a new file. *)
Definition fresh_database : Database :=
  mkDatabase true [] [] 0 0 0.

(** ** Logging, backend and transport events *)

Inductive level : Type := DEBUG | INFO | WARNING | ERROR.

(** One constructor per logging call of the four modules. *)
Inductive log_event : Type :=
| DatabaseError (e : exn)
| UserFound (telegram_id : Z)
| NewUserCreated (telegram_id : Z) (username : option str)
| MessageCreated (user_id : Z) (role : str)
| ConversationCleared (user_id : Z)
| TryingModel (model : str)
| ModelSucceeded (model : str)
| ModelFailed (model : str) (e : exn)
| AllFailed (last_exception : option exn)
| GeneratedResponse (response : str)
| GenerateFailed (e : exn)
| AIServiceError (e : exn).

Definition LogRecord : Type := (level * log_event)%type.

(** An entry of the [messages] list handed to g4f. *)
Record ChatMessage : Type := mkChat {
  role : str;
  content : str
}.

(** What [g4f.ChatCompletion.create] can do: raise (a timeout is raised too),
    or return a value that is a [str] or something else. *)
Inductive pyvalue : Type :=
| PyStr (s : str)
| PyNone
| PyOther.

Inductive outcome : Type :=
| Raised (e : exn)
| Returned (v : pyvalue).

Record G4fCall : Type := mkCall {
  call_model : str;
  call_messages : list ChatMessage;
  call_max_tokens : Z;
  call_temperature : Z * Z;
  call_timeout : Z
}.

(** What the handlers ask of the Telegram client. *)
Inductive Outbound : Type :=
| ChatAction (chat_id : Z) (action : str)
| Answer (text : str).

(** ** The world *)

(** Everything a handler can change: the store, the log, the calls made to
    the backend, the requests the transport accepted, and the number of
    interactions with the environment so far (the index at which the oracles
    are read). *)
Record World : Type := mkWorld {
  db : Database;
  log : list LogRecord;
  g4f_calls : list G4fCall;
  outbox : list Outbound;
  io_steps : nat
}.

Definition set_db (w : World) (d : Database) : World :=
  mkWorld d (log w) (g4f_calls w) (outbox w) (io_steps w).

Definition fresh_world : World := mkWorld fresh_database [] [] [] 0.

(** ** State and exception monad *)

Definition M (A : Type) : Type := World -> result A * World.

Definition ret {A} (a : A) : M A := fun w => (Ok a, w).

Definition raise {A} (e : exn) : M A := fun w => (Raise e, w).

Definition bind {A B} (m : M A) (k : A -> M B) : M B :=
  fun w =>
    match m w with
    | (Ok a, w') => k a w'
    | (Raise e, w') => (Raise e, w')
    end.

(** [try: m except Exception as e: h e]. *)
Definition try_except {A} (m : M A) (h : exn -> M A) : M A :=
  fun w =>
    match m w with
    | (Ok a, w') => (Ok a, w')
    | (Raise e, w') => h e w'
    end.

Declare Scope py_scope.
Delimit Scope py_scope with py.
Notation "x <- c1 ;; c2" := (bind c1 (fun x => c2))
  (at level 61, c1 at next level, right associativity) : py_scope.
Notation "c1 ;; c2" := (bind c1 (fun _ => c2))
  (at level 61, right associativity) : py_scope.
Open Scope py_scope.

(** [logger.<level>(...)]. *)
Definition logger (l : level) (ev : log_event) : M unit :=
  fun w => (Ok tt, mkWorld (db w) (log w ++ [(l, ev)]) (g4f_calls w)
                     (outbox w) (io_steps w)).

(** ** [app/database/connection.py] *)

(** What a statement leaves in its cursor. *)
Record Cursor (R : Type) : Type := mkCursor {
  rows : list R;
  rowcount : Z
}.

Arguments mkCursor {R} rows rowcount.
Arguments rows {R} c.
Arguments rowcount {R} c.

(** A statement with its parameters bound: given the second at which the
    engine runs it ([CURRENT_TIMESTAMP]) and the store, a cursor and the new
    store, or an error that leaves the store as it was. *)
Definition Statement (R : Type) : Type :=
  Z -> Database -> result (Cursor R * Database).

(** The environment: the wall clock, the generation backend and the Telegram
    client, each read at the index of the interaction. *)
Class Env : Type := mkEnv {
  current_timestamp : nat -> Z;
  g4f_create : nat -> G4fCall -> outcome;
  telegram : nat -> Outbound -> option exn
}.

Section Pipeline.

Context {env : Env}.

Definition tick (w : World) : World :=
  mkWorld (db w) (log w) (g4f_calls w) (outbox w) (S (io_steps w)).

(** [await conn.execute(query, params)]. *)
Definition conn_execute {R} (query : Statement R) : M (Cursor R) :=
  fun w =>
    match query (current_timestamp (io_steps w)) (db w) with
    | Ok (cursor, d) => (Ok cursor, set_db (tick w) d)
    | Raise e => (Raise e, tick w)
    end.

(** [async with self.get_connection() as conn: body].  The store at entry
    is the committed one: every way out commits or rolls back. *)
Definition get_connection {A} (body : M A) : M A :=
  fun w =>
    if negb (is_connected (db w))
    then raise (RuntimeError (lit "Database not connected")) w
    else
      match body w with
      | (Ok a, w') => (Ok a, w')
      | (Raise e, w') =>
          (logger ERROR (DatabaseError e) ;; raise e) (set_db w' (db w))
      end.

Definition execute {R} (query : Statement R) : M (Cursor R) :=
  get_connection (conn_execute query).

Definition fetch_one {R} (query : Statement R) : M (option R) :=
  get_connection (cursor <- conn_execute query ;; ret (hd_error (rows cursor))).

Definition fetch_all {R} (query : Statement R) : M (list R) :=
  get_connection (cursor <- conn_execute query ;; ret (rows cursor)).

(** ** The statements of [app/database/repository.py] *)

(** [SELECT * FROM users WHERE telegram_id = ?] *)
Definition select_user_by_telegram_id (telegram_id : Z) : Statement User :=
  fun _ d =>
    Ok (mkCursor (filter (fun u => u_telegram_id u =? telegram_id) (users d)) (-1), d).

(** [INSERT INTO users (telegram_id, username) VALUES (?, ?)]:
    [telegram_id] is UNIQUE, [id] is AUTOINCREMENT. *)
Definition insert_user (telegram_id : Z) (username : option str) : Statement unit :=
  fun now d =>
    if existsb (fun u => u_telegram_id u =? telegram_id) (users d)
    then Raise (IntegrityError (lit "UNIQUE constraint failed: users.telegram_id"))
    else
      let id := users_seq d + 1 in
      Ok (mkCursor [] 1,
          mkDatabase (is_connected d)
            (users d ++ [mkUser id telegram_id username now])
            (messages d) id (messages_seq d) id).

(** [SELECT * FROM users WHERE id = ?] *)
Definition select_user_by_id (user_id : Z) : Statement User :=
  fun _ d => Ok (mkCursor (filter (fun u => u_id u =? user_id) (users d)) (-1), d).

(** [UPDATE users SET username = ? WHERE telegram_id = ?] *)
Definition update_user_username (username : str) (telegram_id : Z) : Statement unit :=
  fun _ d =>
    let hit u := u_telegram_id u =? telegram_id in
    Ok (mkCursor [] (Z.of_nat (List.length (filter hit (users d)))),
        mkDatabase (is_connected d)
          (map (fun u => if hit u
                         then mkUser (u_id u) (u_telegram_id u) (Some username) (u_created_at u)
                         else u) (users d))
          (messages d) (users_seq d) (messages_seq d) (last_insert_rowid d)).

(** [role TEXT CHECK(role IN ('user', 'assistant'))] *)
Definition role_check (r : str) : bool :=
  PyStr.eqb r (lit "user") || PyStr.eqb r (lit "assistant").

(** [INSERT INTO messages (user_id, role, content) VALUES (?, ?, ?)].
    The foreign key to [users] is declared but not enforced: the connection
    never turns [PRAGMA foreign_keys] on. *)
Definition insert_message (user_id : Z) (r c : str) : Statement unit :=
  fun now d =>
    if negb (role_check r)
    then Raise (IntegrityError (lit "CHECK constraint failed: role"))
    else
      let id := messages_seq d + 1 in
      Ok (mkCursor [] 1,
          mkDatabase (is_connected d) (users d)
            (messages d ++ [mkMessage id user_id r c now])
            (users_seq d) id id).

(** [SELECT * FROM messages WHERE id = last_insert_rowid()] *)
Definition select_last_inserted_message : Statement Message :=
  fun _ d =>
    Ok (mkCursor (filter (fun m => m_id m =? last_insert_rowid d) (messages d)) (-1), d).

(** [ORDER BY created_at DESC]: the engine leaves the order of rows with
    equal [created_at] open; here they stay in rowid order. *)
Fixpoint insert_desc (m : Message) (l : list Message) : list Message :=
  match l with
  | [] => [m]
  | x :: l' =>
      if m_created_at x <=? m_created_at m then m :: l
      else x :: insert_desc m l'
  end.

Definition order_by_created_at_desc (l : list Message) : list Message :=
  fold_right insert_desc [] l.

(** [LIMIT ?]: a negative limit is no limit. *)
Definition sql_limit {R} (limit : Z) (l : list R) : list R :=
  if limit <? 0 then l else firstn (Z.to_nat limit) l.

(** [SELECT role, content, created_at FROM messages WHERE user_id = ?
     ORDER BY created_at DESC LIMIT ?] *)
Definition select_history (user_id limit : Z) : Statement HistoryRow :=
  fun _ d =>
    Ok (mkCursor
          (map (fun m => mkHistoryRow (m_role m) (m_content m) (m_created_at m))
             (sql_limit limit
                (order_by_created_at_desc
                   (filter (fun m => m_user_id m =? user_id) (messages d)))))
          (-1), d).

(** [SELECT COUNT( * ) as count FROM messages WHERE user_id = ?] *)
Definition select_message_count (user_id : Z) : Statement Z :=
  fun _ d =>
    Ok (mkCursor
          [Z.of_nat (List.length (filter (fun m => m_user_id m =? user_id) (messages d)))]
          (-1), d).

(** [DELETE FROM messages WHERE user_id = ?] *)
Definition delete_messages (user_id : Z) : Statement unit :=
  fun _ d =>
    Ok (mkCursor []
          (Z.of_nat (List.length (filter (fun m => m_user_id m =? user_id) (messages d)))),
        mkDatabase (is_connected d) (users d)
          (filter (fun m => negb (m_user_id m =? user_id)) (messages d))
          (users_seq d) (messages_seq d) (last_insert_rowid d)).

(** ** [UserRepository] *)

Definition get_or_create_user (telegram_id : Z) (username : option str)
  : M (option User) :=
  user <- fetch_one (select_user_by_telegram_id telegram_id) ;;
  match user with
  | Some u =>
      logger DEBUG (UserFound telegram_id) ;;
      ret (Some u)
  | None =>
      execute (insert_user telegram_id username) ;;
      user <- fetch_one (select_user_by_telegram_id telegram_id) ;;
      logger INFO (NewUserCreated telegram_id username) ;;
      ret user
  end.

Definition get_user_by_id (user_id : Z) : M (option User) :=
  fetch_one (select_user_by_id user_id).

Definition update_username (telegram_id : Z) (username : str) : M bool :=
  result <- execute (update_user_username username telegram_id) ;;
  ret (0 <? rowcount result).

(** ** [MessageRepository] *)

Definition create_message (user_id : Z) (r c : str) : M (option Message) :=
  execute (insert_message user_id r c) ;;
  message <- fetch_one select_last_inserted_message ;;
  logger DEBUG (MessageCreated user_id r) ;;
  ret message.

Definition get_conversation_history (user_id limit : Z) : M (list HistoryRow) :=
  fetch_all (select_history user_id limit).

Definition get_message_count (user_id : Z) : M Z :=
  result <- fetch_one (select_message_count user_id) ;;
  ret (match result with Some count => count | None => 0 end).

Definition clear_conversation (user_id : Z) : M bool :=
  result <- execute (delete_messages user_id) ;;
  let deleted := 0 <? rowcount result in
  (if deleted then logger INFO (ConversationCleared user_id) else ret tt) ;;
  ret deleted.

(** ** [app/services/ai_service.py] *)

Record AIService : Type := mkAIService {
  model : str;
  max_tokens : Z;
  temperature : Z * Z;
  available_models : list str
}.

(** [AIService.__init__]; the temperature 0.7 is kept as the fraction 7/10. *)
Definition new_AIService : AIService :=
  mkAIService (lit "gpt-3.5-turbo") 2048 (7, 10)
    [lit "gpt-3.5-turbo"; lit "gpt-4"; lit "gpt-4-turbo"].

Definition system_prompt : str :=
  lit "You are a helpful AI assistant in a Telegram bot. " ++ [10%N]
  ++ lit "            Be concise, friendly, and helpful. " ++ [10%N]
  ++ lit "            Keep responses reasonably short for mobile users.".

Definition apology : str :=
  lit "I apologize, but I'm having trouble processing your request right now. "
  ++ lit "Please try again in a moment. If the problem persists, "
  ++ lit "the administrator has been notified.".

(** [await loop.run_in_executor(self._executor, lambda: g4f.ChatCompletion.create(...))]:
    the call is recorded, and what the backend does with it comes back. *)
Definition run_in_executor (call : G4fCall) : M pyvalue :=
  fun w =>
    let w' := mkWorld (db w) (log w) (g4f_calls w ++ [call]) (outbox w)
                (S (io_steps w)) in
    match g4f_create (io_steps w) call with
    | Returned v => (Ok v, w')
    | Raised e => (Raise e, w')
    end.

Definition create_call (self : AIService) (m : str) (messages : list ChatMessage)
  : G4fCall :=
  mkCall m messages (max_tokens self) (temperature self) 30.

(** One turn of the [for model in self.available_models] loop: [Some s] is
    [return s]; otherwise the loop goes on with the [last_exception] given
    back. *)
Definition try_model (self : AIService) (m : str) (messages : list ChatMessage)
    (last_exception : option exn) : M (option str * option exn) :=
  try_except
    (logger DEBUG (TryingModel m) ;;
     response <- run_in_executor (create_call self m messages) ;;
     match response with
     | PyStr s =>
         if truthy s
         then logger INFO (ModelSucceeded m) ;; ret (Some s, last_exception)
         else ret (None, last_exception)
     | _ => ret (None, last_exception)
     end)
    (fun e =>
       logger WARNING (ModelFailed m e) ;;
       ret (None, Some e)).

Fixpoint call_g4f_loop (self : AIService) (models : list str)
    (messages : list ChatMessage) (last_exception : option exn) : M str :=
  match models with
  | [] =>
      logger ERROR (AllFailed last_exception) ;;
      raise (AllModelsFailed last_exception)
  | m :: models' =>
      r <- try_model self m messages last_exception ;;
      match r with
      | (Some s, _) => ret s
      | (None, last_exception') => call_g4f_loop self models' messages last_exception'
      end
  end.

Definition _call_g4f (self : AIService) (messages : list ChatMessage) : M str :=
  call_g4f_loop self (available_models self) messages None.

(** The prompt [generate_response] builds: [if history:] skips [None] and the
    empty list alike. *)
Definition build_messages (message : str) (history : option (list ChatMessage))
  : list ChatMessage :=
  [mkChat (lit "system") system_prompt]
  ++ match history with Some h => h | None => [] end
  ++ [mkChat (lit "user") message].

Definition generate_response (self : AIService) (message : str)
    (history : option (list ChatMessage)) : M str :=
  try_except
    (response <- _call_g4f self (build_messages message history) ;;
     let response := strip response in
     logger DEBUG (GeneratedResponse (firstn 100 response)) ;;
     ret response)
    (fun e =>
       logger ERROR (GenerateFailed e) ;;
       ret apology).

(** ** [app/handlers/router.py] *)

(** The fields of the aiogram [Message] the handlers read. *)
Record TgMessage : Type := mkTgMessage {
  text : option str;
  from_user_id : Z;
  from_user_username : option str;
  chat_id : Z
}.

(** A request to the Telegram client: kept in the outbox when accepted. *)
Definition telegram_request (o : Outbound) : M unit :=
  fun w =>
    match telegram (io_steps w) o with
    | None => (Ok tt, mkWorld (db w) (log w) (g4f_calls w) (outbox w ++ [o])
                        (S (io_steps w)))
    | Some e => (Raise e, tick w)
    end.

(** [await message.answer(text)]. *)
Definition answer (t : str) : M unit := telegram_request (Answer t).

(** [await message.bot.send_chat_action(chat_id=..., action=...)]. *)
Definition send_chat_action (chat : Z) (action : str) : M unit :=
  telegram_request (ChatAction chat action).

(** [user['id']]: [get_or_create_user] hands back what its last [fetch_one]
    found. *)
Definition subscript_id (user : option User) : M Z :=
  match user with
  | Some u => ret (u_id u)
  | None => raise (TypeError (lit "'NoneType' object is not subscriptable"))
  end.

Definition processing_error_text : str :=
  [9888%N; 65039%N]
  ++ lit " <b>Sorry, I encountered an error processing your request.</b>"
  ++ [10%N; 10%N]
  ++ lit "Please try again in a moment. "
  ++ lit "If the problem persists, contact the administrator.".

Definition cleared_text : str :=
  [128465%N; 65039%N]
  ++ lit " <b>Conversation cleared!</b>" ++ [10%N; 10%N]
  ++ lit "I've deleted all our previous messages. "
  ++ lit "We can start a fresh conversation!".

Definition message_handler (message : TgMessage) (ai_service : AIService)
  : M unit :=
  match text message with
  | None => ret tt
  | Some message_text =>
      if negb (truthy message_text) || PyStr.eqb (strip message_text) []
      then ret tt
      else
        user <- get_or_create_user (from_user_id message)
                  (from_user_username message) ;;
        user_id <- subscript_id user ;;
        create_message user_id (lit "user") message_text ;;
        history <- get_conversation_history user_id 10 ;;
        let formatted_history :=
          map (fun msg => mkChat (h_role msg) (h_content msg)) (rev history) in
        send_chat_action (chat_id message) (lit "typing") ;;
        try_except
          (ai_response <- generate_response ai_service message_text
                            (Some formatted_history) ;;
           create_message user_id (lit "assistant") ai_response ;;
           answer ai_response)
          (fun e =>
             logger ERROR (AIServiceError e) ;;
             answer processing_error_text)
  end.

Definition clear_handler (message : TgMessage) : M unit :=
  user <- get_or_create_user (from_user_id message)
            (from_user_username message) ;;
  user_id <- subscript_id user ;;
  clear_conversation user_id ;;
  answer cleared_text.

End Pipeline.

(** ** [app/handlers/router.py], the command handlers *)

Section Commands.

Context {env : Env}.

Definition welcome_text : str :=
  [129302%N]
  ++ lit " <b>Welcome to AI Assistant Bot!</b>" ++ [10%N; 10%N]
  ++ lit "I'm here to help you with any questions you have." ++ [10%N]
  ++ lit "Just send me a message and I'll respond!" ++ [10%N; 10%N]
  ++ lit "Available commands:" ++ [10%N]
  ++ lit "/help - Show this help message" ++ [10%N]
  ++ lit "/clear - Clear conversation history" ++ [10%N]
  ++ lit "/stats - Show your usage statistics" ++ [10%N; 10%N]
  ++ lit "Let's start our conversation!".

Definition help_text : str :=
  [128218%N]
  ++ lit " <b>Help & Commands</b>" ++ [10%N; 10%N]
  ++ lit "<b>Available Commands:</b>" ++ [10%N]
  ++ lit "/start - Start the bot and see welcome message" ++ [10%N]
  ++ lit "/help - Show this help message" ++ [10%N]
  ++ lit "/clear - Clear your conversation history" ++ [10%N]
  ++ lit "/stats - Show your usage statistics" ++ [10%N; 10%N]
  ++ lit "<b>How to use:</b>" ++ [10%N]
  ++ [8226%N] ++ lit " Just type your message and I'll respond" ++ [10%N]
  ++ [8226%N] ++ lit " I remember our conversation history" ++ [10%N]
  ++ [8226%N] ++ lit " Use /clear to start a new conversation" ++ [10%N; 10%N]
  ++ lit "Need help? Contact the administrator!".

Definition start_handler (message : TgMessage) : M unit :=
  user <- get_or_create_user (from_user_id message)
            (from_user_username message) ;;
  answer welcome_text.

Definition help_handler (message : TgMessage) : M unit :=
  answer help_text.

End Commands.

(** * Vocabulary of the properties

    The rows, worlds and predicates the statements below are written with. *)

Section Vocabulary.

Context {env : Env}.

(** ** Store *)

(** What a store error leaves: the interaction took place, the error is in
    the log, the store is the committed one. *)
Definition after_database_error (w : World) (e : exn) : World :=
  mkWorld (db w) (log w ++ [(ERROR, DatabaseError e)]) (g4f_calls w)
    (outbox w) (S (io_steps w)).

(** The UNIQUE constraint on [users.telegram_id]. *)
Definition unique_telegram_id (d : Database) : Prop :=
  NoDup (map u_telegram_id (users d)).

(** The rows of one identity. *)
Definition has_telegram_id (telegram_id : Z) (u : User) : bool :=
  u_telegram_id u =? telegram_id.

Definition user_rows (telegram_id : Z) (d : Database) : list User :=
  filter (has_telegram_id telegram_id) (users d).

(** The row [get_or_create_user] inserts for an unknown identity (the
    INSERT is its second statement), and the store with it. *)
Definition created_user (telegram_id : Z) (username : option str) (w : World)
  : User :=
  mkUser (users_seq (db w) + 1) telegram_id username
    (current_timestamp (S (io_steps w))).

Definition with_user (d : Database) (u : User) : Database :=
  mkDatabase (is_connected d) (users d ++ [u]) (messages d)
    (u_id u) (messages_seq d) (u_id u).

(** The rows [WHERE user_id = ?] selects. *)
Definition owned_by (user_id : Z) (m : Message) : bool :=
  m_user_id m =? user_id.

(** The rows of one user, in rowid order. *)
Definition user_messages (user_id : Z) (d : Database) : list Message :=
  filter (owned_by user_id) (messages d).

(** The three columns of a history row. *)
Definition history_row (m : Message) : HistoryRow :=
  mkHistoryRow (m_role m) (m_content m) (m_created_at m).

(** Newest first: no row is older than a row after it. *)
Definition newest_first (l : list HistoryRow) : Prop :=
  StronglySorted (fun a b => h_created_at b <= h_created_at a) l.

(** Chronological: creation times never decrease. *)
Definition chronological (l : list HistoryRow) : Prop :=
  StronglySorted (fun a b => h_created_at a <= h_created_at b) l.

(** The order [ORDER BY created_at DESC] establishes. *)
Definition not_older (a b : Message) : Prop :=
  m_created_at b <= m_created_at a.

(** The rows [select_history] yields. *)
Definition history_of (user_id limit : Z) (d : Database) : list HistoryRow :=
  map history_row
    (sql_limit limit (order_by_created_at_desc (user_messages user_id d))).

(** The rows [DELETE ... WHERE user_id = ?] keeps. *)
Definition not_owned_by (user_id : Z) (m : Message) : bool :=
  negb (m_user_id m =? user_id).

(** The world [clear_conversation] leaves on a connected store. *)
Definition cleared (user_id : Z) (w : World) : World :=
  let deleted := 0 <? Z.of_nat (List.length (user_messages user_id (db w))) in
  mkWorld
    (mkDatabase (is_connected (db w)) (users (db w))
       (filter (not_owned_by user_id) (messages (db w)))
       (users_seq (db w)) (messages_seq (db w)) (last_insert_rowid (db w)))
    (log w ++ (if deleted then [(INFO, ConversationCleared user_id)] else []))
    (g4f_calls w) (outbox w) (S (io_steps w)).

(** The row [create_message] inserts (the INSERT is its first statement),
    and the store with it. *)
Definition created_message (user_id : Z) (r c : str) (w : World) : Message :=
  mkMessage (messages_seq (db w) + 1) user_id r c
    (current_timestamp (io_steps w)).

Definition with_message (d : Database) (m : Message) : Database :=
  mkDatabase (is_connected d) (users d) (messages d ++ [m])
    (users_seq d) (m_id m) (m_id m).

(** ** Sequences of repository calls *)

Inductive Call : Type :=
| CreateMessage (user_id : Z) (r c : str)
| GetConversationHistory (user_id limit : Z)
| GetMessageCount (user_id : Z)
| ClearConversation (user_id : Z)
| GetOrCreateUser (telegram_id : Z) (username : option str)
| GetUserById (user_id : Z)
| UpdateUsername (telegram_id : Z) (username : str).

(** Whether the call returned (rather than raised), and the world after. *)
Definition returns {A} (m : M A) (w : World) : bool * World :=
  match m w with
  | (Ok _, w') => (true, w')
  | (Raise _, w') => (false, w')
  end.

Definition run_call (c : Call) : World -> bool * World :=
  match c with
  | CreateMessage u r c => returns (create_message u r c)
  | GetConversationHistory u limit => returns (get_conversation_history u limit)
  | GetMessageCount u => returns (get_message_count u)
  | ClearConversation u => returns (clear_conversation u)
  | GetOrCreateUser t n => returns (get_or_create_user t n)
  | GetUserById u => returns (get_user_by_id u)
  | UpdateUsername t n => returns (update_username t n)
  end.

Fixpoint run_calls (cs : list Call) (w : World) : World :=
  match cs with
  | [] => w
  | c :: cs' => run_calls cs' (snd (run_call c w))
  end.

(** 1 for a [create_message] of the user that returned, 0 otherwise. *)
Definition appended (user_id : Z) (c : Call) (ok : bool) : nat :=
  match c with
  | CreateMessage u _ _ => if ok && (u =? user_id) then 1 else 0
  | _ => 0
  end.

(** The number of [create_message] calls of the user that returned, in a
    run of [cs] from [w]. *)
Fixpoint successful_appends (user_id : Z) (cs : list Call) (w : World) : nat :=
  match cs with
  | [] => 0
  | c :: cs' =>
      (appended user_id c (fst (run_call c w))
       + successful_appends user_id cs' (snd (run_call c w)))%nat
  end.

(** [clear_conversation] for this user. *)
Definition is_clear_of (user_id : Z) (c : Call) : bool :=
  match c with
  | ClearConversation u => u =? user_id
  | _ => false
  end.

(** ** Attempts of the generation client *)

(** The text an attempt yields, when it yields one: a non-empty [str]. *)
Definition text_of (o : outcome) : option str :=
  match o with
  | Returned (PyStr s) => if truthy s then Some s else None
  | _ => None
  end.

(** An attempt that returned, but no text. *)
Definition non_text (o : outcome) : bool :=
  match o with
  | Raised _ => false
  | Returned _ => match text_of o with Some _ => false | None => true end
  end.

(** What the backend does with the models of [models], asked one after the
    other from interaction [n] on. *)
Fixpoint attempts (self : AIService) (messages : list ChatMessage) (n : nat)
    (models : list str) : list outcome :=
  match models with
  | [] => []
  | m :: models' =>
      g4f_create n (create_call self m messages)
      :: attempts self messages (S n) models'
  end.

(** The exception of the last attempt that raised, [last] if none did. *)
Definition last_raised (last : option exn) (outs : list outcome) : option exn :=
  fold_left (fun acc o => match o with Raised e => Some e | _ => acc end)
    outs last.

(** A failed attempt: it raised, or returned no text. *)
Definition failed (o : outcome) : Prop := text_of o = None.

(** What one attempt writes to the log. *)
Definition attempt_log (m : str) (o : outcome) : list LogRecord :=
  (DEBUG, TryingModel m)
  :: match o with
     | Raised e => [(WARNING, ModelFailed m e)]
     | Returned _ =>
         match text_of o with
         | Some _ => [(INFO, ModelSucceeded m)]
         | None => []
         end
     end.

(** The world after one attempt, and after a run of attempts that failed. *)
Definition after_attempt (self : AIService) (messages : list ChatMessage)
    (m : str) (w : World) : World :=
  let call := create_call self m messages in
  mkWorld (db w) (log w ++ attempt_log m (g4f_create (io_steps w) call))
    (g4f_calls w ++ [call]) (outbox w) (S (io_steps w)).

Fixpoint after_attempts (self : AIService) (messages : list ChatMessage)
    (models : list str) (w : World) : World :=
  match models with
  | [] => w
  | m :: models' =>
      after_attempts self messages models' (after_attempt self messages m w)
  end.

(** The records the attempts on [models] add to the log. *)
Fixpoint attempts_log (self : AIService) (messages : list ChatMessage)
    (n : nat) (models : list str) : list LogRecord :=
  match models with
  | [] => []
  | m :: models' =>
      attempt_log m (g4f_create n (create_call self m messages))
      ++ attempts_log self messages (S n) models'
  end.

(** The calls to the backend for [models], in order, all with one prompt. *)
Definition calls_for (self : AIService) (messages : list ChatMessage)
    (models : list str) : list G4fCall :=
  map (fun m => create_call self m messages) models.

(** ** Pipeline *)

(** The formatting of a history row in [message_handler]. *)
Definition chat_of_row (msg : HistoryRow) : ChatMessage :=
  mkChat (h_role msg) (h_content msg).

(** A transport that accepts every request. *)
Definition accepts_all : Prop := forall n o, telegram n o = None.

(** The prompt of the end-to-end scenario as the code builds it. *)
Definition hi_prompt : list ChatMessage :=
  [mkChat (lit "system") system_prompt;
   mkChat (lit "user") (lit "Hi");
   mkChat (lit "user") (lit "Hi")].

(** A fixed point of [strip]. *)
Definition stripped (s : str) : Prop := strip s = s.

(** No whitespace at the front, none at the back. *)
Definition no_surrounding_whitespace (s : str) : Prop :=
  (forall c t, s = c :: t -> isspace c = false) /\
  (forall c t, rev s = c :: t -> isspace c = false).

(** A row that, if it is an assistant row, holds a stripped text. *)
Definition clean_row (m : Message) : Prop :=
  m_role m = lit "assistant" -> stripped (m_content m).

(** [w'] has, beyond what [w] had, only assistant rows and answers whose
    text is stripped. *)
Definition clean_extension (w w' : World) : Prop :=
  (forall m, In m (messages (db w')) -> In m (messages (db w)) \/ clean_row m) /\
  (forall t, In (Answer t) (outbox w') -> In (Answer t) (outbox w) \/ stripped t).

(** [m] only makes clean extensions, and the values it returns satisfy [Q]. *)
Definition keeps_clean {A} (m : M A) (Q : A -> Prop) : Prop :=
  forall w, clean_extension w (snd (m w)) /\ forall a, fst (m w) = Ok a -> Q a.

(** A statement whose new rows are clean. *)
Definition clean_statement {R} (q : Statement R) : Prop :=
  forall now d c d',
    q now d = Ok (c, d') ->
    forall m, In m (messages d') -> In m (messages d) \/ clean_row m.

End Vocabulary.

(** * Vocabulary of the further properties *)

Section MoreVocabulary.

Context {env : Env}.

(** ** The store as the schema keeps it *)

(** Strictly increasing, as AUTOINCREMENT ids are in rowid order. *)
Definition increasing (l : list Z) : Prop := StronglySorted Z.lt l.

Definition bounded_by (n : Z) (l : list Z) : Prop := Forall (fun x => x <= n) l.

(** What the two tables satisfy: one row per [telegram_id], ids increasing
    with the rowid and never above the sequence of their table, roles that
    pass the CHECK. *)
Definition well_formed (d : Database) : Prop :=
  unique_telegram_id d /\
  increasing (map u_id (users d)) /\
  bounded_by (users_seq d) (map u_id (users d)) /\
  increasing (map m_id (messages d)) /\
  bounded_by (messages_seq d) (map m_id (messages d)) /\
  Forall (fun m => role_check (m_role m) = true) (messages d).

(** The same user: a row that differs from [u] in its user name at most. *)
Definition same_user (u u' : User) : Prop :=
  u_id u' = u_id u /\ u_telegram_id u' = u_telegram_id u /\
  u_created_at u' = u_created_at u.

(** [d'] comes after [d]: the connection is as it was, the sequences have
    not gone back, every user is still there, and every message row is one
    of [d], untouched, or has an id above the sequence of [d]. *)
Definition comes_after (d d' : Database) : Prop :=
  is_connected d' = is_connected d /\
  users_seq d <= users_seq d' /\
  messages_seq d <= messages_seq d' /\
  (forall u, In u (users d) -> exists u', In u' (users d') /\ same_user u u') /\
  (forall m, In m (messages d') -> In m (messages d) \/ messages_seq d < m_id m).

(** ** What the bot handles *)

Inductive Update : Type :=
| TextMessage (message : TgMessage) (ai_service : AIService)
| StartCommand (message : TgMessage)
| HelpCommand (message : TgMessage)
| ClearCommand (message : TgMessage)
| Repository (c : Call).

(** The world after one update; an exception the handler raises ends that
    update only. *)
Definition handle (u : Update) (w : World) : World :=
  match u with
  | TextMessage message ai_service => snd (message_handler message ai_service w)
  | StartCommand message => snd (start_handler message w)
  | HelpCommand message => snd (help_handler message w)
  | ClearCommand message => snd (clear_handler message w)
  | Repository c => snd (run_call c w)
  end.

Fixpoint handle_all (us : list Update) (w : World) : World :=
  match us with
  | [] => w
  | u :: us' => handle_all us' (handle u w)
  end.

(** ** The reply stage of [message_handler] *)

(** [message_handler] from the formatting of the history on. *)
Definition respond (message : TgMessage) (ai_service : AIService)
    (message_text : str) (user_id : Z) (history : list HistoryRow) : M unit :=
  let formatted_history :=
    map (fun msg => mkChat (h_role msg) (h_content msg)) (rev history) in
  send_chat_action (chat_id message) (lit "typing") ;;
  try_except
    (ai_response <- generate_response ai_service message_text
                      (Some formatted_history) ;;
     create_message user_id (lit "assistant") ai_response ;;
     answer ai_response)
    (fun e =>
       logger ERROR (AIServiceError e) ;;
       answer processing_error_text).

(** The world after the inbound message is stored and the history read. *)
Definition stored (user_id : Z) (message_text : str) (w : World) : World :=
  mkWorld
    (with_message (db w) (created_message user_id (lit "user") message_text w))
    (log w ++ [(DEBUG, MessageCreated user_id (lit "user"))])
    (g4f_calls w) (outbox w) (3 + io_steps w).

(** The world after the reply is stored. *)
Definition replied (user_id : Z) (reply : str) (w : World) : World :=
  mkWorld
    (with_message (db w) (created_message user_id (lit "assistant") reply w))
    (log w ++ [(DEBUG, MessageCreated user_id (lit "assistant"))])
    (g4f_calls w) (outbox w) (2 + io_steps w).

(** The world after the typing action is accepted. *)
Definition typing (chat : Z) (w : World) : World :=
  mkWorld (db w) (log w) (g4f_calls w)
    (outbox w ++ [ChatAction chat (lit "typing")]) (S (io_steps w)).

(** The except branch of [message_handler]. *)
Definition apologise (e : exn) : M unit :=
  logger ERROR (AIServiceError e) ;;
  answer processing_error_text.


(** The row of the user's own message. *)
Definition inbound_row (user_id : Z) (message_text : str) (w : World) : Message :=
  created_message user_id (lit "user") message_text w.

(** Every row of the user is older than the second [now]. *)
Definition all_older (user_id now : Z) (d : Database) : Prop :=
  forall m, In m (user_messages user_id d) -> m_created_at m < now.

(** The transport takes the typing action and the error text, and refuses
    every other answer with [e]. *)
Definition refuses_replies (e : exn) : Prop :=
  forall n o,
    telegram n o
    = match o with
      | ChatAction _ _ => None
      | Answer t => if PyStr.eqb t processing_error_text then None else Some e
      end.

(** The users of [d] are the first users of [d'], row for row. *)
Definition users_prefix (d d' : Database) : Prop :=
  exists new, users d' = users d ++ new.

(** A direct call of [update_username]: no handler makes one. *)
Definition is_rename (u : Update) : bool :=
  match u with
  | Repository (UpdateUsername _ _) => true
  | _ => false
  end.

(** The backend answers every call with the text [s]. *)
Definition always_answers (s : str) : Prop :=
  forall n c, g4f_create n c = Returned (PyStr s).


(** The transport refuses the typing action with [e]. *)
Definition refuses_typing (chat : Z) (e : exn) : Prop :=
  forall n, telegram n (ChatAction chat (lit "typing")) = Some e.

(** [m] takes every store to one [R]-related to it. *)
Definition evolves (R : Database -> Database -> Prop) {A} (m : M A) : Prop :=
  forall w, R (db w) (db (snd (m w))).

(** So does the statement [q], when it succeeds. *)
Definition respects (R : Database -> Database -> Prop) {T} (q : Statement T)
  : Prop :=
  forall now d c d', q now d = Ok (c, d') -> R d d'.

(** Well-formedness carries over. *)
Definition keeps_well_formed (d d' : Database) : Prop :=
  well_formed d -> well_formed d'.

Definition not_connected : exn := RuntimeError (lit "Database not connected").


End MoreVocabulary.

(** * Scenarios

    Concrete environments, stores and runs at which the theorems are
    instantiated. *)

Definition gpt35 : str := lit "gpt-3.5-turbo".
Definition gpt4 : str := lit "gpt-4".
Definition gpt4_turbo : str := lit "gpt-4-turbo".

Definition demo_clock (n : nat) : Z := 1700000000 + Z.of_nat n.

Definition accepting (_ : nat) (_ : Outbound) : option exn := None.

(** The first model times out, the others answer. *)
Definition first_model_raises (_ : nat) (c : G4fCall) : outcome :=
  if PyStr.eqb (call_model c) gpt35 then Raised (BackendError 504)
  else Returned (PyStr (lit " Hello from the fallback ")).

(** The first model returns [None], the others answer. *)
Definition first_model_returns_none (_ : nat) (c : G4fCall) : outcome :=
  if PyStr.eqb (call_model c) gpt35 then Returned PyNone
  else Returned (PyStr (lit "Hello")).

(** No model raises, none returns a text. *)
Definition no_model_returns_text (_ : nat) (c : G4fCall) : outcome :=
  if PyStr.eqb (call_model c) gpt4 then Returned (PyStr []) else Returned PyNone.

(** The first model raises, the other two return [None]. *)
Definition raise_then_none (_ : nat) (c : G4fCall) : outcome :=
  if PyStr.eqb (call_model c) gpt35 then Raised (BackendError 500)
  else Returned PyNone.

(** Every model raises, each its own error. *)
Definition every_model_raises (n : nat) (_ : G4fCall) : outcome :=
  Raised (BackendError (N.of_nat n)).

Definition env_fallback : Env := mkEnv demo_clock first_model_raises accepting.
Definition env_none_first : Env := mkEnv demo_clock first_model_returns_none accepting.
Definition env_no_text : Env := mkEnv demo_clock no_model_returns_text accepting.
Definition env_raise_then_none : Env := mkEnv demo_clock raise_then_none accepting.
Definition env_all_raise : Env := mkEnv demo_clock every_model_raises accepting.

Definition hi : str := lit "Hi".

Definition test_prompt : list ChatMessage := [mkChat (lit "user") hi].

(** A store with two messages of user 1 and one of user 2. *)
Definition three_rows : World :=
  mkWorld
    (mkDatabase true
       [mkUser 1 42 None 100; mkUser 2 43 None 101]
       [mkMessage 1 1 (lit "user") hi 110;
        mkMessage 2 2 (lit "user") hi 111;
        mkMessage 3 1 (lit "assistant") (lit "Hello") 112]
       2 3 3)
    [] [] [] 0.

Definition mixed_calls : list Call :=
  [CreateMessage 1 (lit "user") hi;
   GetConversationHistory 1 1;
   CreateMessage 2 (lit "user") hi;
   CreateMessage 1 (lit "system") hi;
   GetConversationHistory 1 (-1);
   CreateMessage 1 (lit "assistant") (lit "Hello");
   ClearConversation 2;
   GetConversationHistory 1 0].

(** ** More environments and runs *)

(** A transport that refuses the typing action and accepts the answers. *)
Definition no_typing (_ : nat) (o : Outbound) : option exn :=
  match o with
  | ChatAction _ _ => Some (TransportError 403)
  | Answer _ => None
  end.

(** A transport that refuses every answer but the error text. *)
Definition no_replies (_ : nat) (o : Outbound) : option exn :=
  match o with
  | ChatAction _ _ => None
  | Answer t =>
      if PyStr.eqb t processing_error_text then None
      else Some (TransportError 400)
  end.

(** A backend that answers with two blanks. *)
Definition blank_answers (_ : nat) (_ : G4fCall) : outcome :=
  Returned (PyStr (lit "  ")).

Definition env_no_typing : Env := mkEnv demo_clock first_model_raises no_typing.
Definition env_no_replies : Env := mkEnv demo_clock first_model_raises no_replies.
Definition env_blank : Env := mkEnv demo_clock blank_answers accepting.

(** A text message of the user with [telegram_id] 42. *)
Definition hello_message : TgMessage :=
  mkTgMessage (Some (lit "Hello bot")) 42 (Some (lit "ann")) 7.

(** Without a connection. *)
Definition closed_world : World :=
  mkWorld (mkDatabase false [mkUser 1 42 None 100] [] 1 0 1) [] [] [] 0.

(** What the bot is given in the run below. *)
Definition busy_day : list Update :=
  [StartCommand hello_message;
   TextMessage hello_message new_AIService;
   Repository (CreateMessage 9 (lit "system") hi);
   ClearCommand hello_message;
   TextMessage (mkTgMessage (Some hi) 43 None 8) new_AIService;
   HelpCommand hello_message;
   Repository (UpdateUsername 42 (lit "ann"))].

(** The same without the direct repository calls. *)
Definition handled_only : list Update :=
  [StartCommand hello_message;
   TextMessage hello_message new_AIService;
   ClearCommand hello_message;
   TextMessage (mkTgMessage (Some hi) 43 (Some (lit "bob")) 8) new_AIService;
   HelpCommand hello_message].

(** * Properties *)

(** ** Strings *)

Module PyStrFacts.

Lemma lstrip_whitespace_only s : whitespace_only s -> lstrip s = [].
Proof.
  induction 1 as [|c s Hc _ IH]; simpl; [reflexivity|].
  now rewrite Hc.
Qed.

Lemma lstrip_nil_whitespace_only s : lstrip s = [] -> whitespace_only s.
Proof.
  induction s as [|c s IH]; simpl; intros H; [constructor|].
  destruct (isspace c) eqn:Hc; [|discriminate].
  constructor; [exact Hc|exact (IH H)].
Qed.

(** [lstrip] removes a whitespace prefix and nothing else. *)
Lemma lstrip_split s :
  exists pre, s = pre ++ lstrip s /\ whitespace_only pre.
Proof.
  induction s as [|c s [pre [E W]]]; simpl.
  - exists []. split; [reflexivity|constructor].
  - destruct (isspace c) eqn:Hc.
    + exists (c :: pre). split; [simpl; congruence|constructor; assumption].
    + exists []. split; [reflexivity|constructor].
Qed.

Lemma lstrip_head s c t : lstrip s = c :: t -> isspace c = false.
Proof.
  induction s as [|x s IH]; simpl; [discriminate|].
  destruct (isspace x) eqn:Hx; [assumption|].
  intros H. injection H as -> _. assumption.
Qed.

Lemma lstrip_fixed c t : isspace c = false -> lstrip (c :: t) = c :: t.
Proof. intros H. simpl. now rewrite H. Qed.

Lemma lstrip_snoc s c :
  isspace c = false -> lstrip (s ++ [c]) = lstrip s ++ [c].
Proof.
  intros Hc. induction s as [|x s IH]; simpl.
  - now rewrite Hc.
  - destruct (isspace x); [assumption|reflexivity].
Qed.

Lemma whitespace_only_rev s : whitespace_only s -> whitespace_only (rev s).
Proof.
  intros H. apply Forall_forall. intros c Hc.
  apply in_rev in Hc. revert c Hc. now apply Forall_forall.
Qed.

Lemma rstrip_split s :
  exists post, s = rstrip s ++ post /\ whitespace_only post.
Proof.
  unfold rstrip. destruct (lstrip_split (rev s)) as [pre [E W]].
  exists (rev pre). split.
  - rewrite <- rev_app_distr, <- E. now rewrite rev_involutive.
  - now apply whitespace_only_rev.
Qed.

Lemma rstrip_cons c t :
  isspace c = false -> rstrip (c :: t) = c :: rstrip t.
Proof.
  intros Hc. unfold rstrip. simpl.
  rewrite lstrip_snoc by assumption.
  now rewrite rev_app_distr.
Qed.

(** [strip] cuts a whitespace prefix and a whitespace suffix off. *)
Lemma strip_split s :
  exists pre post,
    s = pre ++ strip s ++ post /\ whitespace_only pre /\ whitespace_only post.
Proof.
  unfold strip.
  destruct (lstrip_split s) as [pre [E1 W1]].
  destruct (rstrip_split (lstrip s)) as [post [E2 W2]].
  exists pre, post. repeat split; try assumption.
  now rewrite <- E2.
Qed.

Lemma strip_first s c t : strip s = c :: t -> isspace c = false.
Proof.
  unfold strip. destruct (lstrip s) as [|x l] eqn:E.
  - discriminate.
  - pose proof (lstrip_head _ _ _ E) as Hx.
    rewrite rstrip_cons by assumption.
    intros H. injection H as <- _. assumption.
Qed.

Lemma strip_last s c t : rev (strip s) = c :: t -> isspace c = false.
Proof.
  unfold strip, rstrip. rewrite rev_involutive. apply lstrip_head.
Qed.

Lemma strip_whitespace_only s : whitespace_only s <-> strip s = [].
Proof.
  split.
  - intros H. unfold strip. now rewrite (lstrip_whitespace_only s H).
  - intros H. destruct (strip_split s) as [pre [post [E [W1 W2]]]].
    rewrite H in E. rewrite E. apply Forall_app. split; assumption.
Qed.

(** A string with no whitespace at either end is left alone. *)
Lemma rstrip_fixed s :
  (forall c t, rev s = c :: t -> isspace c = false) -> rstrip s = s.
Proof.
  intros H. unfold rstrip. destruct (rev s) as [|c t] eqn:E.
  - simpl. apply (f_equal (@rev N)) in E.
    now rewrite rev_involutive in E.
  - rewrite lstrip_fixed by (eapply H; reflexivity).
    rewrite <- E. apply rev_involutive.
Qed.

Lemma strip_idempotent s : strip (strip s) = strip s.
Proof.
  destruct (strip s) as [|c t] eqn:E; [reflexivity|].
  pose proof (strip_first _ _ _ E) as Hc.
  unfold strip at 1. rewrite lstrip_fixed by assumption.
  apply rstrip_fixed. rewrite <- E. apply strip_last.
Qed.

Lemma eqb_eq a b : PyStr.eqb a b = true <-> a = b.
Proof.
  unfold PyStr.eqb. destruct (list_eq_dec N.eq_dec a b); split;
    intros; congruence.
Qed.

End PyStrFacts.

(** ** The connection *)

Section ConnectionFacts.

Context {env : Env}.

Lemma execute_ok R (q : Statement R) w c d :
  is_connected (db w) = true ->
  q (current_timestamp (io_steps w)) (db w) = Ok (c, d) ->
  execute q w = (Ok c, set_db (tick w) d).
Proof.
  intros Hc Hq. unfold execute, get_connection, conn_execute.
  now rewrite Hc, Hq.
Qed.

Lemma execute_raise R (q : Statement R) w e :
  is_connected (db w) = true ->
  q (current_timestamp (io_steps w)) (db w) = Raise e ->
  execute q w = (Raise e, after_database_error w e).
Proof.
  intros Hc Hq. unfold execute, get_connection, conn_execute.
  now rewrite Hc, Hq.
Qed.

Lemma fetch_one_ok R (q : Statement R) w c d :
  is_connected (db w) = true ->
  q (current_timestamp (io_steps w)) (db w) = Ok (c, d) ->
  fetch_one q w = (Ok (hd_error (rows c)), set_db (tick w) d).
Proof.
  intros Hc Hq. unfold fetch_one, get_connection, conn_execute, bind.
  now rewrite Hc, Hq.
Qed.

Lemma fetch_all_ok R (q : Statement R) w c d :
  is_connected (db w) = true ->
  q (current_timestamp (io_steps w)) (db w) = Ok (c, d) ->
  fetch_all q w = (Ok (rows c), set_db (tick w) d).
Proof.
  intros Hc Hq. unfold fetch_all, get_connection, conn_execute, bind.
  now rewrite Hc, Hq.
Qed.

(** Without a connection nothing is touched. *)
Lemma get_connection_closed A (body : M A) w :
  is_connected (db w) = false ->
  get_connection body w
  = (Raise (RuntimeError (lit "Database not connected")), w).
Proof. intros Hc. unfold get_connection. now rewrite Hc. Qed.

End ConnectionFacts.

(** ** The user directory *)

Section UserFacts.

Context {env : Env}.

Lemma existsb_filter_nil A (f : A -> bool) l :
  filter f l = [] -> existsb f l = false.
Proof.
  induction l as [|x l IH]; simpl; [reflexivity|].
  destruct (f x); [discriminate|assumption].
Qed.

Lemma get_or_create_user_found telegram_id username w u rest :
  is_connected (db w) = true ->
  user_rows telegram_id (db w) = u :: rest ->
  get_or_create_user telegram_id username w
  = (Ok (Some u),
     mkWorld (db w) (log w ++ [(DEBUG, UserFound telegram_id)])
       (g4f_calls w) (outbox w) (S (io_steps w))).
Proof.
  intros Hc Hu. unfold get_or_create_user, bind at 1.
  erewrite fetch_one_ok by (try eassumption; reflexivity).
  simpl. unfold user_rows, has_telegram_id in Hu. rewrite Hu. simpl.
  destruct w as [d l g o n]. reflexivity.
Qed.

Lemma get_or_create_user_created telegram_id username w :
  is_connected (db w) = true ->
  user_rows telegram_id (db w) = [] ->
  get_or_create_user telegram_id username w
  = (Ok (Some (created_user telegram_id username w)),
     mkWorld (with_user (db w) (created_user telegram_id username w))
       (log w ++ [(INFO, NewUserCreated telegram_id username)])
       (g4f_calls w) (outbox w) (3 + io_steps w)).
Proof.
  intros Hc Hu. unfold user_rows, has_telegram_id in Hu.
  unfold get_or_create_user, bind at 1.
  erewrite fetch_one_ok by (try eassumption; reflexivity).
  simpl. rewrite Hu. simpl. unfold bind at 1.
  erewrite execute_ok; cycle 1.
  - simpl. assumption.
  - simpl. unfold insert_user. rewrite (existsb_filter_nil _ _ _ Hu).
    reflexivity.
  - unfold bind at 1.
    erewrite fetch_one_ok; cycle 1.
    + simpl. assumption.
    + reflexivity.
    + simpl. rewrite filter_app, Hu. simpl. rewrite Z.eqb_refl. simpl.
      destruct w as [d l g o n]. reflexivity.
Qed.

Lemma filter_none A (f : A -> bool) l :
  (forall x, In x l -> f x = false) -> filter f l = [].
Proof.
  induction l as [|x l IH]; simpl; intros H; [reflexivity|].
  rewrite (H x) by now left. apply IH. intros y Hy. apply H. now right.
Qed.

Lemma user_rows_unique telegram_id d u rest :
  unique_telegram_id d ->
  user_rows telegram_id d = u :: rest ->
  rest = [] /\ u_telegram_id u = telegram_id.
Proof.
  unfold unique_telegram_id, user_rows. generalize (users d) as l.
  induction l as [|x l IH]; simpl; intros Hnd Hf; [discriminate|].
  inversion Hnd as [|? ? Hnotin Hnd']; subst.
  unfold has_telegram_id at 1 in Hf.
  destruct (u_telegram_id x =? telegram_id) eqn:Hx.
  - injection Hf as -> Hrest. apply Z.eqb_eq in Hx. split; [|assumption].
    rewrite <- Hrest. apply filter_none. intros y Hy.
    unfold has_telegram_id. apply Z.eqb_neq. intros Heq.
    apply Hnotin. rewrite Hx, <- Heq. now apply in_map.
  - now apply IH.
Qed.

Lemma user_rows_nil_not_in telegram_id d :
  user_rows telegram_id d = [] ->
  ~ In telegram_id (map u_telegram_id (users d)).
Proof.
  unfold user_rows. intros Hf Hin. apply in_map_iff in Hin.
  destruct Hin as [x [Hx Hin]].
  assert (In x (filter (has_telegram_id telegram_id) (users d))) as H.
  { apply filter_In. split; [assumption|].
    unfold has_telegram_id. now apply Z.eqb_eq. }
  now rewrite Hf in H.
Qed.

Lemma with_user_unique d u :
  unique_telegram_id d ->
  user_rows (u_telegram_id u) d = [] ->
  unique_telegram_id (with_user d u).
Proof.
  unfold unique_telegram_id. intros Hnd Hf. simpl.
  rewrite map_app. simpl.
  apply NoDup_rev in Hnd. rewrite <- (rev_involutive (_ ++ _)).
  apply NoDup_rev. rewrite rev_app_distr. simpl.
  constructor; [|assumption].
  rewrite <- in_rev. now apply user_rows_nil_not_in.
Qed.

(** C1.  On a connected store that satisfies the UNIQUE constraint, two
    [get_or_create_user] calls with one [telegram_id] (whatever the user
    names) both return the same row, hence the same internal id; the second
    call leaves the store as the first left it; the first call adds one row
    exactly when the identity was unknown and none otherwise; afterwards
    there is exactly one row for the identity and the constraint holds. *)
Theorem get_or_create_user_twice telegram_id name1 name2 w :
  is_connected (db w) = true ->
  unique_telegram_id (db w) ->
  exists u w1 w2,
    get_or_create_user telegram_id name1 w = (Ok (Some u), w1) /\
    get_or_create_user telegram_id name2 w1 = (Ok (Some u), w2) /\
    u_telegram_id u = telegram_id /\
    db w2 = db w1 /\
    users (db w1)
    = (if existsb (has_telegram_id telegram_id) (users (db w))
       then users (db w) else users (db w) ++ [u]) /\
    messages (db w1) = messages (db w) /\
    user_rows telegram_id (db w2) = [u] /\
    unique_telegram_id (db w2).
Proof.
  intros Hc Hnd.
  destruct (user_rows telegram_id (db w)) as [|u rest] eqn:Hrows.
  - (* a new identity *)
    set (u := created_user telegram_id name1 w).
    set (w1 := mkWorld (with_user (db w) u)
                 (log w ++ [(INFO, NewUserCreated telegram_id name1)])
                 (g4f_calls w) (outbox w) (3 + io_steps w)).
    assert (user_rows telegram_id (db w1) = [u]) as Hrows1.
    { unfold user_rows in *. simpl. rewrite filter_app, Hrows. simpl.
      unfold has_telegram_id at 1. simpl. now rewrite Z.eqb_refl. }
    eexists u, w1, _. split; [|split].
    + now apply get_or_create_user_created.
    + apply (get_or_create_user_found _ _ w1 u []); [exact Hc|exact Hrows1].
    + simpl. repeat split; try assumption.
      * rewrite (existsb_filter_nil _ _ _ Hrows). reflexivity.
      * now apply with_user_unique.
  - (* a known identity *)
    destruct (user_rows_unique _ _ _ _ Hnd Hrows) as [-> Htid].
    set (w1 := mkWorld (db w) (log w ++ [(DEBUG, UserFound telegram_id)])
                 (g4f_calls w) (outbox w) (S (io_steps w))).
    eexists u, w1, _. split; [|split].
    + now apply (get_or_create_user_found _ _ w u []).
    + now apply (get_or_create_user_found _ _ w1 u []).
    + simpl. repeat split; try assumption.
      assert (In u (filter (has_telegram_id telegram_id) (users (db w)))) as Hin.
      { fold (user_rows telegram_id (db w)). rewrite Hrows. now left. }
      assert (existsb (has_telegram_id telegram_id) (users (db w)) = true) as ->.
      { apply existsb_exists. exists u. now apply filter_In in Hin. }
      reflexivity.
Qed.

End UserFacts.

(** ** The conversation log *)

Section SortedFacts.

Context {A : Type} (R : A -> A -> Prop).

Lemma firstn_incl n (l : list A) x : In x (firstn n l) -> In x l.
Proof.
  revert n. induction l as [|y l IH]; intros [|n]; simpl; try tauto.
  intros [->|H]; [now left|right; eauto].
Qed.

Lemma StronglySorted_firstn n (l : list A) :
  StronglySorted R l -> StronglySorted R (firstn n l).
Proof.
  intros H. revert n. induction H as [|x l Hs IH Hx]; intros [|n]; simpl;
    try constructor.
  - apply IH.
  - apply Forall_forall. intros y Hy. apply firstn_incl in Hy.
    revert y Hy. now apply Forall_forall.
Qed.

Lemma StronglySorted_snoc (l : list A) a :
  StronglySorted R l -> Forall (fun x => R x a) l ->
  StronglySorted R (l ++ [a]).
Proof.
  induction 1 as [|x l Hs IH Hx]; simpl; intros Ha.
  - repeat constructor.
  - inversion Ha; subst. constructor; [now apply IH|].
    apply Forall_app. split; [assumption|now constructor].
Qed.

Lemma StronglySorted_cross (l1 l2 : list A) x y :
  StronglySorted R (l1 ++ l2) -> In x l1 -> In y l2 -> R x y.
Proof.
  induction l1 as [|a l1 IH]; simpl; intros Hs Hx Hy; [contradiction|].
  inversion Hs as [|? ? Hs' Ha]; subst.
  destruct Hx as [->|Hx]; [|now apply IH].
  rewrite Forall_forall in Ha. apply Ha. apply in_or_app. now right.
Qed.

End SortedFacts.

Lemma StronglySorted_rev A (R : A -> A -> Prop) (l : list A) :
  StronglySorted R l -> StronglySorted (fun a b => R b a) (rev l).
Proof.
  induction 1 as [|x l Hs IH Hx]; simpl; [constructor|].
  apply StronglySorted_snoc; [assumption|].
  apply Forall_forall. intros y Hy. apply in_rev in Hy.
  revert y Hy. now apply Forall_forall.
Qed.

Lemma StronglySorted_map A B (f : A -> B) (R : B -> B -> Prop) (l : list A) :
  StronglySorted (fun a b => R (f a) (f b)) l -> StronglySorted R (map f l).
Proof.
  induction 1 as [|x l Hs IH Hx]; simpl; constructor; [assumption|].
  apply Forall_forall. intros y Hy. apply in_map_iff in Hy.
  destruct Hy as [z [<- Hz]]. revert z Hz. now apply Forall_forall.
Qed.

Section LogFacts.

Context {env : Env}.

Lemma insert_desc_perm m l : Permutation (insert_desc m l) (m :: l).
Proof.
  induction l as [|x l IH]; simpl; [reflexivity|].
  destruct (m_created_at x <=? m_created_at m); [reflexivity|].
  rewrite IH. apply perm_swap.
Qed.

Lemma insert_desc_sorted m l :
  StronglySorted not_older l -> StronglySorted not_older (insert_desc m l).
Proof.
  induction 1 as [|x l Hs IH Hx]; simpl; [repeat constructor|].
  destruct (m_created_at x <=? m_created_at m) eqn:E.
  - apply Z.leb_le in E. constructor; [now constructor|].
    constructor; [exact E|].
    rewrite Forall_forall in *. intros y Hy. specialize (Hx y Hy).
    unfold not_older in *. lia.
  - apply Z.leb_gt in E. constructor; [assumption|].
    apply Forall_forall. intros y Hy.
    apply (Permutation_in _ (insert_desc_perm m l)) in Hy.
    destruct Hy as [<-|Hy].
    + unfold not_older. lia.
    + revert y Hy. now apply Forall_forall.
Qed.

Lemma order_by_created_at_desc_perm l :
  Permutation (order_by_created_at_desc l) l.
Proof.
  induction l as [|x l IH]; simpl; [reflexivity|].
  rewrite insert_desc_perm. now constructor.
Qed.

Lemma order_by_created_at_desc_sorted l :
  StronglySorted not_older (order_by_created_at_desc l).
Proof.
  induction l as [|x l IH]; simpl; [constructor|].
  now apply insert_desc_sorted.
Qed.

Lemma get_conversation_history_ok user_id limit w :
  is_connected (db w) = true ->
  get_conversation_history user_id limit w
  = (Ok (history_of user_id limit (db w)), tick w).
Proof.
  intros Hc. unfold get_conversation_history.
  erewrite fetch_all_ok by (try eassumption; reflexivity).
  simpl. destruct w as [d l g o n]. reflexivity.
Qed.

Lemma history_of_newest_first user_id limit d :
  newest_first (history_of user_id limit d).
Proof.
  unfold newest_first, history_of. apply StronglySorted_map. simpl.
  pose proof (order_by_created_at_desc_sorted (user_messages user_id d)) as H.
  unfold sql_limit. destruct (limit <? 0); [exact H|].
  now apply StronglySorted_firstn.
Qed.

(** C5, as the code has it.  On a connected store and for a limit that is
    not negative, [get_conversation_history] returns, without touching the
    store, at most [limit] rows; they are newest first, so their reversal
    is in non-decreasing creation order; and they are the newest rows of the
    user: the user's other rows are none of them newer than a returned
    one. *)
Theorem get_conversation_history_window user_id limit w :
  is_connected (db w) = true ->
  0 <= limit ->
  exists rows,
    get_conversation_history user_id limit w = (Ok rows, tick w) /\
    Z.of_nat (List.length rows) <= limit /\
    newest_first rows /\
    chronological (rev rows) /\
    exists older,
      Permutation (map history_row (user_messages user_id (db w)))
        (rows ++ older) /\
      forall r o, In r rows -> In o older -> h_created_at o <= h_created_at r.
Proof.
  intros Hc Hl. exists (history_of user_id limit (db w)).
  split; [now apply get_conversation_history_ok|].
  pose proof (history_of_newest_first user_id limit (db w)) as Hnew.
  split; [|split; [exact Hnew|split]].
  - unfold history_of, sql_limit.
    destruct (limit <? 0) eqn:E; [apply Z.ltb_lt in E; lia|].
    rewrite length_map.
    pose proof (firstn_le_length (Z.to_nat limit)
                  (order_by_created_at_desc (user_messages user_id (db w)))).
    lia.
  - apply (StronglySorted_rev _ _ _ Hnew).
  - set (sorted := order_by_created_at_desc (user_messages user_id (db w))).
    exists (map history_row (skipn (Z.to_nat limit) sorted)). split.
    + unfold history_of, sql_limit. fold sorted.
      destruct (limit <? 0) eqn:E; [apply Z.ltb_lt in E; lia|].
      rewrite <- map_app, firstn_skipn. apply Permutation_map.
      symmetry. apply order_by_created_at_desc_perm.
    + intros r o Hr Ho.
      assert (StronglySorted (fun a b => h_created_at b <= h_created_at a)
                (history_of user_id limit (db w)
                 ++ map history_row (skipn (Z.to_nat limit) sorted))) as Hs.
      { unfold history_of, sql_limit. fold sorted.
        destruct (limit <? 0) eqn:E; [apply Z.ltb_lt in E; lia|].
        rewrite <- map_app, firstn_skipn. apply StronglySorted_map.
        apply order_by_created_at_desc_sorted. }
      exact (StronglySorted_cross _ _ _ _ _ Hs Hr Ho).
Qed.

Lemma filter_owned_not_owned user_id l :
  filter (owned_by user_id) (filter (not_owned_by user_id) l) = [].
Proof.
  apply filter_none. intros m Hm. apply filter_In in Hm.
  destruct Hm as [_ Hm]. unfold not_owned_by, owned_by in *.
  now destruct (m_user_id m =? user_id).
Qed.

Lemma filter_other_not_owned user_id other l :
  other <> user_id ->
  filter (owned_by other) (filter (not_owned_by user_id) l)
  = filter (owned_by other) l.
Proof.
  intros Hne. induction l as [|m l IH]; simpl; [reflexivity|].
  unfold not_owned_by at 1, owned_by at 2.
  destruct (m_user_id m =? user_id) eqn:E1; simpl.
  - apply Z.eqb_eq in E1.
    assert ((m_user_id m =? other) = false) as -> by (apply Z.eqb_neq; congruence).
    exact IH.
  - unfold owned_by at 1. destruct (m_user_id m =? other); [f_equal|]; exact IH.
Qed.

Lemma clear_conversation_ok user_id w :
  is_connected (db w) = true ->
  clear_conversation user_id w
  = (Ok (0 <? Z.of_nat (List.length (user_messages user_id (db w)))),
     cleared user_id w).
Proof.
  intros Hc. unfold clear_conversation, bind at 1.
  erewrite execute_ok by (try eassumption; reflexivity).
  unfold cleared, user_messages, owned_by. simpl.
  destruct (0 <? Z.of_nat _); destruct w as [d l g o n]; simpl.
  - reflexivity.
  - now rewrite app_nil_r.
Qed.

(** C7.  On a connected store, [clear_conversation] removes every message
    row of the user and no other row (the rows of any other user stay as
    they were, in their order), leaves the users table alone, and returns
    [true] exactly when the user had at least one row. *)
Theorem clear_conversation_frame user_id w :
  is_connected (db w) = true ->
  exists deleted w',
    clear_conversation user_id w = (Ok deleted, w') /\
    user_messages user_id (db w') = [] /\
    (forall other, other <> user_id ->
       user_messages other (db w') = user_messages other (db w)) /\
    messages (db w') = filter (not_owned_by user_id) (messages (db w)) /\
    users (db w') = users (db w) /\
    (deleted = true <-> exists m, In m (messages (db w)) /\ m_user_id m = user_id).
Proof.
  intros Hc. eexists _, (cleared user_id w).
  split; [now apply clear_conversation_ok|].
  split; [apply filter_owned_not_owned|].
  split; [intros other Hne; now apply filter_other_not_owned|].
  split; [reflexivity|]. split; [reflexivity|].
  unfold user_messages. split.
  - intros H. apply Z.ltb_lt in H.
    destruct (filter (owned_by user_id) (messages (db w))) as [|m l] eqn:E;
      [simpl in H; lia|].
    assert (In m (filter (owned_by user_id) (messages (db w)))) as Hin
        by (rewrite E; now left).
    apply filter_In in Hin. destruct Hin as [Hin Ho].
    exists m. split; [assumption|]. now apply Z.eqb_eq.
  - intros [m [Hin Hm]]. apply Z.ltb_lt.
    assert (In m (filter (owned_by user_id) (messages (db w)))) as Hf.
    { apply filter_In. split; [assumption|]. now apply Z.eqb_eq. }
    destruct (filter (owned_by user_id) (messages (db w)));
      [contradiction|simpl; lia].
Qed.

Lemma create_message_ok user_id r c w :
  is_connected (db w) = true ->
  role_check r = true ->
  exists row,
    create_message user_id r c w
    = (Ok row,
       mkWorld (with_message (db w) (created_message user_id r c w))
         (log w ++ [(DEBUG, MessageCreated user_id r)])
         (g4f_calls w) (outbox w) (2 + io_steps w)).
Proof.
  intros Hc Hr. unfold create_message, bind at 1.
  erewrite execute_ok; cycle 1.
  - exact Hc.
  - unfold insert_message. rewrite Hr. reflexivity.
  - unfold bind at 1. erewrite fetch_one_ok; cycle 1.
    + simpl. exact Hc.
    + reflexivity.
    + eexists. destruct w as [d l g o n]. reflexivity.
Qed.

Lemma create_message_rejected user_id r c w :
  is_connected (db w) = true ->
  role_check r = false ->
  create_message user_id r c w
  = (Raise (IntegrityError (lit "CHECK constraint failed: role")),
     after_database_error w
       (IntegrityError (lit "CHECK constraint failed: role"))).
Proof.
  intros Hc Hr. unfold create_message, bind at 1.
  erewrite execute_raise; [reflexivity|exact Hc|].
  unfold insert_message. now rewrite Hr.
Qed.

Lemma get_message_count_ok user_id w :
  is_connected (db w) = true ->
  get_message_count user_id w
  = (Ok (Z.of_nat (List.length (user_messages user_id (db w)))), tick w).
Proof.
  intros Hc. unfold get_message_count, bind.
  erewrite fetch_one_ok by (try eassumption; reflexivity).
  destruct w as [d l g o n]. reflexivity.
Qed.

Lemma get_user_by_id_ok user_id w :
  is_connected (db w) = true ->
  get_user_by_id user_id w
  = (Ok (hd_error (filter (fun u => u_id u =? user_id) (users (db w)))), tick w).
Proof.
  intros Hc. unfold get_user_by_id.
  erewrite fetch_one_ok by (try eassumption; reflexivity).
  destruct w as [d l g o n]. reflexivity.
Qed.

Lemma update_username_ok telegram_id username w :
  is_connected (db w) = true ->
  exists b us,
    update_username telegram_id username w
    = (Ok b,
       mkWorld
         (mkDatabase (is_connected (db w)) us (messages (db w))
            (users_seq (db w)) (messages_seq (db w)) (last_insert_rowid (db w)))
         (log w) (g4f_calls w) (outbox w) (S (io_steps w))) /\
    map u_telegram_id us = map u_telegram_id (users (db w)).
Proof.
  intros Hc. unfold update_username, bind.
  erewrite execute_ok by (try eassumption; reflexivity).
  eexists _, _. split; [reflexivity|].
  rewrite map_map. apply map_ext. intros u.
  now destruct (u_telegram_id u =? telegram_id).
Qed.

Lemma run_call_step user_id c w :
  is_connected (db w) = true ->
  is_clear_of user_id c = false ->
  is_connected (db (snd (run_call c w))) = true /\
  List.length (user_messages user_id (db (snd (run_call c w))))
  = (List.length (user_messages user_id (db w))
     + appended user_id c (fst (run_call c w)))%nat.
Proof.
  intros Hc Hnc. destruct c as [u r c|u limit|u|u|t n|u|t n];
    unfold run_call, returns; simpl appended.
  - destruct (role_check r) eqn:Hr.
    + destruct (create_message_ok u r c w Hc Hr) as [row ->]. simpl.
      split; [assumption|].
      unfold user_messages. simpl. rewrite filter_app, length_app. simpl.
      unfold owned_by at 2. simpl. destruct (u =? user_id); simpl; lia.
    + rewrite (create_message_rejected u r c w Hc Hr). simpl.
      split; [assumption|lia].
  - rewrite (get_conversation_history_ok u limit w Hc). simpl.
    split; [assumption|lia].
  - rewrite (get_message_count_ok u w Hc). simpl. split; [assumption|lia].
  - rewrite (clear_conversation_ok u w Hc). simpl. split; [assumption|].
    simpl in Hnc. apply Z.eqb_neq in Hnc.
    unfold user_messages at 1. simpl.
    rewrite filter_other_not_owned by congruence.
    unfold user_messages. lia.
  - destruct (user_rows t (db w)) as [|x rest] eqn:Hrows.
    + rewrite (get_or_create_user_created t n w Hc Hrows). simpl.
      split; [assumption|]. unfold user_messages. simpl. lia.
    + rewrite (get_or_create_user_found t n w x rest Hc Hrows). simpl.
      split; [assumption|lia].
  - rewrite (get_user_by_id_ok u w Hc). simpl. split; [assumption|lia].
  - destruct (update_username_ok t n w Hc) as [b [us [-> _]]]. simpl.
    split; [assumption|]. unfold user_messages. simpl. lia.
Qed.

(** Without a connection a call changes nothing. *)
Lemma run_call_closed c w :
  is_connected (db w) = false -> snd (run_call c w) = w.
Proof.
  intros Hc. destruct c; unfold run_call, returns;
    unfold create_message, get_conversation_history, get_message_count,
      clear_conversation, get_or_create_user, get_user_by_id, update_username,
      bind, execute, fetch_one, fetch_all;
    rewrite get_connection_closed by exact Hc; reflexivity.
Qed.

(** The UNIQUE constraint on [users.telegram_id] is an invariant of the
    repository: no call breaks it. *)
Lemma run_call_unique c w :
  unique_telegram_id (db w) -> unique_telegram_id (db (snd (run_call c w))).
Proof.
  intros Hu. destruct (is_connected (db w)) eqn:Hc;
    [|now rewrite run_call_closed].
  destruct c as [u r c|u limit|u|u|t n|u|t n]; unfold run_call, returns.
  - destruct (role_check r) eqn:Hr.
    + now destruct (create_message_ok u r c w Hc Hr) as [row ->].
    + now rewrite (create_message_rejected u r c w Hc Hr).
  - now rewrite (get_conversation_history_ok u limit w Hc).
  - now rewrite (get_message_count_ok u w Hc).
  - now rewrite (clear_conversation_ok u w Hc).
  - destruct (user_rows t (db w)) as [|x rest] eqn:Hrows.
    + rewrite (get_or_create_user_created t n w Hc Hrows). simpl.
      now apply with_user_unique.
    + now rewrite (get_or_create_user_found t n w x rest Hc Hrows).
  - now rewrite (get_user_by_id_ok u w Hc).
  - destruct (update_username_ok t n w Hc) as [b [us [-> Hus]]].
    unfold unique_telegram_id in *. simpl. now rewrite Hus.
Qed.

Lemma run_calls_unique cs w :
  unique_telegram_id (db w) -> unique_telegram_id (db (run_calls cs w)).
Proof.
  revert w. induction cs as [|c cs IH]; intros w Hu; simpl; [assumption|].
  apply IH. now apply run_call_unique.
Qed.

(** Every store reached from the one [connect()] leaves has one users row per
    [telegram_id] at most. *)
Lemma reachable_unique cs :
  unique_telegram_id (db (run_calls cs fresh_world)).
Proof. apply run_calls_unique. constructor. Qed.

(** C8.  Run any sequence of repository calls on a connected store, with
    whatever limits in its [get_conversation_history] calls, and without a
    [clear_conversation] of the user: [get_message_count] then returns the
    number of rows the user had before plus the number of [create_message]
    calls for the user that returned. *)
Theorem get_message_count_appends user_id cs w :
  is_connected (db w) = true ->
  forallb (fun c => negb (is_clear_of user_id c)) cs = true ->
  get_message_count user_id (run_calls cs w)
  = (Ok (Z.of_nat (List.length (user_messages user_id (db w)))
         + Z.of_nat (successful_appends user_id cs w)),
     tick (run_calls cs w)).
Proof.
  revert w. induction cs as [|c cs IH]; intros w Hc Hcs; simpl.
  - rewrite (get_message_count_ok user_id w Hc). f_equal. f_equal. lia.
  - simpl in Hcs. apply andb_true_iff in Hcs. destruct Hcs as [Hc1 Hcs].
    apply negb_true_iff in Hc1.
    destruct (run_call_step user_id c w Hc Hc1) as [Hc' Hlen].
    rewrite (IH _ Hc' Hcs), Hlen. f_equal. f_equal. lia.
Qed.

End LogFacts.

(** ** The generation client *)

Section GenerationFacts.

Context {env : Env}.

Lemma try_model_eq self m messages last w :
  let o := g4f_create (io_steps w) (create_call self m messages) in
  try_model self m messages last w
  = (Ok (text_of o, match o with Raised e => Some e | Returned _ => last end),
     after_attempt self messages m w).
Proof.
  unfold try_model, try_except, bind, run_in_executor, logger, ret,
    after_attempt, attempt_log. simpl.
  destruct (g4f_create (io_steps w) (create_call self m messages))
    as [e|[s| |]]; simpl;
    [rewrite <- app_assoc; reflexivity| |reflexivity|reflexivity].
  destruct (truthy s); simpl; [rewrite <- app_assoc|]; reflexivity.
Qed.

Lemma call_g4f_loop_cons self m models messages last w :
  call_g4f_loop self (m :: models) messages last w
  = match text_of (g4f_create (io_steps w) (create_call self m messages)) with
    | Some s => (Ok s, after_attempt self messages m w)
    | None =>
        call_g4f_loop self models messages
          (match g4f_create (io_steps w) (create_call self m messages) with
           | Raised e => Some e
           | Returned _ => last
           end)
          (after_attempt self messages m w)
    end.
Proof.
  simpl. unfold bind at 1. rewrite try_model_eq.
  destruct (text_of _); reflexivity.
Qed.

(** While attempts fail the loop moves on, remembering the last exception
    raised. *)
Lemma call_g4f_loop_failed_prefix self tried rest messages last w :
  Forall failed (attempts self messages (io_steps w) tried) ->
  call_g4f_loop self (tried ++ rest) messages last w
  = call_g4f_loop self rest messages
      (last_raised last (attempts self messages (io_steps w) tried))
      (after_attempts self messages tried w).
Proof.
  revert last w. induction tried as [|m tried IH]; intros last w Hf;
    [reflexivity|].
  simpl in Hf. inversion Hf as [|? ? Hm Hf']; subst.
  change ((m :: tried) ++ rest) with (m :: (tried ++ rest)).
  rewrite call_g4f_loop_cons. unfold failed in Hm. rewrite Hm.
  rewrite IH by exact Hf'. reflexivity.
Qed.

Lemma after_attempts_frame self messages models w :
  db (after_attempts self messages models w) = db w /\
  outbox (after_attempts self messages models w) = outbox w /\
  io_steps (after_attempts self messages models w)
  = (io_steps w + List.length models)%nat /\
  g4f_calls (after_attempts self messages models w)
  = g4f_calls w ++ map (fun m => create_call self m messages) models.
Proof.
  revert w. induction models as [|m models IH]; intros w; simpl.
  - repeat split; [lia|now rewrite app_nil_r].
  - destruct (IH (after_attempt self messages m w)) as [H1 [H2 [H3 H4]]].
    rewrite H1, H2, H3, H4. simpl. repeat split; [lia|].
    now rewrite <- app_assoc.
Qed.

Lemma after_attempts_log self messages models w :
  log (after_attempts self messages models w)
  = log w ++ attempts_log self messages (io_steps w) models.
Proof.
  revert w. induction models as [|m models IH]; intros w; simpl.
  - now rewrite app_nil_r.
  - rewrite IH. simpl. now rewrite <- app_assoc.
Qed.

(** Every attempt that raised has its WARNING record. *)
Lemma attempts_log_raised self messages n models i m e :
  nth_error models i = Some m ->
  g4f_create (n + i) (create_call self m messages) = Raised e ->
  In (WARNING, ModelFailed m e) (attempts_log self messages n models).
Proof.
  revert n i. induction models as [|x models IH]; intros n [|i] Hi He;
    simpl in Hi; try discriminate; cbn [attempts_log]; apply in_or_app.
  - injection Hi as ->. rewrite Nat.add_0_r in He. rewrite He.
    left. simpl. right. now left.
  - right. apply (IH (S n) i Hi).
    now replace (S n + i)%nat with (n + S i)%nat by lia.
Qed.

(** An attempt that returned no text leaves only its DEBUG record. *)
Lemma attempts_log_non_text self messages n models :
  forallb non_text (attempts self messages n models) = true ->
  attempts_log self messages n models
  = map (fun m => (DEBUG, TryingModel m)) models.
Proof.
  revert n. induction models as [|m models IH]; intros n H; simpl in *;
    [reflexivity|].
  apply andb_true_iff in H. destruct H as [Hm H].
  rewrite (IH _ H). unfold attempt_log, non_text in *.
  destruct (g4f_create n (create_call self m messages)); [discriminate|].
  destruct (text_of (Returned v)); [discriminate|reflexivity].
Qed.

Lemma non_text_failed outs :
  forallb non_text outs = true -> Forall failed outs.
Proof.
  induction outs as [|o outs IH]; simpl; intros H; constructor;
    apply andb_true_iff in H; destruct H as [Ho H]; [|now apply IH].
  unfold non_text, failed in *. destruct o; [discriminate|].
  now destruct (text_of (Returned v)).
Qed.

Lemma last_raised_non_text last outs :
  forallb non_text outs = true -> last_raised last outs = last.
Proof.
  revert last. induction outs as [|o outs IH]; intros last H; simpl in *;
    [reflexivity|].
  apply andb_true_iff in H. destruct H as [Ho H].
  destruct o; [discriminate|]. now apply IH.
Qed.

(** Whatever the backend does, the loop calls a prefix of the list, in the
    order of the list, each model once; it touches neither the store nor the
    outbox; and it raises nothing but the aggregate. *)
Lemma call_g4f_loop_frame self models messages last w :
  exists tried rest w',
    models = tried ++ rest /\
    snd (call_g4f_loop self models messages last w) = w' /\
    db w' = db w /\ outbox w' = outbox w /\
    g4f_calls w' = g4f_calls w ++ calls_for self messages tried /\
    io_steps w' = (io_steps w + List.length tried)%nat /\
    (models <> [] -> tried <> []) /\
    match fst (call_g4f_loop self models messages last w) with
    | Ok s => s <> []
    | Raise e => exists c, e = AllModelsFailed c
    end.
Proof.
  revert last w. induction models as [|m models IH]; intros last w.
  - exists [], [], (snd (call_g4f_loop self [] messages last w)).
    simpl. repeat split; eauto; try lia. now rewrite app_nil_r.
  - rewrite call_g4f_loop_cons.
    destruct (text_of (g4f_create (io_steps w) (create_call self m messages)))
      as [s|] eqn:Ht.
    + exists [m], models, (after_attempt self messages m w). simpl.
      repeat split; try lia; try discriminate.
      unfold text_of in Ht.
      destruct (g4f_create _ _) as [e|[x| |]]; try discriminate.
      destruct x; simpl in Ht; [discriminate|]. injection Ht as <-.
      discriminate.
    + match goal with |- context [call_g4f_loop self models messages ?l ?w0] =>
        destruct (IH l w0) as [tried [rest [w' [E [Hw [Hd [Ho [Hg [Hi [_ Hv]]]]]]]]]]
      end.
      exists (m :: tried), rest, w'. simpl in *.
      rewrite Hd, Ho, Hg, Hi. subst models.
      repeat split; try assumption; try lia; try discriminate.
      now rewrite <- app_assoc.
Qed.

Lemma attempts_log_app self messages n l1 l2 :
  attempts_log self messages n (l1 ++ l2)
  = attempts_log self messages n l1
    ++ attempts_log self messages (n + List.length l1) l2.
Proof.
  revert n. induction l1 as [|x l1 IH]; intros n; simpl.
  - now rewrite Nat.add_0_r.
  - rewrite IH, <- app_assoc. simpl.
    now replace (n + S (List.length l1))%nat with (S (n + List.length l1)) by lia.
Qed.

(** C3, as the code has it.  When the attempts on the models before [m]
    in the list fail (raise, or return no text) and the attempt on [m]
    returns a text, [_call_g4f] returns that text and raises nothing; the
    backend was called for those models and [m], in the order of the list,
    once each, and for no model after [m]; the log gains the records of
    those attempts ([attempt_log]), among them the WARNING record of each
    attempt that raised; store and outbox are as before. *)
Theorem call_g4f_fallback self messages w tried m rest s :
  available_models self = tried ++ m :: rest ->
  Forall failed (attempts self messages (io_steps w) tried) ->
  text_of (g4f_create (io_steps w + List.length tried)
             (create_call self m messages)) = Some s ->
  exists w',
    _call_g4f self messages w = (Ok s, w') /\
    g4f_calls w' = g4f_calls w ++ calls_for self messages (tried ++ [m]) /\
    log w' = log w ++ attempts_log self messages (io_steps w) (tried ++ [m]) /\
    (forall i x e,
        nth_error tried i = Some x ->
        g4f_create (io_steps w + i) (create_call self x messages) = Raised e ->
        In (WARNING, ModelFailed x e)
          (attempts_log self messages (io_steps w) (tried ++ [m]))) /\
    db w' = db w /\ outbox w' = outbox w.
Proof.
  intros Hm Hf Hs. unfold _call_g4f. rewrite Hm.
  rewrite call_g4f_loop_failed_prefix by exact Hf.
  rewrite call_g4f_loop_cons.
  destruct (after_attempts_frame self messages tried w) as [Hd [Ho [Hi Hg]]].
  rewrite Hi, Hs.
  eexists. split; [reflexivity|]. simpl.
  rewrite Hd, Ho, Hg, Hi, after_attempts_log, attempts_log_app.
  repeat split.
  - unfold calls_for. now rewrite map_app, <- app_assoc.
  - rewrite <- app_assoc. simpl. now rewrite app_nil_r.
  - intros i x e Hx He. apply in_or_app. left.
    eapply attempts_log_raised; eassumption.
Qed.

Lemma attempts_length self messages n models :
  List.length (attempts self messages n models) = List.length models.
Proof.
  revert n. induction models as [|m models IH]; intros n; simpl; auto.
Qed.

Lemma call_g4f_all_failed self messages w :
  Forall failed (attempts self messages (io_steps w) (available_models self)) ->
  _call_g4f self messages w
  = (Raise (AllModelsFailed
              (last_raised None
                 (attempts self messages (io_steps w) (available_models self)))),
     snd (logger ERROR
            (AllFailed
               (last_raised None
                  (attempts self messages (io_steps w) (available_models self))))
            (after_attempts self messages (available_models self) w))).
Proof.
  intros Hf. unfold _call_g4f.
  rewrite <- (app_nil_r (available_models self)) at 1.
  rewrite call_g4f_loop_failed_prefix by exact Hf. reflexivity.
Qed.

(** C4, as the code has it.  [generate_response] returns a text whatever
    the backend does.  When the attempt on every model of the list fails,
    [_call_g4f] has called each model once, in order, and raises the
    aggregate error, whose cause is the exception of the last attempt that
    raised (no cause when none raised); and [generate_response] returns the
    apology, with store and outbox untouched. *)
Theorem generate_response_all_failed self message history w :
  (exists reply w', generate_response self message history w = (Ok reply, w')) /\
  (Forall failed
     (attempts self (build_messages message history) (io_steps w)
        (available_models self)) ->
   exists w1 w2,
     _call_g4f self (build_messages message history) w
     = (Raise (AllModelsFailed
                 (last_raised None
                    (attempts self (build_messages message history)
                       (io_steps w) (available_models self)))), w1) /\
     g4f_calls w1
     = g4f_calls w
       ++ calls_for self (build_messages message history) (available_models self) /\
     generate_response self message history w = (Ok apology, w2) /\
     db w2 = db w /\ outbox w2 = outbox w).
Proof.
  split.
  - unfold generate_response, try_except, bind, logger, ret.
    destruct (_call_g4f self (build_messages message history) w) as [[s|e] w'];
      simpl; eauto.
  - intros Hf. pose proof (call_g4f_all_failed _ _ _ Hf) as Hcall.
    destruct (after_attempts_frame self (build_messages message history)
                (available_models self) w) as [Hd [Ho [Hi Hg]]].
    eexists _, _. split; [exact Hcall|].
    split; [simpl; exact Hg|].
    unfold generate_response, try_except, bind at 1. rewrite Hcall.
    simpl. repeat split; assumption.
Qed.

(** C10.  An attempt that returns without raising, but returns no text (not
    a [str], or the empty one), sends the loop on to the next model with the
    recorded last exception unchanged and with no record in the log beyond
    the DEBUG line written before the call.  So when every model of the list
    answers that way, [_call_g4f] raises the aggregate error with no cause,
    and the log holds no failure record of any attempt. *)
Theorem non_text_result_not_recorded self messages :
  (forall m models last w v,
      g4f_create (io_steps w) (create_call self m messages) = Returned v ->
      text_of (Returned v) = None ->
      call_g4f_loop self (m :: models) messages last w
      = call_g4f_loop self models messages last
          (mkWorld (db w) (log w ++ [(DEBUG, TryingModel m)])
             (g4f_calls w ++ [create_call self m messages]) (outbox w)
             (S (io_steps w)))) /\
  (forall w,
      forallb non_text
        (attempts self messages (io_steps w) (available_models self)) = true ->
      exists w',
        _call_g4f self messages w = (Raise (AllModelsFailed None), w') /\
        log w'
        = log w ++ map (fun m => (DEBUG, TryingModel m)) (available_models self)
                ++ [(ERROR, AllFailed None)]).
Proof.
  split.
  - intros m models last w v Hv Ht.
    rewrite call_g4f_loop_cons. rewrite Hv, Ht.
    unfold after_attempt, attempt_log. rewrite Hv, Ht. reflexivity.
  - intros w Hn.
    rewrite (call_g4f_all_failed _ _ _ (non_text_failed _ Hn)).
    rewrite (last_raised_non_text _ _ Hn).
    eexists. split; [reflexivity|]. simpl.
    rewrite after_attempts_log, (attempts_log_non_text _ _ _ _ Hn).
    now rewrite <- app_assoc.
Qed.

Lemma strip_apology : strip apology = apology.
Proof. reflexivity. Qed.

(** [generate_response] in full generality: it returns a text with no
    whitespace at either end, after calls to a non-empty prefix of the model
    list, all with the prompt it built, and touches neither store nor
    outbox. *)
Lemma generate_response_frame self message history w :
  exists reply w' tried rest,
    generate_response self message history w = (Ok reply, w') /\
    strip reply = reply /\
    db w' = db w /\ outbox w' = outbox w /\
    available_models self = tried ++ rest /\
    (available_models self <> [] -> tried <> []) /\
    g4f_calls w'
    = g4f_calls w ++ calls_for self (build_messages message history) tried.
Proof.
  destruct (call_g4f_loop_frame self (available_models self)
              (build_messages message history) None w)
    as [tried [rest [w' [E [Hw [Hd [Ho [Hg [Hi [Hne Hv]]]]]]]]]].
  unfold generate_response, try_except, bind, logger, ret, _call_g4f.
  destruct (call_g4f_loop self (available_models self)
              (build_messages message history) None w) as [[s|e] w0];
    simpl in *; subst w0.
  - eexists _, _, tried, rest. split; [reflexivity|]. simpl.
    repeat split; try assumption. apply PyStrFacts.strip_idempotent.
  - eexists _, _, tried, rest. split; [reflexivity|]. simpl.
    repeat split; try assumption.
Qed.

End GenerationFacts.

(** ** The message pipeline *)

Section HandlerFacts.

Context {env : Env}.

(** C6.  A message with no text, with the empty text or with a text of
    whitespace only leaves the world exactly as it was: no row of either
    table is read or written, nothing is sent to the transport, the backend
    is not called, nothing is logged; the handler just returns. *)
Theorem message_handler_ignores_blank message ai_service w :
  (text message = None \/
   exists t, text message = Some t /\ whitespace_only t) ->
  message_handler message ai_service w = (Ok tt, w).
Proof.
  intros [H|[t [H Hw]]]; unfold message_handler; rewrite H; [reflexivity|].
  apply PyStrFacts.strip_whitespace_only in Hw. rewrite Hw.
  simpl. now rewrite orb_true_r.
Qed.

(** Conversely, any other text gets past the guard. *)
Lemma message_handler_guard t :
  strip t <> [] ->
  negb (truthy t) || PyStr.eqb (strip t) [] = false.
Proof.
  intros H. apply orb_false_iff. split.
  - destruct t; [now elim H|reflexivity].
  - destruct (PyStr.eqb (strip t) []) eqn:E; [|reflexivity].
    apply PyStrFacts.eqb_eq in E. contradiction.
Qed.

(** On a connected store [get_or_create_user] always hands a row back, and
    touches nothing but the users table, the log and the clock. *)
Lemma get_or_create_user_resolves telegram_id username w :
  is_connected (db w) = true ->
  exists u w1,
    get_or_create_user telegram_id username w = (Ok (Some u), w1) /\
    is_connected (db w1) = true /\
    messages (db w1) = messages (db w) /\
    messages_seq (db w1) = messages_seq (db w) /\
    outbox w1 = outbox w /\ g4f_calls w1 = g4f_calls w /\
    In u (users (db w1)) /\ u_telegram_id u = telegram_id /\
    users (db w1)
    = (if existsb (has_telegram_id telegram_id) (users (db w))
       then users (db w) else users (db w) ++ [u]).
Proof.
  intros Hc. destruct (user_rows telegram_id (db w)) as [|u rest] eqn:Hrows.
  - eexists _, _. split; [now apply get_or_create_user_created|]. simpl.
    rewrite (existsb_filter_nil _ _ _ Hrows).
    repeat split; try assumption. apply in_or_app. right. now left.
  - assert (In u (filter (has_telegram_id telegram_id) (users (db w)))) as Hin.
    { fold (user_rows telegram_id (db w)). rewrite Hrows. now left. }
    apply filter_In in Hin. destruct Hin as [Hin Ht].
    eexists _, _. split; [eapply get_or_create_user_found; eassumption|].
    simpl. repeat split; try assumption.
    + now apply Z.eqb_eq.
    + assert (existsb (has_telegram_id telegram_id) (users (db w)) = true) as ->;
        [|reflexivity].
      apply existsb_exists. now exists u.
Qed.

(** The pipeline on a connected store, for a text that passes the guard and
    a transport that accepts what it is given. *)
Lemma message_handler_run message ai_service w t :
  is_connected (db w) = true ->
  text message = Some t ->
  strip t <> [] ->
  accepts_all ->
  exists u w1 reply tried rest t_in t_out w',
    get_or_create_user (from_user_id message) (from_user_username message) w
    = (Ok (Some u), w1) /\
    message_handler message ai_service w = (Ok tt, w') /\
    let m_in :=
      mkMessage (messages_seq (db w) + 1) (u_id u) (lit "user") t t_in in
    let m_out :=
      mkMessage (messages_seq (db w) + 2) (u_id u) (lit "assistant") reply t_out in
    let prompt :=
      build_messages t
        (Some (map chat_of_row
                 (rev (history_of (u_id u) 10 (with_message (db w1) m_in))))) in
    users (db w') = users (db w1) /\
    messages (db w') = messages (db w) ++ [m_in; m_out] /\
    outbox w' = outbox w ++ [ChatAction (chat_id message) (lit "typing");
                             Answer reply] /\
    strip reply = reply /\
    available_models ai_service = tried ++ rest /\
    (available_models ai_service <> [] -> tried <> []) /\
    g4f_calls w' = g4f_calls w ++ calls_for ai_service prompt tried.
Proof.
  intros Hc Ht Hg Htg.
  destruct (get_or_create_user_resolves (from_user_id message)
              (from_user_username message) w Hc)
    as [u [w1 [Hget [Hc1 [Hm1 [Hs1 [Ho1 [Hg1 _]]]]]]]].
  destruct (create_message_ok (u_id u) (lit "user") t w1 Hc1 eq_refl)
    as [row1 Hcm1].
  set (m_in := created_message (u_id u) (lit "user") t w1) in *.
  set (w2 := mkWorld (with_message (db w1) m_in)
               (log w1 ++ [(DEBUG, MessageCreated (u_id u) (lit "user"))])
               (g4f_calls w1) (outbox w1) (2 + io_steps w1)) in *.
  assert (is_connected (db w2) = true) as Hc2 by exact Hc1.
  pose proof (get_conversation_history_ok (u_id u) 10 w2 Hc2) as Hh.
  set (fh := map chat_of_row (rev (history_of (u_id u) 10 (db w2)))).
  set (w3 := mkWorld (db w2) (log w2) (g4f_calls w2)
               (outbox w2 ++ [ChatAction (chat_id message) (lit "typing")])
               (2 + io_steps w2)).
  destruct (generate_response_frame ai_service t (Some fh) w3)
    as [reply [wg [tried [rest [Hgen [Hstr [Hdg [Hog [Hav [Hne Hcalls]]]]]]]]]].
  assert (is_connected (db wg) = true) as Hcg by (rewrite Hdg; exact Hc1).
  destruct (create_message_ok (u_id u) (lit "assistant") reply wg Hcg eq_refl)
    as [row2 Hcm2].
  exists u, w1, reply, tried, rest, (m_created_at m_in),
    (current_timestamp (io_steps wg)).
  eexists. split; [exact Hget|]. split.
  - unfold message_handler. rewrite Ht, (message_handler_guard t Hg).
    unfold bind at 1. rewrite Hget. unfold bind at 1. simpl subscript_id.
    unfold ret at 1. unfold bind at 1. rewrite Hcm1.
    unfold bind at 1. rewrite Hh.
    unfold bind at 1, send_chat_action, telegram_request.
    simpl io_steps. rewrite Htg.
    unfold try_except. unfold bind at 1.
    change (mkWorld (db (tick w2)) (log (tick w2)) (g4f_calls (tick w2))
              (outbox (tick w2) ++ [ChatAction (chat_id message) (lit "typing")])
              (S (S (S (S (io_steps w1)))))) with w3.
    fold chat_of_row. fold fh. rewrite Hgen.
    unfold bind at 1. rewrite Hcm2.
    unfold answer, telegram_request. simpl io_steps. rewrite Htg.
    reflexivity.
  - simpl. rewrite Hdg, Hog, Hcalls. simpl. rewrite Hm1, Ho1, Hg1.
    unfold created_message in *. rewrite Hdg. simpl.
    unfold fh, m_in. simpl. rewrite Hs1.
    repeat split; try assumption.
    + rewrite <- app_assoc. simpl. do 3 f_equal. f_equal. lia.
    + now rewrite <- app_assoc.
    + subst m_in. unfold created_message. now rewrite Hs1.
Qed.

(** C2, evaluated on the code.  The text "Hi" from an identity the
    store has never seen, on the store as [connect()] leaves it and with a
    transport that accepts its requests: one users row is created (id 1),
    the message is stored with role user, the reply is stored with
    role assistant and delivered after the typing action.  But every
    call to the backend carries the system prompt followed by the message
    twice: once as the history read back after the insert, once as the
    current message. *)
Theorem message_handler_first_message telegram_id username chat ai_service :
  accepts_all ->
  available_models ai_service <> [] ->
  exists reply t_user t_in t_out tried rest w',
    message_handler (mkTgMessage (Some (lit "Hi")) telegram_id username chat)
      ai_service fresh_world = (Ok tt, w') /\
    users (db w') = [mkUser 1 telegram_id username t_user] /\
    messages (db w')
    = [mkMessage 1 1 (lit "user") (lit "Hi") t_in;
       mkMessage 2 1 (lit "assistant") reply t_out] /\
    outbox w' = [ChatAction chat (lit "typing"); Answer reply] /\
    available_models ai_service = tried ++ rest /\
    tried <> [] /\
    g4f_calls w' = calls_for ai_service hi_prompt tried /\
    (forall c, In c (g4f_calls w') ->
       call_messages c = hi_prompt /\
       call_messages c
       <> [mkChat (lit "system") system_prompt; mkChat (lit "user") (lit "Hi")]).
Proof.
  intros Htg Hmodels.
  set (message := mkTgMessage (Some (lit "Hi")) telegram_id username chat).
  assert (strip (lit "Hi") <> []) as Hs by discriminate.
  destruct (message_handler_run message ai_service fresh_world (lit "Hi")
              eq_refl eq_refl Hs Htg)
    as [u [w1 [reply [tried [rest [t_in [t_out [w' H]]]]]]]].
  destruct H as [Hget [Hrun [Hu [Hm [Ho [_ [Hav [Hne Hcalls]]]]]]]].
  rewrite (get_or_create_user_created telegram_id username fresh_world
             eq_refl eq_refl) in Hget.
  injection Hget as <- <-. simpl in Hu, Hm, Ho, Hcalls.
  exists reply, (current_timestamp 1), t_in, t_out, tried, rest, w'.
  repeat split; try assumption.
  - now apply Hne.
  - rewrite Hcalls in H. unfold calls_for in H. apply in_map_iff in H.
    destruct H as [m [<- _]]. reflexivity.
  - rewrite Hcalls in H. unfold calls_for in H. apply in_map_iff in H.
    destruct H as [m [<- _]]. discriminate.
Qed.

(** *** What the pipeline stores and delivers *)

Lemma stripped_no_surrounding_whitespace s :
  stripped s <-> no_surrounding_whitespace s.
Proof.
  unfold stripped, no_surrounding_whitespace. split.
  - intros H. split; intros c t E; rewrite <- H in E.
    + eapply PyStrFacts.strip_first; eassumption.
    + eapply PyStrFacts.strip_last; eassumption.
  - intros [Hf Hl]. unfold strip. destruct s as [|c t]; [reflexivity|].
    rewrite PyStrFacts.lstrip_fixed by (eapply Hf; reflexivity).
    now apply PyStrFacts.rstrip_fixed.
Qed.

Lemma clean_refl w : clean_extension w w.
Proof. split; intros; now left. Qed.

Lemma clean_trans w1 w2 w3 :
  clean_extension w1 w2 -> clean_extension w2 w3 -> clean_extension w1 w3.
Proof.
  intros [Hm12 Ho12] [Hm23 Ho23]. split.
  - intros m Hm. destruct (Hm23 m Hm) as [H|H]; [now apply Hm12|now right].
  - intros t Ht. destruct (Ho23 t Ht) as [H|H]; [now apply Ho12|now right].
Qed.

(** A world that differs from [w] in log and clock only. *)
Lemma clean_same w w' :
  messages (db w') = messages (db w) -> outbox w' = outbox w ->
  clean_extension w w'.
Proof. intros Hm Ho. split; intros x Hx; left; congruence. Qed.

Lemma keeps_ret A (a : A) (Q : A -> Prop) : Q a -> keeps_clean (ret a) Q.
Proof.
  intros H w. split; [apply clean_refl|]. simpl. intros b E.
  now injection E as <-.
Qed.

Lemma keeps_raise A e (Q : A -> Prop) : keeps_clean (raise e) Q.
Proof. intros w. split; [apply clean_refl|discriminate]. Qed.

Lemma keeps_logger l ev : keeps_clean (logger l ev) (fun _ => True).
Proof. intros w. split; [now apply clean_same|trivial]. Qed.

Lemma keeps_bind A B (m : M A) (k : A -> M B) (P : A -> Prop) (Q : B -> Prop) :
  keeps_clean m P -> (forall a, P a -> keeps_clean (k a) Q) ->
  keeps_clean (bind m k) Q.
Proof.
  intros Hm Hk w. destruct (Hm w) as [Hw Hv]. unfold bind.
  destruct (m w) as [[a|e] w1]; simpl in *.
  - destruct (Hk a (Hv a eq_refl) w1) as [Hw1 Hv1].
    split; [eapply clean_trans; eassumption|assumption].
  - split; [assumption|discriminate].
Qed.

Lemma keeps_try_except A (m : M A) (h : exn -> M A) (Q : A -> Prop) :
  keeps_clean m Q -> (forall e, keeps_clean (h e) Q) ->
  keeps_clean (try_except m h) Q.
Proof.
  intros Hm Hh w. destruct (Hm w) as [Hw Hv]. unfold try_except.
  destruct (m w) as [[a|e] w1]; simpl in *.
  - split; assumption.
  - destruct (Hh e w1) as [Hw1 Hv1].
    split; [eapply clean_trans; eassumption|assumption].
Qed.

Lemma keeps_weaken A (m : M A) (P Q : A -> Prop) :
  keeps_clean m P -> (forall a, P a -> Q a) -> keeps_clean m Q.
Proof.
  intros Hm HPQ w. destruct (Hm w) as [Hw Hv]. split; [assumption|auto].
Qed.

Lemma keeps_conn_execute R (q : Statement R) :
  clean_statement q -> keeps_clean (conn_execute q) (fun _ => True).
Proof.
  intros Hq w. split; [|trivial]. unfold conn_execute.
  destruct (q (current_timestamp (io_steps w)) (db w)) as [[c d]|e] eqn:E;
    simpl.
  - split; [exact (Hq _ _ _ _ E)|intros; now left].
  - now apply clean_same.
Qed.

Lemma keeps_get_connection A (body : M A) (Q : A -> Prop) :
  keeps_clean body Q -> keeps_clean (get_connection body) Q.
Proof.
  intros Hb w. unfold get_connection.
  destruct (is_connected (db w)); simpl; [|apply keeps_raise].
  destruct (Hb w) as [[Hm Ho] Hv].
  destruct (body w) as [[a|e] w1]; simpl in *.
  - split; [split|]; assumption.
  - split; [|discriminate]. split; [intros; now left|assumption].
Qed.

Lemma keeps_execute R (q : Statement R) :
  clean_statement q -> keeps_clean (execute q) (fun _ => True).
Proof.
  intros Hq. apply keeps_get_connection. now apply keeps_conn_execute.
Qed.

Lemma keeps_fetch_one R (q : Statement R) :
  clean_statement q -> keeps_clean (fetch_one q) (fun _ => True).
Proof.
  intros Hq. apply keeps_get_connection.
  eapply keeps_bind; [now apply keeps_conn_execute|].
  intros c _. now apply keeps_ret.
Qed.

Lemma keeps_fetch_all R (q : Statement R) :
  clean_statement q -> keeps_clean (fetch_all q) (fun _ => True).
Proof.
  intros Hq. apply keeps_get_connection.
  eapply keeps_bind; [now apply keeps_conn_execute|].
  intros c _. now apply keeps_ret.
Qed.

Lemma clean_read_only R (f : Database -> Cursor R) :
  clean_statement (fun _ d => Ok (f d, d)).
Proof. intros now d c d' E m Hm. injection E as _ <-. now left. Qed.

Lemma clean_insert_user telegram_id username :
  clean_statement (insert_user telegram_id username).
Proof.
  intros now d c d' E m Hm. unfold insert_user in E.
  destruct (existsb _ _); [discriminate|]. injection E as _ <-. now left.
Qed.

Lemma clean_insert_message user_id r c :
  (r = lit "assistant" -> stripped c) ->
  clean_statement (insert_message user_id r c).
Proof.
  intros Hr now d cur d' E m Hm. unfold insert_message in E.
  destruct (negb (role_check r)); [discriminate|]. injection E as _ <-.
  simpl in Hm. apply in_app_or in Hm. destruct Hm as [Hm|[<-|[]]].
  - now left.
  - right. exact Hr.
Qed.

Lemma keeps_get_or_create_user telegram_id username :
  keeps_clean (get_or_create_user telegram_id username) (fun _ => True).
Proof.
  unfold get_or_create_user.
  eapply keeps_bind;
    [apply keeps_fetch_one,
       (clean_read_only _ (fun d => mkCursor (filter _ (users d)) (-1)))|].
  intros [u|] _.
  - eapply keeps_bind; [apply keeps_logger|]. intros _ _. now apply keeps_ret.
  - eapply keeps_bind; [apply keeps_execute, clean_insert_user|]. intros _ _.
    eapply keeps_bind;
      [apply keeps_fetch_one,
         (clean_read_only _ (fun d => mkCursor (filter _ (users d)) (-1)))|].
    intros user _.
    eapply keeps_bind; [apply keeps_logger|]. intros _ _. now apply keeps_ret.
Qed.

Lemma keeps_create_message user_id r c :
  (r = lit "assistant" -> stripped c) ->
  keeps_clean (create_message user_id r c) (fun _ => True).
Proof.
  intros Hr. unfold create_message.
  eapply keeps_bind; [apply keeps_execute, clean_insert_message, Hr|].
  intros _ _.
  eapply keeps_bind;
    [apply keeps_fetch_one,
       (clean_read_only _
          (fun d => mkCursor
                      (filter (fun m => m_id m =? last_insert_rowid d) (messages d))
                      (-1)))|].
  intros message _.
  eapply keeps_bind; [apply keeps_logger|]. intros _ _. now apply keeps_ret.
Qed.

Lemma keeps_get_conversation_history user_id limit :
  keeps_clean (get_conversation_history user_id limit) (fun _ => True).
Proof.
  unfold get_conversation_history. apply keeps_fetch_all.
  apply (clean_read_only _
           (fun d => mkCursor
                       (map (fun m => mkHistoryRow (m_role m) (m_content m)
                                        (m_created_at m))
                          (sql_limit limit
                             (order_by_created_at_desc
                                (filter (fun m => m_user_id m =? user_id)
                                   (messages d)))))
                       (-1))).
Qed.

Lemma keeps_telegram_request o :
  (forall t, o = Answer t -> stripped t) ->
  keeps_clean (telegram_request o) (fun _ => True).
Proof.
  intros Ho w. split; [|trivial]. unfold telegram_request.
  destruct (telegram (io_steps w) o); simpl.
  - now apply clean_same.
  - split; [intros; now left|]. simpl. intros t Ht.
    apply in_app_or in Ht. destruct Ht as [Ht|[->|[]]]; [now left|right].
    now apply Ho.
Qed.

Lemma keeps_generate_response self message history :
  keeps_clean (generate_response self message history) stripped.
Proof.
  intros w.
  destruct (generate_response_frame self message history w)
    as [reply [w' [tried [rest [E [Hs [Hd [Ho _]]]]]]]].
  rewrite E. simpl. split.
  - apply clean_same; [now rewrite Hd|assumption].
  - intros a Ha. now injection Ha as <-.
Qed.

Lemma stripped_processing_error_text : stripped processing_error_text.
Proof. reflexivity. Qed.

Lemma keeps_message_handler message ai_service :
  keeps_clean (message_handler message ai_service) (fun _ => True).
Proof.
  unfold message_handler. destruct (text message) as [t|];
    [|now apply keeps_ret].
  destruct (negb (truthy t) || PyStr.eqb (strip t) []);
    [now apply keeps_ret|].
  eapply keeps_bind; [apply keeps_get_or_create_user|]. intros user _.
  eapply keeps_bind with (P := fun _ => True).
  { destruct user; [now apply keeps_ret|apply keeps_raise]. }
  intros user_id _.
  eapply keeps_bind; [apply keeps_create_message; discriminate|]. intros _ _.
  eapply keeps_bind; [apply keeps_get_conversation_history|]. intros history _.
  eapply keeps_bind; [apply keeps_telegram_request; discriminate|]. intros _ _.
  apply keeps_try_except.
  - eapply keeps_bind; [apply keeps_generate_response|]. intros reply Hr.
    eapply keeps_bind; [apply keeps_create_message; intros _; exact Hr|].
    intros _ _. apply keeps_telegram_request. intros x Ex.
    now injection Ex as <-.
  - intros e. eapply keeps_bind; [apply keeps_logger|]. intros _ _.
    apply keeps_telegram_request. intros x Ex. injection Ex as <-.
    apply stripped_processing_error_text.
Qed.

(** C9.  When [_call_g4f] returns [s], [generate_response] returns
    [s.strip()]: [s] without the whitespace at its two ends.  And whatever
    the store, the backend and the transport do, every assistant row the
    pipeline adds and every answer it delivers is free of surrounding
    whitespace. *)
Theorem generate_response_strips self message history w :
  (forall s w1,
      _call_g4f self (build_messages message history) w = (Ok s, w1) ->
      fst (generate_response self message history w) = Ok (strip s) /\
      no_surrounding_whitespace (strip s) /\
      exists pre post,
        s = pre ++ strip s ++ post /\
        whitespace_only pre /\ whitespace_only post) /\
  (forall tg_message,
      let w' := snd (message_handler tg_message self w) in
      (forall m, In m (messages (db w')) ->
         In m (messages (db w)) \/
         (m_role m = lit "assistant" ->
          no_surrounding_whitespace (m_content m))) /\
      (forall t, In (Answer t) (outbox w') ->
         In (Answer t) (outbox w) \/ no_surrounding_whitespace t)).
Proof.
  split.
  - intros s w1 Hs. split; [|split].
    + unfold generate_response, try_except, bind at 1. now rewrite Hs.
    + apply stripped_no_surrounding_whitespace.
      apply PyStrFacts.strip_idempotent.
    + apply PyStrFacts.strip_split.
  - intros tg_message w'.
    destruct (keeps_message_handler tg_message self w) as [[Hm Ho] _].
    fold w' in Hm, Ho. split.
    + intros m Hin. destruct (Hm m Hin) as [H|H]; [now left|right].
      intros Hr. apply stripped_no_surrounding_whitespace. exact (H Hr).
    + intros t Hin. destruct (Ho t Hin) as [H|H]; [now left|right].
      now apply stripped_no_surrounding_whitespace.
Qed.

End HandlerFacts.

(** ** What every update keeps *)

Section Evolution.

Context {env : Env}.

Variable R : Database -> Database -> Prop.

Hypothesis R_refl : forall d, R d d.
Hypothesis R_trans : forall d1 d2 d3, R d1 d2 -> R d2 d3 -> R d1 d3.
Hypothesis R_insert_user :
  forall telegram_id username, respects R (insert_user telegram_id username).
Hypothesis R_update_user_username :
  forall username telegram_id, respects R (update_user_username username telegram_id).
Hypothesis R_insert_message :
  forall user_id r c, respects R (insert_message user_id r c).
Hypothesis R_delete_messages :
  forall user_id, respects R (delete_messages user_id).

Lemma evolves_same A (m : M A) :
  (forall w, db (snd (m w)) = db w) -> evolves R m.
Proof. intros H w. rewrite H. apply R_refl. Qed.

Lemma evolves_ret A (a : A) : evolves R (ret a).
Proof. now apply evolves_same. Qed.

Lemma evolves_raise A e : evolves R (@raise A e).
Proof. now apply evolves_same. Qed.

Lemma evolves_logger l ev : evolves R (logger l ev).
Proof. now apply evolves_same. Qed.

Lemma evolves_telegram_request o : evolves R (telegram_request o).
Proof.
  apply evolves_same. intros w. unfold telegram_request.
  now destruct (telegram (io_steps w) o).
Qed.

Lemma evolves_bind A B (m : M A) (k : A -> M B) :
  evolves R m -> (forall a, evolves R (k a)) -> evolves R (bind m k).
Proof.
  intros Hm Hk w. specialize (Hm w). unfold bind.
  destruct (m w) as [[a|e] w1]; simpl in *; [|assumption].
  exact (R_trans _ _ _ Hm (Hk a w1)).
Qed.

Lemma evolves_try_except A (m : M A) (h : exn -> M A) :
  evolves R m -> (forall e, evolves R (h e)) -> evolves R (try_except m h).
Proof.
  intros Hm Hh w. specialize (Hm w). unfold try_except.
  destruct (m w) as [[a|e] w1]; simpl in *; [assumption|].
  exact (R_trans _ _ _ Hm (Hh e w1)).
Qed.

Lemma evolves_conn_execute T (q : Statement T) :
  respects R q -> evolves R (conn_execute q).
Proof.
  intros Hq w. unfold conn_execute.
  destruct (q (current_timestamp (io_steps w)) (db w)) as [[c d]|e] eqn:E;
    simpl; [exact (Hq _ _ _ _ E)|apply R_refl].
Qed.

Lemma evolves_get_connection A (body : M A) :
  evolves R body -> evolves R (get_connection body).
Proof.
  intros Hb w. unfold get_connection.
  destruct (is_connected (db w)); simpl; [|apply R_refl].
  specialize (Hb w). destruct (body w) as [[a|e] w1]; simpl in *;
    [assumption|apply R_refl].
Qed.

Lemma evolves_execute T (q : Statement T) :
  respects R q -> evolves R (execute q).
Proof. intros Hq. now apply evolves_get_connection, evolves_conn_execute. Qed.

Lemma evolves_fetch_one T (q : Statement T) :
  respects R q -> evolves R (fetch_one q).
Proof.
  intros Hq. apply evolves_get_connection, evolves_bind;
    [now apply evolves_conn_execute|intros; apply evolves_ret].
Qed.

Lemma evolves_fetch_all T (q : Statement T) :
  respects R q -> evolves R (fetch_all q).
Proof.
  intros Hq. apply evolves_get_connection, evolves_bind;
    [now apply evolves_conn_execute|intros; apply evolves_ret].
Qed.

Lemma respects_read_only T (f : Database -> Cursor T) :
  respects R (fun _ d => Ok (f d, d)).
Proof. intros now d c d' E. injection E as _ <-. apply R_refl. Qed.

Lemma evolves_get_or_create_user telegram_id username :
  evolves R (get_or_create_user telegram_id username).
Proof.
  unfold get_or_create_user. apply evolves_bind.
  - apply evolves_fetch_one,
      (respects_read_only _ (fun d => mkCursor (filter _ (users d)) (-1))).
  - intros [u|].
    + apply evolves_bind; [apply evolves_logger|intros; apply evolves_ret].
    + apply evolves_bind; [apply evolves_execute, R_insert_user|]. intros _.
      apply evolves_bind.
      * apply evolves_fetch_one,
          (respects_read_only _ (fun d => mkCursor (filter _ (users d)) (-1))).
      * intros user.
        apply evolves_bind; [apply evolves_logger|intros; apply evolves_ret].
Qed.

Lemma evolves_get_user_by_id user_id : evolves R (get_user_by_id user_id).
Proof.
  apply evolves_fetch_one,
    (respects_read_only _ (fun d => mkCursor (filter _ (users d)) (-1))).
Qed.

Lemma evolves_update_username telegram_id username :
  evolves R (update_username telegram_id username).
Proof.
  unfold update_username. apply evolves_bind;
    [apply evolves_execute, R_update_user_username|intros; apply evolves_ret].
Qed.

Lemma evolves_create_message user_id r c :
  evolves R (create_message user_id r c).
Proof.
  unfold create_message. apply evolves_bind;
    [apply evolves_execute, R_insert_message|]. intros _.
  apply evolves_bind.
  - apply evolves_fetch_one,
      (respects_read_only _
         (fun d => mkCursor
                     (filter (fun m => m_id m =? last_insert_rowid d) (messages d))
                     (-1))).
  - intros message.
    apply evolves_bind; [apply evolves_logger|intros; apply evolves_ret].
Qed.

Lemma evolves_get_conversation_history user_id limit :
  evolves R (get_conversation_history user_id limit).
Proof.
  apply evolves_fetch_all.
  apply (respects_read_only _
           (fun d => mkCursor
                       (map (fun m => mkHistoryRow (m_role m) (m_content m)
                                        (m_created_at m))
                          (sql_limit limit
                             (order_by_created_at_desc
                                (filter (fun m => m_user_id m =? user_id)
                                   (messages d)))))
                       (-1))).
Qed.

Lemma evolves_get_message_count user_id :
  evolves R (get_message_count user_id).
Proof.
  unfold get_message_count. apply evolves_bind; [|intros; apply evolves_ret].
  apply evolves_fetch_one.
  apply (respects_read_only _
           (fun d => mkCursor
                       [Z.of_nat
                          (List.length
                             (filter (fun m => m_user_id m =? user_id) (messages d)))]
                       (-1))).
Qed.

Lemma evolves_clear_conversation user_id :
  evolves R (clear_conversation user_id).
Proof.
  unfold clear_conversation. apply evolves_bind;
    [apply evolves_execute, R_delete_messages|]. intros result.
  apply evolves_bind; [|intros; apply evolves_ret].
  destruct (0 <? rowcount result); [apply evolves_logger|apply evolves_ret].
Qed.

Lemma evolves_generate_response self message history :
  evolves R (generate_response self message history).
Proof.
  apply evolves_same. intros w.
  destruct (generate_response_frame self message history w)
    as [reply [w' [tried [rest [E [_ [Hd _]]]]]]].
  now rewrite E.
Qed.

Lemma evolves_subscript_id user : evolves R (subscript_id user).
Proof. destruct user; [apply evolves_ret|apply evolves_raise]. Qed.

Lemma evolves_message_handler message ai_service :
  evolves R (message_handler message ai_service).
Proof.
  unfold message_handler. destruct (text message) as [t|];
    [|apply evolves_ret].
  destruct (negb (truthy t) || PyStr.eqb (strip t) []); [apply evolves_ret|].
  apply evolves_bind; [apply evolves_get_or_create_user|]. intros user.
  apply evolves_bind; [apply evolves_subscript_id|]. intros user_id.
  apply evolves_bind; [apply evolves_create_message|]. intros _.
  apply evolves_bind; [apply evolves_get_conversation_history|]. intros history.
  apply evolves_bind; [apply evolves_telegram_request|]. intros _.
  apply evolves_try_except.
  - apply evolves_bind; [apply evolves_generate_response|]. intros reply.
    apply evolves_bind; [apply evolves_create_message|]. intros _.
    apply evolves_telegram_request.
  - intros e. apply evolves_bind; [apply evolves_logger|]. intros _.
    apply evolves_telegram_request.
Qed.

Lemma evolves_clear_handler message : evolves R (clear_handler message).
Proof.
  unfold clear_handler.
  apply evolves_bind; [apply evolves_get_or_create_user|]. intros user.
  apply evolves_bind; [apply evolves_subscript_id|]. intros user_id.
  apply evolves_bind; [apply evolves_clear_conversation|]. intros _.
  apply evolves_telegram_request.
Qed.

Lemma evolves_start_handler message : evolves R (start_handler message).
Proof.
  unfold start_handler.
  apply evolves_bind; [apply evolves_get_or_create_user|]. intros user.
  apply evolves_telegram_request.
Qed.

Lemma evolves_help_handler message : evolves R (help_handler message).
Proof. apply evolves_telegram_request. Qed.

Lemma evolves_returns A (m : M A) w :
  evolves R m -> R (db w) (db (snd (returns m w))).
Proof.
  intros Hm. specialize (Hm w). unfold returns.
  now destruct (m w) as [[a|e] w1].
Qed.

Lemma run_call_evolves c w : R (db w) (db (snd (run_call c w))).
Proof.
  destruct c; unfold run_call; apply evolves_returns.
  - apply evolves_create_message.
  - apply evolves_get_conversation_history.
  - apply evolves_get_message_count.
  - apply evolves_clear_conversation.
  - apply evolves_get_or_create_user.
  - apply evolves_get_user_by_id.
  - apply evolves_update_username.
Qed.

Lemma handle_evolves u w : R (db w) (db (handle u w)).
Proof.
  destruct u; simpl.
  - apply evolves_message_handler.
  - apply evolves_start_handler.
  - apply evolves_help_handler.
  - apply evolves_clear_handler.
  - apply run_call_evolves.
Qed.

Lemma handle_all_evolves us w : R (db w) (db (handle_all us w)).
Proof.
  revert w. induction us as [|u us IH]; intros w; simpl; [apply R_refl|].
  exact (R_trans _ _ _ (handle_evolves u w) (IH _)).
Qed.

End Evolution.

(** ** The store stays well-formed and only grows *)

Section StoreFacts.

Context {env : Env}.

Lemma bounded_by_mono n n' l : bounded_by n l -> n <= n' -> bounded_by n' l.
Proof.
  unfold bounded_by. intros H Hn. rewrite Forall_forall in *.
  intros x Hx. specialize (H x Hx). lia.
Qed.

Lemma increasing_snoc l n x :
  increasing l -> bounded_by n l -> n < x -> increasing (l ++ [x]).
Proof.
  intros Hi Hb Hx. apply StronglySorted_snoc; [exact Hi|].
  unfold bounded_by in Hb. rewrite Forall_forall in *.
  intros y Hy. specialize (Hb y Hy). lia.
Qed.

Lemma bounded_by_snoc l n x :
  bounded_by n l -> n <= x -> bounded_by x (l ++ [x]).
Proof.
  intros Hb Hx. apply Forall_app. split.
  - now apply (bounded_by_mono n).
  - constructor; [lia|constructor].
Qed.

Lemma increasing_filter A (f : A -> Z) (p : A -> bool) l :
  increasing (map f l) -> increasing (map f (filter p l)).
Proof.
  unfold increasing. induction l as [|x l IH]; simpl; intros H; [constructor|].
  inversion H as [|? ? Hs Hx]; subst.
  destruct (p x); simpl; [|now apply IH].
  constructor; [now apply IH|].
  rewrite Forall_forall in *. intros y Hy. apply Hx.
  apply in_map_iff in Hy. destruct Hy as [z [<- Hz]].
  apply in_map. now apply filter_In in Hz.
Qed.

Lemma bounded_by_filter A (f : A -> Z) (p : A -> bool) n l :
  bounded_by n (map f l) -> bounded_by n (map f (filter p l)).
Proof.
  unfold bounded_by. rewrite !Forall_forall. intros H y Hy. apply H.
  apply in_map_iff in Hy. destruct Hy as [z [<- Hz]].
  apply in_map. now apply filter_In in Hz.
Qed.

Lemma Forall_filter A (P : A -> Prop) (p : A -> bool) l :
  Forall P l -> Forall P (filter p l).
Proof.
  rewrite !Forall_forall. intros H x Hx. apply H. now apply filter_In in Hx.
Qed.

Lemma keeps_well_formed_refl d : keeps_well_formed d d.
Proof. now intros H. Qed.

Lemma keeps_well_formed_trans d1 d2 d3 :
  keeps_well_formed d1 d2 -> keeps_well_formed d2 d3 -> keeps_well_formed d1 d3.
Proof. unfold keeps_well_formed. auto. Qed.

Lemma well_formed_insert_user telegram_id username :
  respects keeps_well_formed (insert_user telegram_id username).
Proof.
  intros now d c d' E [Ht [Hui [Hub [Hmi [Hmb Hr]]]]]. unfold insert_user in E.
  destruct (existsb _ (users d)) eqn:Hex; [discriminate|].
  injection E as _ <-. unfold well_formed. simpl. rewrite map_app. simpl.
  repeat split; try assumption.
  - unfold unique_telegram_id in *. simpl. rewrite map_app. simpl.
    apply NoDup_rev in Ht. rewrite <- (rev_involutive (_ ++ _)).
    apply NoDup_rev. rewrite rev_app_distr. simpl.
    constructor; [|assumption]. rewrite <- in_rev. intros Hin.
    apply in_map_iff in Hin. destruct Hin as [u [Hu Hin]].
    assert (existsb (fun u => u_telegram_id u =? telegram_id) (users d) = true)
      as Hex'.
    { apply existsb_exists. exists u. split; [assumption|now apply Z.eqb_eq]. }
    congruence.
  - apply (increasing_snoc _ (users_seq d)); [assumption|assumption|lia].
  - apply (bounded_by_snoc _ (users_seq d)); [assumption|lia].
Qed.

Lemma well_formed_update_user_username username telegram_id :
  respects keeps_well_formed (update_user_username username telegram_id).
Proof.
  intros now d c d' E [Ht [Hui [Hub [Hmi [Hmb Hr]]]]].
  unfold update_user_username in E. injection E as _ <-.
  assert (forall f : User -> Z,
             (forall u, f (mkUser (u_id u) (u_telegram_id u) (Some username)
                             (u_created_at u)) = f u) ->
             map f (map (fun u => if u_telegram_id u =? telegram_id
                                  then mkUser (u_id u) (u_telegram_id u)
                                         (Some username) (u_created_at u)
                                  else u) (users d))
             = map f (users d)) as Hmap.
  { intros f Hf. rewrite map_map. apply map_ext. intros u.
    destruct (u_telegram_id u =? telegram_id); [apply Hf|reflexivity]. }
  unfold well_formed, unique_telegram_id. simpl.
  rewrite (Hmap u_telegram_id), (Hmap u_id) by reflexivity.
  repeat split; assumption.
Qed.

Lemma well_formed_insert_message user_id r c :
  respects keeps_well_formed (insert_message user_id r c).
Proof.
  intros now d cur d' E [Ht [Hui [Hub [Hmi [Hmb Hr]]]]]. unfold insert_message in E.
  destruct (role_check r) eqn:Hrole; simpl in E; [|discriminate].
  injection E as _ <-. unfold well_formed, unique_telegram_id. simpl.
  rewrite map_app. simpl. repeat split; try assumption.
  - apply (increasing_snoc _ (messages_seq d)); [assumption|assumption|lia].
  - apply (bounded_by_snoc _ (messages_seq d)); [assumption|lia].
  - apply Forall_app. split; [assumption|]. now constructor.
Qed.

Lemma well_formed_delete_messages user_id :
  respects keeps_well_formed (delete_messages user_id).
Proof.
  intros now d c d' E [Ht [Hui [Hub [Hmi [Hmb Hr]]]]]. unfold delete_messages in E.
  injection E as _ <-. unfold well_formed, unique_telegram_id. simpl.
  repeat split; try assumption.
  - now apply increasing_filter.
  - now apply bounded_by_filter.
  - now apply Forall_filter.
Qed.

Lemma same_user_refl u : same_user u u.
Proof. now repeat split. Qed.

Lemma same_user_trans u1 u2 u3 :
  same_user u1 u2 -> same_user u2 u3 -> same_user u1 u3.
Proof. unfold same_user. intros [? [? ?]] [? [? ?]]. repeat split; congruence. Qed.

Lemma comes_after_refl d : comes_after d d.
Proof.
  unfold comes_after. repeat split; try lia.
  - intros u Hu. exists u. split; [assumption|apply same_user_refl].
  - intros m Hm. now left.
Qed.

Lemma comes_after_trans d1 d2 d3 :
  comes_after d1 d2 -> comes_after d2 d3 -> comes_after d1 d3.
Proof.
  intros [Hc1 [Hu1 [Hm1 [Hus1 Hms1]]]] [Hc2 [Hu2 [Hm2 [Hus2 Hms2]]]].
  unfold comes_after. repeat split; try lia; try congruence.
  - intros u Hu. destruct (Hus1 u Hu) as [u' [Hin' Hs']].
    destruct (Hus2 u' Hin') as [u'' [Hin'' Hs'']].
    exists u''. split; [assumption|]. now apply (same_user_trans u u').
  - intros m Hm. destruct (Hms2 m Hm) as [H|H]; [|right; lia].
    destruct (Hms1 m H) as [H'|H']; [now left|now right].
Qed.

Lemma comes_after_insert_user telegram_id username :
  respects comes_after (insert_user telegram_id username).
Proof.
  intros now d c d' E. unfold insert_user in E.
  destruct (existsb _ (users d)); [discriminate|]. injection E as _ <-.
  unfold comes_after. simpl. repeat split; try lia.
  - intros u Hu. exists u. split; [|apply same_user_refl].
    apply in_or_app. now left.
  - intros m Hm. now left.
Qed.

Lemma comes_after_update_user_username username telegram_id :
  respects comes_after (update_user_username username telegram_id).
Proof.
  intros now d c d' E. unfold update_user_username in E. injection E as _ <-.
  unfold comes_after. simpl. repeat split; try lia.
  - intros u Hu.
    eexists. split; [apply in_map; exact Hu|].
    destruct (u_telegram_id u =? telegram_id); now repeat split.
  - intros m Hm. now left.
Qed.

Lemma comes_after_insert_message user_id r c :
  respects comes_after (insert_message user_id r c).
Proof.
  intros now d cur d' E. unfold insert_message in E.
  destruct (negb (role_check r)); [discriminate|]. injection E as _ <-.
  unfold comes_after. simpl. repeat split; try lia.
  - intros u Hu. exists u. split; [assumption|apply same_user_refl].
  - intros m Hm. apply in_app_or in Hm. destruct Hm as [Hm|[<-|[]]].
    + now left.
    + right. simpl. lia.
Qed.

Lemma comes_after_delete_messages user_id :
  respects comes_after (delete_messages user_id).
Proof.
  intros now d c d' E. unfold delete_messages in E. injection E as _ <-.
  unfold comes_after. simpl. repeat split; try lia.
  - intros u Hu. exists u. split; [assumption|apply same_user_refl].
  - intros m Hm. left. now apply filter_In in Hm.
Qed.

Lemma handle_all_well_formed us w :
  well_formed (db w) -> well_formed (db (handle_all us w)).
Proof.
  apply (handle_all_evolves keeps_well_formed keeps_well_formed_refl
           keeps_well_formed_trans well_formed_insert_user
           well_formed_update_user_username well_formed_insert_message
           well_formed_delete_messages).
Qed.

Lemma handle_all_comes_after us w : comes_after (db w) (db (handle_all us w)).
Proof.
  apply (handle_all_evolves comes_after comes_after_refl comes_after_trans
           comes_after_insert_user comes_after_update_user_username
           comes_after_insert_message comes_after_delete_messages).
Qed.

Lemma well_formed_fresh : well_formed fresh_database.
Proof. unfold well_formed, unique_telegram_id. simpl. repeat split; constructor. Qed.

End StoreFacts.

(** ** Further properties of the store *)

Section MoreStoreFacts.

Context {env : Env}.

Lemma increasing_NoDup l : increasing l -> NoDup l.
Proof.
  induction 1 as [|x l Hs IH Hx]; constructor; [|assumption].
  intros Hin. rewrite Forall_forall in Hx. specialize (Hx x Hin). lia.
Qed.

Lemma NoDup_map_injective A (f : A -> Z) l a b :
  NoDup (map f l) -> In a l -> In b l -> f a = f b -> a = b.
Proof.
  induction l as [|x l IH]; simpl; intros Hnd Ha Hb E; [contradiction|].
  inversion Hnd as [|? ? Hnotin Hnd']; subst.
  destruct Ha as [->|Ha], Hb as [->|Hb]; try reflexivity.
  - elim Hnotin. rewrite E. now apply in_map.
  - elim Hnotin. rewrite <- E. now apply in_map.
  - now apply IH.
Qed.

(** The one row with a given key. *)
Lemma filter_unique_key A (f : A -> Z) l a :
  NoDup (map f l) -> In a l -> filter (fun x => f x =? f a) l = [a].
Proof.
  induction l as [|x l IH]; simpl; intros Hnd Ha; [contradiction|].
  inversion Hnd as [|? ? Hnotin Hnd']; subst.
  destruct Ha as [->|Ha].
  - rewrite Z.eqb_refl. f_equal. apply filter_none. intros y Hy.
    apply Z.eqb_neq. intros E. apply Hnotin. rewrite <- E. now apply in_map.
  - assert ((f x =? f a) = false) as ->; [|now apply IH].
    apply Z.eqb_neq. intros E. apply Hnotin. rewrite E. now apply in_map.
Qed.

Lemma role_check_true r :
  role_check r = true <-> r = lit "user" \/ r = lit "assistant".
Proof.
  unfold role_check. rewrite orb_true_iff, !PyStrFacts.eqb_eq. tauto.
Qed.

(** X1.  The store the bot works on stays well-formed whatever it handles:
    text messages, the /start, /help and /clear commands and repository
    calls, with any backend and any transport.  Afterwards no two users
    share a [telegram_id] or an id, no two messages share an id, message ids
    increase with the rowid, and every role is user or assistant. *)
Theorem store_stays_well_formed us w :
  well_formed (db w) ->
  let d := db (handle_all us w) in
  (forall u1 u2, In u1 (users d) -> In u2 (users d) ->
     u_telegram_id u1 = u_telegram_id u2 \/ u_id u1 = u_id u2 -> u1 = u2) /\
  (forall m1 m2, In m1 (messages d) -> In m2 (messages d) ->
     m_id m1 = m_id m2 -> m1 = m2) /\
  increasing (map m_id (messages d)) /\
  (forall m, In m (messages d) ->
     m_role m = lit "user" \/ m_role m = lit "assistant").
Proof.
  intros Hw d.
  destruct (handle_all_well_formed us w Hw) as [Ht [Hui [Hub [Hmi [Hmb Hr]]]]].
  fold d in Ht, Hui, Hub, Hmi, Hmb, Hr. repeat split.
  - intros u1 u2 H1 H2 [E|E].
    + exact (NoDup_map_injective _ _ _ _ _ Ht H1 H2 E).
    + exact (NoDup_map_injective _ _ _ _ _ (increasing_NoDup _ Hui) H1 H2 E).
  - intros m1 m2 H1 H2 E.
    exact (NoDup_map_injective _ _ _ _ _ (increasing_NoDup _ Hmi) H1 H2 E).
  - exact Hmi.
  - intros m Hm. apply role_check_true.
    rewrite Forall_forall in Hr. now apply Hr.
Qed.

(** X2.  Message rows are never rewritten and ids are never issued twice:
    whatever the bot handles in between, a message row found later is either
    a row of before, unchanged, or has an id above the id of every row of
    before, the rows cleared since included. *)
Theorem message_ids_never_reused us w old m :
  well_formed (db w) ->
  In old (messages (db w)) ->
  In m (messages (db (handle_all us w))) ->
  In m (messages (db w)) \/ m_id old < m_id m.
Proof.
  intros [_ [_ [_ [_ [Hmb _]]]]] Hold Hm.
  destruct (handle_all_comes_after us w) as [_ [_ [_ [_ Hms]]]].
  destruct (Hms m Hm) as [H|H]; [now left|right].
  unfold bounded_by in Hmb. rewrite Forall_forall in Hmb.
  specialize (Hmb (m_id old) (in_map m_id _ _ Hold)). lia.
Qed.

(** X3.  Users are never removed and keep their identity: whatever the bot
    handles, a user row of before is still there with the same id, the same
    [telegram_id] and the same creation time (the user name may change). *)
Theorem users_are_kept us w u :
  In u (users (db w)) ->
  exists u', In u' (users (db (handle_all us w))) /\
             u_id u' = u_id u /\ u_telegram_id u' = u_telegram_id u /\
             u_created_at u' = u_created_at u.
Proof.
  intros Hu. destruct (handle_all_comes_after us w) as [_ [_ [_ [Hus _]]]].
  exact (Hus u Hu).
Qed.

(** X4.  [create_message] hands back the row it inserted: on a connected,
    well-formed store and for a role that passes the CHECK, the returned row
    carries the user id, role and content given, it is appended to the
    table, its id is above every id in the table, and the users table is
    untouched. *)
Theorem create_message_returns_row user_id r c w :
  is_connected (db w) = true ->
  well_formed (db w) ->
  role_check r = true ->
  exists m w',
    create_message user_id r c w = (Ok (Some m), w') /\
    m_user_id m = user_id /\ m_role m = r /\ m_content m = c /\
    m_created_at m = current_timestamp (io_steps w) /\
    messages (db w') = messages (db w) ++ [m] /\
    (forall old, In old (messages (db w)) -> m_id old < m_id m) /\
    users (db w') = users (db w).
Proof.
  intros Hc [_ [_ [_ [_ [Hmb _]]]]] Hr.
  unfold bounded_by in Hmb. rewrite Forall_forall in Hmb.
  assert (forall old, In old (messages (db w)) -> m_id old <= messages_seq (db w))
    as Hold by (intros old Ho; apply Hmb; now apply in_map).
  exists (created_message user_id r c w). eexists. split.
  - unfold create_message, bind at 1.
    erewrite execute_ok; cycle 1.
    + exact Hc.
    + unfold insert_message. rewrite Hr. reflexivity.
    + unfold bind at 1. erewrite fetch_one_ok; cycle 1.
      * simpl. exact Hc.
      * reflexivity.
      * simpl. rewrite filter_app. simpl. rewrite Z.eqb_refl.
        rewrite filter_none; [reflexivity|].
        intros old Ho. apply Z.eqb_neq. specialize (Hold old Ho). lia.
  - simpl. repeat split. intros old Ho. specialize (Hold old Ho). lia.
Qed.


Lemma order_newest_last l m :
  (forall x, In x l -> m_created_at x < m_created_at m) ->
  order_by_created_at_desc (l ++ [m]) = m :: order_by_created_at_desc l.
Proof.
  induction l as [|x l IH]; simpl; intros H; [reflexivity|].
  rewrite IH by (intros y Hy; apply H; now right). simpl.
  assert ((m_created_at m <=? m_created_at x) = false) as ->; [|reflexivity].
  apply Z.leb_gt. apply H. now left.
Qed.

(** X6.  The message just appended heads the history: when every earlier
    row of the user is older than the second of the insert, a
    [get_conversation_history] right after [create_message] returns the new
    message first, and alone when the limit is 1. *)
Theorem new_message_heads_history user_id r c limit w :
  is_connected (db w) = true ->
  role_check r = true ->
  all_older user_id (current_timestamp (io_steps w)) (db w) ->
  limit <> 0 ->
  exists row w1 rest,
    create_message user_id r c w = (Ok row, w1) /\
    fst (get_conversation_history user_id limit w1)
    = Ok (mkHistoryRow r c (current_timestamp (io_steps w)) :: rest) /\
    (limit = 1 -> rest = []).
Proof.
  intros Hc Hr Hold Hl.
  destruct (create_message_ok user_id r c w Hc Hr) as [row Hcm].
  set (m := created_message user_id r c w) in *.
  set (sorted := order_by_created_at_desc (user_messages user_id (db w))).
  exists row. eexists.
  exists (map history_row
            (if limit <? 0 then sorted else firstn (Z.to_nat limit - 1) sorted)).
  split; [exact Hcm|].
  rewrite get_conversation_history_ok by exact Hc.
  unfold history_of, user_messages. simpl.
  rewrite filter_app. simpl. unfold owned_by at 2. simpl. rewrite Z.eqb_refl.
  rewrite order_newest_last by exact Hold.
  fold (user_messages user_id (db w)). fold sorted.
  unfold sql_limit. split.
  - destruct (limit <? 0) eqn:E; [reflexivity|]. apply Z.ltb_ge in E.
    replace (Z.to_nat limit) with (S (Z.to_nat limit - 1)) by lia.
    simpl. now rewrite Nat.sub_0_r.
  - intros ->. reflexivity.
Qed.

Lemma get_or_create_user_well_formed telegram_id username w :
  well_formed (db w) ->
  well_formed (db (snd (get_or_create_user telegram_id username w))).
Proof.
  apply (evolves_get_or_create_user keeps_well_formed keeps_well_formed_refl
           keeps_well_formed_trans well_formed_insert_user).
Qed.

(** X7.  The internal id finds the user again: on a connected, well-formed
    store, [get_user_by_id] with the id of the row [get_or_create_user]
    returned gives that very row, and an id above the sequence of the table
    gives no row. *)
Theorem get_user_by_id_finds telegram_id username w :
  is_connected (db w) = true ->
  well_formed (db w) ->
  exists u w1,
    get_or_create_user telegram_id username w = (Ok (Some u), w1) /\
    get_user_by_id (u_id u) w1 = (Ok (Some u), tick w1) /\
    forall id, users_seq (db w1) < id ->
               get_user_by_id id w1 = (Ok None, tick w1).
Proof.
  intros Hc Hw.
  destruct (get_or_create_user_resolves telegram_id username w Hc)
    as [u [w1 [Hget [Hc1 [_ [_ [_ [_ [Hin _]]]]]]]]].
  pose proof (get_or_create_user_well_formed telegram_id username w Hw) as Hw1.
  rewrite Hget in Hw1. simpl in Hw1.
  destruct Hw1 as [_ [Hui [Hub _]]].
  exists u, w1. split; [exact Hget|]. split.
  - rewrite get_user_by_id_ok by exact Hc1.
    now rewrite (filter_unique_key _ u_id _ u (increasing_NoDup _ Hui) Hin).
  - intros id Hid. rewrite get_user_by_id_ok by exact Hc1.
    rewrite filter_none; [reflexivity|].
    intros x Hx. apply Z.eqb_neq.
    unfold bounded_by in Hub. rewrite Forall_forall in Hub.
    specialize (Hub (u_id x) (in_map u_id _ _ Hx)). lia.
Qed.

End MoreStoreFacts.

(** ** Further properties of the repositories and the handlers *)

Section MoreHandlerFacts.

Context {env : Env}.

Lemma map_no_hit A (p : A -> bool) (f : A -> A) l :
  filter p l = [] -> map (fun x => if p x then f x else x) l = l.
Proof.
  induction l as [|x l IH]; simpl; intros H; [reflexivity|].
  destruct (p x); [discriminate|]. f_equal. now apply IH.
Qed.

(** X8.  [update_username] renames and nothing else: on a connected store
    it returns [true] exactly when the identity has a row; it never creates
    one (with no row the store is as before); ids and messages are as
    before; and the row [get_or_create_user] then finds for the identity is
    the old one with the new name, whatever name that call is given. *)
Theorem update_username_renames telegram_id username w :
  is_connected (db w) = true ->
  exists b w',
    update_username telegram_id username w = (Ok b, w') /\
    (b = true <-> user_rows telegram_id (db w) <> []) /\
    (b = false -> db w' = db w) /\
    map u_id (users (db w')) = map u_id (users (db w)) /\
    messages (db w') = messages (db w) /\
    forall u rest other,
      user_rows telegram_id (db w) = u :: rest ->
      fst (get_or_create_user telegram_id other w')
      = Ok (Some (mkUser (u_id u) (u_telegram_id u) (Some username)
                    (u_created_at u))).
Proof.
  intros Hc. unfold update_username, bind.
  erewrite execute_ok by (try eassumption; reflexivity).
  eexists _, _. split; [reflexivity|]. simpl.
  fold (has_telegram_id telegram_id).
  change (filter (has_telegram_id telegram_id) (users (db w)))
    with (user_rows telegram_id (db w)).
  split; [|split; [|split; [|split]]].
  - rewrite Z.ltb_lt. destruct (user_rows telegram_id (db w)); simpl.
    + split; [lia|congruence].
    + split; [discriminate|lia].
  - intros Hb. apply Z.ltb_ge in Hb.
    assert (user_rows telegram_id (db w) = []) as Hrows
        by (destruct (user_rows telegram_id (db w)); [reflexivity|simpl in Hb; lia]).
    unfold user_rows in Hrows. rewrite (map_no_hit _ _ _ _ Hrows).
    now destruct (db w).
  - rewrite map_map. apply map_ext. intros u.
    now destruct (u_telegram_id u =? telegram_id).
  - reflexivity.
  - intros u rest other Hrows.
    match goal with |- fst (get_or_create_user _ _ ?w0) = _ => set (w' := w0) end.
    assert (exists rest', user_rows telegram_id (db w')
                          = mkUser (u_id u) (u_telegram_id u) (Some username)
                              (u_created_at u) :: rest') as [rest' Hrows'].
    { unfold user_rows, has_telegram_id in *. simpl. revert Hrows.
      generalize (users (db w)) as l.
      induction l as [|x l IH]; simpl; intros H; [discriminate|].
      destruct (u_telegram_id x =? telegram_id) eqn:Hx; simpl.
      - injection H as -> _. rewrite Hx. eauto.
      - rewrite Hx. now apply IH. }
    now rewrite (get_or_create_user_found telegram_id other w' _ rest' Hc Hrows').
Qed.

(** X9.  Without a connection the repositories do nothing: every one of
    their operations raises the "Database not connected" error and
    leaves the world as it was, the log included. *)
Theorem closed_connection_raises w :
  is_connected (db w) = false ->
  (forall telegram_id username,
      get_or_create_user telegram_id username w = (Raise not_connected, w)) /\
  (forall user_id, get_user_by_id user_id w = (Raise not_connected, w)) /\
  (forall telegram_id username,
      update_username telegram_id username w = (Raise not_connected, w)) /\
  (forall user_id r c,
      create_message user_id r c w = (Raise not_connected, w)) /\
  (forall user_id limit,
      get_conversation_history user_id limit w = (Raise not_connected, w)) /\
  (forall user_id, get_message_count user_id w = (Raise not_connected, w)) /\
  (forall user_id, clear_conversation user_id w = (Raise not_connected, w)).
Proof.
  intros Hc. repeat split; intros;
    unfold get_or_create_user, get_user_by_id, update_username, create_message,
      get_conversation_history, get_message_count, clear_conversation,
      bind, execute, fetch_one, fetch_all;
    rewrite get_connection_closed by exact Hc; reflexivity.
Qed.

Lemma get_or_create_user_closed telegram_id username w :
  is_connected (db w) = false ->
  get_or_create_user telegram_id username w = (Raise not_connected, w).
Proof.
  intros Hc. unfold get_or_create_user, bind, fetch_one.
  now rewrite get_connection_closed by exact Hc.
Qed.

(** X10.  Without a connection a text message gets no reply at all: the
    user is resolved before the try block, so [message_handler] raises the
    connection error with nothing sent, nothing logged and the backend not
    called; /start and /clear fail the same way. *)
Theorem handlers_need_connection message ai_service w t :
  is_connected (db w) = false ->
  text message = Some t ->
  strip t <> [] ->
  message_handler message ai_service w = (Raise not_connected, w) /\
  start_handler message w = (Raise not_connected, w) /\
  clear_handler message w = (Raise not_connected, w).
Proof.
  intros Hc Ht Hs. repeat split.
  - unfold message_handler. rewrite Ht, (message_handler_guard t Hs).
    unfold bind at 1. now rewrite get_or_create_user_closed.
  - unfold start_handler, bind. now rewrite get_or_create_user_closed.
  - unfold clear_handler, bind at 1. now rewrite get_or_create_user_closed.
Qed.

(** X11.  The /clear command: with a connection and a transport that
    accepts the answer, [clear_handler] resolves the sender (creating the
    row on first contact), leaves no message of the sender and every message
    of the others, and answers with the confirmation text. *)
Theorem clear_handler_clears message w :
  is_connected (db w) = true ->
  accepts_all ->
  exists u w',
    clear_handler message w = (Ok tt, w') /\
    u_telegram_id u = from_user_id message /\
    In u (users (db w')) /\
    users (db w')
    = (if existsb (has_telegram_id (from_user_id message)) (users (db w))
       then users (db w) else users (db w) ++ [u]) /\
    user_messages (u_id u) (db w') = [] /\
    (forall other, other <> u_id u ->
       user_messages other (db w') = user_messages other (db w)) /\
    outbox w' = outbox w ++ [Answer cleared_text].
Proof.
  intros Hc Htg.
  destruct (get_or_create_user_resolves (from_user_id message)
              (from_user_username message) w Hc)
    as [u [w1 [Hget [Hc1 [Hm1 [_ [Ho1 [_ [Hin [Htid Hus]]]]]]]]]].
  exists u. eexists. split.
  - unfold clear_handler. unfold bind at 1. rewrite Hget.
    unfold bind at 1. simpl subscript_id. unfold ret at 1.
    unfold bind at 1. rewrite (clear_conversation_ok (u_id u) w1 Hc1).
    unfold answer, telegram_request. rewrite Htg. reflexivity.
  - simpl. rewrite Hm1, Ho1. repeat split; try assumption.
    + apply filter_owned_not_owned.
    + intros other Hne. now apply filter_other_not_owned.
Qed.

(** X12.  The /start command registers the sender and touches no
    conversation: with a connection, a well-formed store and a transport
    that accepts the answer, [start_handler] leaves exactly one row for the
    sender (a new one on first contact, the old one otherwise), leaves the
    messages as they were and sends the welcome text. *)
Theorem start_handler_registers message w :
  is_connected (db w) = true ->
  well_formed (db w) ->
  accepts_all ->
  exists u w',
    start_handler message w = (Ok tt, w') /\
    user_rows (from_user_id message) (db w') = [u] /\
    users (db w')
    = (if existsb (has_telegram_id (from_user_id message)) (users (db w))
       then users (db w) else users (db w) ++ [u]) /\
    messages (db w') = messages (db w) /\
    outbox w' = outbox w ++ [Answer welcome_text].
Proof.
  intros Hc Hw Htg.
  destruct (get_or_create_user_resolves (from_user_id message)
              (from_user_username message) w Hc)
    as [u [w1 [Hget [Hc1 [Hm1 [_ [Ho1 [_ [Hin [Htid Hus]]]]]]]]]].
  pose proof (get_or_create_user_well_formed (from_user_id message)
                (from_user_username message) w Hw) as Hw1.
  rewrite Hget in Hw1. simpl in Hw1. destruct Hw1 as [Hu1 _].
  exists u. eexists. split.
  - unfold start_handler. unfold bind at 1. rewrite Hget.
    unfold answer, telegram_request. rewrite Htg. reflexivity.
  - simpl. rewrite Hm1, Ho1. repeat split; try assumption.
    unfold user_rows, has_telegram_id. rewrite <- Htid.
    exact (filter_unique_key _ u_telegram_id _ u Hu1 Hin).
Qed.

End MoreHandlerFacts.

(** ** Further properties of the message pipeline *)

Section MorePipelineFacts.

Context {env : Env}.

Lemma message_handler_comes_after message ai_service w :
  comes_after (db w) (db (snd (message_handler message ai_service w))).
Proof.
  apply (evolves_message_handler comes_after comes_after_refl comes_after_trans
           comes_after_insert_user comes_after_insert_message).
Qed.

(** The pipeline up to the reply stage, on a connected store. *)
Lemma message_handler_stored message ai_service w t :
  is_connected (db w) = true ->
  text message = Some t ->
  strip t <> [] ->
  exists u w1,
    get_or_create_user (from_user_id message) (from_user_username message) w
    = (Ok (Some u), w1) /\
    is_connected (db w1) = true /\
    messages (db w1) = messages (db w) /\
    messages_seq (db w1) = messages_seq (db w) /\
    outbox w1 = outbox w /\ g4f_calls w1 = g4f_calls w /\
    In u (users (db w1)) /\ u_telegram_id u = from_user_id message /\
    message_handler message ai_service w
    = respond message ai_service t (u_id u)
        (history_of (u_id u) 10 (db (stored (u_id u) t w1)))
        (stored (u_id u) t w1).
Proof.
  intros Hc Ht Hg.
  destruct (get_or_create_user_resolves (from_user_id message)
              (from_user_username message) w Hc)
    as [u [w1 [Hget [Hc1 [Hm1 [Hs1 [Ho1 [Hg1 [Hin [Htid _]]]]]]]]]].
  destruct (create_message_ok (u_id u) (lit "user") t w1 Hc1 eq_refl)
    as [row1 Hcm1].
  exists u, w1. repeat split; try assumption.
  unfold message_handler. rewrite Ht, (message_handler_guard t Hg).
  unfold bind at 1. rewrite Hget. unfold bind at 1. simpl subscript_id.
  unfold ret at 1. unfold bind at 1. rewrite Hcm1.
  unfold bind at 1. rewrite get_conversation_history_ok by exact Hc1.
  reflexivity.
Qed.

(** The reply stage once the typing action is accepted. *)
Lemma respond_run message ai_service t user_id history w :
  is_connected (db w) = true ->
  telegram (io_steps w) (ChatAction (chat_id message) (lit "typing")) = None ->
  exists reply wg tried rest,
    generate_response ai_service t (Some (map chat_of_row (rev history)))
      (typing (chat_id message) w) = (Ok reply, wg) /\
    strip reply = reply /\
    db wg = db w /\
    outbox wg = outbox w ++ [ChatAction (chat_id message) (lit "typing")] /\
    available_models ai_service = tried ++ rest /\
    (available_models ai_service <> [] -> tried <> []) /\
    g4f_calls wg
    = g4f_calls w
      ++ calls_for ai_service
           (build_messages t (Some (map chat_of_row (rev history)))) tried /\
    respond message ai_service t user_id history w
    = try_except (answer reply) apologise (replied user_id reply wg).
Proof.
  intros Hc Htg.
  destruct (generate_response_frame ai_service t
              (Some (map chat_of_row (rev history))) (typing (chat_id message) w))
    as [reply [wg [tried [rest [Hgen [Hstr [Hdg [Hog [Hav [Hne Hcalls]]]]]]]]]].
  assert (is_connected (db wg) = true) as Hcg by (rewrite Hdg; exact Hc).
  destruct (create_message_ok user_id (lit "assistant") reply wg Hcg eq_refl)
    as [row2 Hcm2].
  exists reply, wg, tried, rest. repeat split; try assumption.
  unfold respond. unfold bind at 1, send_chat_action, telegram_request.
  rewrite Htg. fold (typing (chat_id message) w).
  unfold try_except at 1. unfold bind at 1. fold chat_of_row. rewrite Hgen.
  unfold bind at 1. rewrite Hcm2. reflexivity.
Qed.

Lemma history_of_length user_id limit d :
  0 <= limit ->
  (List.length (history_of user_id limit d) <= Z.to_nat limit)%nat.
Proof.
  intros Hl. unfold history_of, sql_limit.
  destruct (limit <? 0) eqn:E; [apply Z.ltb_lt in E; lia|].
  rewrite length_map. apply firstn_le_length.
Qed.

Lemma history_of_owned user_id limit d r :
  In r (history_of user_id limit d) ->
  exists m, In m (messages d) /\ m_user_id m = user_id /\ history_row m = r.
Proof.
  unfold history_of. intros H. apply in_map_iff in H.
  destruct H as [m [Hr Hm]]. exists m.
  assert (In m (order_by_created_at_desc (user_messages user_id d))) as Hs.
  { unfold sql_limit in Hm. destruct (limit <? 0); [assumption|].
    exact (firstn_incl (fun _ _ => True) _ _ _ Hm). }
  apply (Permutation_in _ (order_by_created_at_desc_perm _)) in Hs.
  apply filter_In in Hs. destruct Hs as [Hin Ho].
  repeat split; [assumption|now apply Z.eqb_eq|assumption].
Qed.

(** X13.  A handled text message adds exactly two rows, both of the sender:
    with a connection and a transport that accepts, [message_handler] appends
    the user's text with role user and then the reply with role
    assistant to the rows of the sender, leaves the rows of every other user
    alone, delivers that same reply, and the sender's count goes up by 2. *)
Theorem message_handler_adds_two_rows message ai_service w t :
  is_connected (db w) = true ->
  text message = Some t ->
  strip t <> [] ->
  accepts_all ->
  exists u reply m_in m_out w',
    message_handler message ai_service w = (Ok tt, w') /\
    u_telegram_id u = from_user_id message /\
    In u (users (db w')) /\
    m_role m_in = lit "user" /\ m_content m_in = t /\
    m_role m_out = lit "assistant" /\ m_content m_out = reply /\
    user_messages (u_id u) (db w')
    = user_messages (u_id u) (db w) ++ [m_in; m_out] /\
    (forall other, other <> u_id u ->
       user_messages other (db w') = user_messages other (db w)) /\
    outbox w' = outbox w ++ [ChatAction (chat_id message) (lit "typing");
                             Answer reply] /\
    fst (get_message_count (u_id u) w')
    = Ok (Z.of_nat (List.length (user_messages (u_id u) (db w))) + 2).
Proof.
  intros Hc Ht Hg Htg.
  destruct (message_handler_run message ai_service w t Hc Ht Hg Htg)
    as [u [w1 [reply [tried [rest [t_in [t_out [w' H]]]]]]]].
  destruct H as [Hget [Hrun [Hu [Hm [Ho _]]]]].
  destruct (get_or_create_user_resolves (from_user_id message)
              (from_user_username message) w Hc)
    as [u0 [w0 [Hget0 [Hc0 [_ [_ [_ [_ [Hin [Htid _]]]]]]]]]].
  rewrite Hget in Hget0. injection Hget0 as <- <-.
  assert (is_connected (db w') = true) as Hc'.
  { destruct (message_handler_comes_after message ai_service w) as [Hconn _].
    rewrite Hrun in Hconn. simpl in Hconn. congruence. }
  exists u, reply,
    (mkMessage (messages_seq (db w) + 1) (u_id u) (lit "user") t t_in),
    (mkMessage (messages_seq (db w) + 2) (u_id u) (lit "assistant") reply t_out),
    w'.
  split; [exact Hrun|].
  split; [exact Htid|]. split; [rewrite Hu; exact Hin|].
  assert (forall id, user_messages id (db w')
                     = user_messages id (db w)
                       ++ filter (owned_by id)
                            [mkMessage (messages_seq (db w) + 1) (u_id u) (lit "user")
                               t t_in;
                             mkMessage (messages_seq (db w) + 2) (u_id u)
                               (lit "assistant") reply t_out]) as Hum.
  { intros id. unfold user_messages. rewrite Hm. apply filter_app. }
  assert (filter (owned_by (u_id u))
            [mkMessage (messages_seq (db w) + 1) (u_id u) (lit "user") t t_in;
             mkMessage (messages_seq (db w) + 2) (u_id u) (lit "assistant")
               reply t_out]
          = [mkMessage (messages_seq (db w) + 1) (u_id u) (lit "user") t t_in;
             mkMessage (messages_seq (db w) + 2) (u_id u) (lit "assistant")
               reply t_out]) as Hown.
  { simpl. unfold owned_by. simpl. now rewrite Z.eqb_refl. }
  do 4 (split; [reflexivity|]).
  split; [now rewrite Hum, Hown|]. split; [|split].
  - intros other Hne. rewrite Hum. rewrite filter_none; [apply app_nil_r|].
    intros m [<-|[<-|[]]]; unfold owned_by; simpl; apply Z.eqb_neq; congruence.
  - exact Ho.
  - rewrite get_message_count_ok by exact Hc'. simpl. rewrite Hum, Hown.
    rewrite length_app. simpl. f_equal. lia.
Qed.

(** X14.  The context sent to the backend is bounded: every call
    [message_handler] makes carries the system prompt first, then at most 10
    rows of the sender's history, oldest first, then the user's text; so a
    prompt has 12 entries at most. *)
Theorem message_handler_prompt_window message ai_service w t :
  is_connected (db w) = true ->
  text message = Some t ->
  strip t <> [] ->
  accepts_all ->
  exists u rows tried w',
    message_handler message ai_service w = (Ok tt, w') /\
    u_telegram_id u = from_user_id message /\
    (List.length rows <= 10)%nat /\
    newest_first rows /\
    (forall r, In r rows ->
       exists m, In m (messages (db w')) /\ m_user_id m = u_id u /\
                 history_row m = r) /\
    g4f_calls w'
    = g4f_calls w
      ++ calls_for ai_service
           (mkChat (lit "system") system_prompt
            :: map chat_of_row (rev rows) ++ [mkChat (lit "user") t]) tried /\
    forall c, In c (g4f_calls w') -> In c (g4f_calls w) \/
      (List.length (call_messages c) <= 12)%nat.
Proof.
  intros Hc Ht Hg Htg.
  destruct (message_handler_run message ai_service w t Hc Ht Hg Htg)
    as [u [w1 [reply [tried [rest [t_in [t_out [w' H]]]]]]]].
  destruct H as [Hget [Hrun [Hu [Hm [Ho [_ [_ [_ Hcalls]]]]]]]].
  destruct (get_or_create_user_resolves (from_user_id message)
              (from_user_username message) w Hc)
    as [u0 [w0 [Hget0 [_ [Hm1 [_ [_ [_ [_ [Htid _]]]]]]]]]].
  rewrite Hget in Hget0. injection Hget0 as <- <-.
  set (m_in := mkMessage (messages_seq (db w) + 1) (u_id u) (lit "user") t t_in)
    in *.
  set (rows := history_of (u_id u) 10 (with_message (db w1) m_in)) in *.
  assert (List.length rows <= 10)%nat as Hlen
      by (apply (history_of_length (u_id u) 10); lia).
  exists u, rows, tried, w'. split; [exact Hrun|]. split; [exact Htid|].
  split; [exact Hlen|]. split; [apply history_of_newest_first|].
  split; [|split].
  - intros r Hr. destruct (history_of_owned _ _ _ _ Hr) as [m [Hin [Hown Hrow]]].
    exists m. repeat split; try assumption.
    rewrite Hm. simpl in Hin. rewrite Hm1 in Hin.
    apply in_app_or in Hin. apply in_or_app.
    destruct Hin as [Hin|[<-|[]]]; [now left|right; now left].
  - exact Hcalls.
  - intros c Hin. rewrite Hcalls in Hin. apply in_app_or in Hin.
    destruct Hin as [Hin|Hin]; [now left|right].
    unfold calls_for in Hin. apply in_map_iff in Hin.
    destruct Hin as [x [<- _]]. simpl.
    unfold build_messages. simpl.
    rewrite length_app, length_map, length_rev. simpl. fold rows. lia.
Qed.


(** X16.  A refused typing action ends the handling: the call is outside
    the try block, so [message_handler] raises what the transport raised;
    the user's message is stored by then, the backend is never called and
    nothing is sent. *)
Theorem typing_refused_aborts message ai_service w t e :
  is_connected (db w) = true ->
  text message = Some t ->
  strip t <> [] ->
  refuses_typing (chat_id message) e ->
  exists u m_in w',
    message_handler message ai_service w = (Raise e, w') /\
    u_telegram_id u = from_user_id message /\
    m_user_id m_in = u_id u /\ m_role m_in = lit "user" /\ m_content m_in = t /\
    messages (db w') = messages (db w) ++ [m_in] /\
    g4f_calls w' = g4f_calls w /\
    outbox w' = outbox w.
Proof.
  intros Hc Ht Hg Href.
  destruct (message_handler_stored message ai_service w t Hc Ht Hg)
    as [u [w1 [Hget [Hc1 [Hm1 [Hs1 [Ho1 [Hg1 [Hin [Htid Hrun]]]]]]]]]].
  exists u, (created_message (u_id u) (lit "user") t w1). eexists. split.
  - rewrite Hrun. unfold respond, bind at 1, send_chat_action, telegram_request.
    rewrite Href. reflexivity.
  - simpl. rewrite Hm1, Ho1, Hg1. repeat split. exact Htid.
Qed.

(** X17.  When the transport refuses the reply, the user gets the error
    text instead: the reply is stored as an assistant row all the same, the
    except branch logs the failure and answers with the fixed error text,
    and the handler returns normally. *)
Theorem reply_refused_apologises message ai_service w t e :
  is_connected (db w) = true ->
  text message = Some t ->
  strip t <> [] ->
  refuses_replies e ->
  exists u reply m_in m_out w',
    message_handler message ai_service w = (Ok tt, w') /\
    u_telegram_id u = from_user_id message /\
    m_user_id m_in = u_id u /\ m_role m_in = lit "user" /\ m_content m_in = t /\
    m_user_id m_out = u_id u /\ m_role m_out = lit "assistant" /\
    m_content m_out = reply /\
    messages (db w') = messages (db w) ++ [m_in; m_out] /\
    outbox w' = outbox w ++ [ChatAction (chat_id message) (lit "typing");
                             Answer processing_error_text] /\
    (reply <> processing_error_text ->
     exists before, log w' = before ++ [(ERROR, AIServiceError e)]).
Proof.
  intros Hc Ht Hg Href.
  destruct (message_handler_stored message ai_service w t Hc Ht Hg)
    as [u [w1 [Hget [Hc1 [Hm1 [Hs1 [Ho1 [Hg1 [Hin [Htid Hrun]]]]]]]]]].
  set (w2 := stored (u_id u) t w1) in *.
  set (history := history_of (u_id u) 10 (db w2)) in *.
  assert (telegram (io_steps w2) (ChatAction (chat_id message) (lit "typing"))
          = None) as Htyping by now rewrite Href.
  destruct (respond_run message ai_service t (u_id u) history w2 Hc1 Htyping)
    as [reply [wg [tried [rest [_ [_ [Hdg [Hog [_ [_ [_ Hresp]]]]]]]]]]].
  rewrite Hresp in Hrun. unfold try_except, answer, telegram_request in Hrun.
  rewrite Href in Hrun.
  exists u, reply, (created_message (u_id u) (lit "user") t w1),
    (created_message (u_id u) (lit "assistant") reply wg).
  destruct (PyStr.eqb reply processing_error_text) eqn:E.
  - apply PyStrFacts.eqb_eq in E. eexists. split; [exact Hrun|].
    simpl. rewrite Hdg, Hog. simpl. rewrite Hm1, Ho1, <- !app_assoc. simpl.
    repeat split; try assumption; try congruence.
  - unfold apologise, bind, logger, answer, telegram_request in Hrun.
    simpl in Hrun. rewrite Href in Hrun.
    assert (PyStr.eqb processing_error_text processing_error_text = true) as E'
        by now apply PyStrFacts.eqb_eq.
    rewrite E' in Hrun.
    eexists. split; [exact Hrun|].
    simpl. rewrite Hdg, Hog. simpl. rewrite Hm1, Ho1, <- !app_assoc. simpl.
    repeat split; try assumption. intros _.
    exists (log wg ++ [(DEBUG, MessageCreated (u_id u) (lit "assistant"))]).
    now rewrite <- app_assoc.
Qed.

Lemma generate_response_first_text self message history w m rest s :
  available_models self = m :: rest ->
  text_of (g4f_create (io_steps w)
             (create_call self m (build_messages message history))) = Some s ->
  fst (generate_response self message history w) = Ok (strip s).
Proof.
  intros Hm Hs. unfold generate_response, try_except, bind at 1, _call_g4f.
  rewrite Hm, call_g4f_loop_cons, Hs. reflexivity.
Qed.

(** X18.  A backend answer of whitespace only counts as a text and ends up
    as an empty reply: it passes the test of [_call_g4f] because it is a
    non-empty [str], [generate_response] strips it to the empty string, and
    [message_handler] stores an assistant row with empty content and hands
    the empty text to the transport. *)
Theorem whitespace_answer_gives_empty_reply message ai_service w t s :
  is_connected (db w) = true ->
  text message = Some t ->
  strip t <> [] ->
  accepts_all ->
  available_models ai_service <> [] ->
  s <> [] ->
  whitespace_only s ->
  always_answers s ->
  exists m_out w',
    message_handler message ai_service w = (Ok tt, w') /\
    In m_out (messages (db w')) /\
    m_role m_out = lit "assistant" /\ m_content m_out = [] /\
    In (Answer []) (outbox w').
Proof.
  intros Hc Ht Hg Htg Hmodels Hs Hws Hback.
  destruct (message_handler_stored message ai_service w t Hc Ht Hg)
    as [u [w1 [Hget [Hc1 [Hm1 [Hs1 [Ho1 [Hg1 [Hin [Htid Hrun]]]]]]]]]].
  set (w2 := stored (u_id u) t w1) in *.
  set (history := history_of (u_id u) 10 (db w2)) in *.
  destruct (respond_run message ai_service t (u_id u) history w2 Hc1 (Htg _ _))
    as [reply [wg [tried [rest [Hgen [_ [Hdg [Hog [_ [_ [_ Hresp]]]]]]]]]]].
  assert (reply = []) as ->.
  { destruct (available_models ai_service) as [|m models] eqn:Hav;
      [now elim Hmodels|].
    pose proof (generate_response_first_text ai_service t
                  (Some (map chat_of_row (rev history)))
                  (typing (chat_id message) w2) m models s Hav) as H.
    rewrite Hback in H. simpl in H.
    destruct s as [|c s']; [now elim Hs|]. specialize (H eq_refl).
    rewrite Hgen in H. simpl in H. injection H as ->.
    now apply PyStrFacts.strip_whitespace_only. }
  rewrite Hresp in Hrun. unfold try_except, answer, telegram_request in Hrun.
  rewrite Htg in Hrun.
  exists (created_message (u_id u) (lit "assistant") [] wg). eexists.
  split; [exact Hrun|]. simpl. repeat split.
  - apply in_or_app. right. now left.
  - apply in_or_app. right. now left.
Qed.


End MorePipelineFacts.

(** ** Interleaved inserts *)

Section InterleavingFacts.

Context {env : Env}.

(** X20.  The UNIQUE constraint closes the race of get-or-create: when two
    callers have both missed the row and both go on to insert, the first
    INSERT adds the row and the second raises the integrity error, is rolled
    back and logged; the table holds one row for the identity. *)
Theorem second_insert_is_rejected telegram_id name1 name2 w :
  is_connected (db w) = true ->
  user_rows telegram_id (db w) = [] ->
  exists u w1 e w2,
    execute (insert_user telegram_id name1) w = (Ok (mkCursor [] 1), w1) /\
    execute (insert_user telegram_id name2) w1 = (Raise (IntegrityError e), w2) /\
    users (db w1) = users (db w) ++ [u] /\
    u_telegram_id u = telegram_id /\ u_username u = name1 /\
    db w2 = db w1 /\
    user_rows telegram_id (db w2) = [u] /\
    log w2 = log w ++ [(ERROR, DatabaseError (IntegrityError e))].
Proof.
  intros Hc Hrows.
  set (u := mkUser (users_seq (db w) + 1) telegram_id name1
              (current_timestamp (io_steps w))).
  exists u. eexists. eexists. eexists. split; [|split].
  - apply execute_ok; [exact Hc|]. unfold insert_user.
    fold (has_telegram_id telegram_id).
    rewrite (existsb_filter_nil _ _ _ Hrows). reflexivity.
  - apply execute_raise; [exact Hc|]. unfold insert_user. simpl.
    rewrite existsb_app. simpl. rewrite Z.eqb_refl, orb_true_r. reflexivity.
  - simpl. repeat split.
    unfold user_rows in *. simpl. rewrite filter_app, Hrows. simpl.
    unfold has_telegram_id. simpl. now rewrite Z.eqb_refl.
Qed.

End InterleavingFacts.

(** ** User names and cleared conversations *)

Section FrozenFacts.

Context {env : Env}.

Lemma users_prefix_refl d : users_prefix d d.
Proof. exists []. now rewrite app_nil_r. Qed.

Lemma users_prefix_trans d1 d2 d3 :
  users_prefix d1 d2 -> users_prefix d2 d3 -> users_prefix d1 d3.
Proof.
  intros [n1 H1] [n2 H2]. exists (n1 ++ n2). now rewrite H2, H1, app_assoc.
Qed.

Lemma users_prefix_insert_user telegram_id username :
  respects users_prefix (insert_user telegram_id username).
Proof.
  intros now d c d' E. unfold insert_user in E.
  destruct (existsb _ _); [discriminate|]. injection E as _ <-.
  eexists. simpl. reflexivity.
Qed.

Lemma users_prefix_insert_message user_id r c :
  respects users_prefix (insert_message user_id r c).
Proof.
  intros now d cur d' E. unfold insert_message in E.
  destruct (negb _); [discriminate|]. injection E as _ <-.
  exists []. simpl. now rewrite app_nil_r.
Qed.

Lemma users_prefix_delete_messages user_id :
  respects users_prefix (delete_messages user_id).
Proof.
  intros now d c d' E. unfold delete_messages in E. injection E as _ <-.
  exists []. simpl. now rewrite app_nil_r.
Qed.

Lemma handle_users_prefix u w :
  is_rename u = false -> users_prefix (db w) (db (handle u w)).
Proof.
  intros Hu.
  pose proof users_prefix_refl as Hr. pose proof users_prefix_trans as Ht.
  pose proof users_prefix_insert_user as Hi.
  pose proof users_prefix_insert_message as Hm.
  pose proof users_prefix_delete_messages as Hd.
  destruct u as [message ai|message|message|message|c]; simpl.
  - now apply (evolves_message_handler users_prefix).
  - now apply (evolves_start_handler users_prefix).
  - now apply (evolves_help_handler users_prefix).
  - now apply (evolves_clear_handler users_prefix).
  - destruct c; simpl in Hu; try discriminate; unfold run_call;
      apply (evolves_returns users_prefix).
    + now apply (evolves_create_message users_prefix).
    + now apply (evolves_get_conversation_history users_prefix).
    + now apply (evolves_get_message_count users_prefix).
    + now apply (evolves_clear_conversation users_prefix).
    + now apply (evolves_get_or_create_user users_prefix).
    + now apply (evolves_get_user_by_id users_prefix).
Qed.

(** X21.  The handlers never touch a stored user row: whatever text
    messages and commands the bot handles, with whatever user names the
    platform sends along, the users table keeps its rows as they are, user
    names included, and only gains rows at its end.  Only a direct
    [update_username], which no handler calls, changes a name. *)
Theorem user_rows_are_frozen us w :
  forallb (fun u => negb (is_rename u)) us = true ->
  exists new, users (db (handle_all us w)) = users (db w) ++ new.
Proof.
  revert w. induction us as [|u us IH]; intros w H; simpl.
  - apply users_prefix_refl.
  - simpl in H. apply andb_true_iff in H. destruct H as [Hu H].
    apply negb_true_iff in Hu.
    exact (users_prefix_trans _ _ _ (handle_users_prefix u w Hu) (IH _ H)).
Qed.

(** X22.  After [clear_conversation] the user starts from nothing: on a
    connected store the history of the user is empty for every limit and
    the count is 0, while the history of every other user reads as
    before. *)
Theorem clear_then_history_empty user_id w :
  is_connected (db w) = true ->
  exists deleted w1,
    clear_conversation user_id w = (Ok deleted, w1) /\
    (forall limit, fst (get_conversation_history user_id limit w1) = Ok []) /\
    fst (get_message_count user_id w1) = Ok 0 /\
    forall other limit,
      other <> user_id ->
      fst (get_conversation_history other limit w1)
      = fst (get_conversation_history other limit w).
Proof.
  intros Hc. eexists _, (cleared user_id w).
  split; [now apply clear_conversation_ok|].
  assert (is_connected (db (cleared user_id w)) = true) as Hc1 by exact Hc.
  assert (user_messages user_id (db (cleared user_id w)) = []) as Hnone
      by apply filter_owned_not_owned.
  split; [|split].
  - intros limit. rewrite get_conversation_history_ok by exact Hc1.
    unfold history_of. rewrite Hnone. simpl. unfold sql_limit.
    destruct (limit <? 0); [reflexivity|]. now rewrite firstn_nil.
  - rewrite get_message_count_ok by exact Hc1. now rewrite Hnone.
  - intros other limit Hne.
    rewrite !get_conversation_history_ok by assumption. simpl.
    unfold history_of. f_equal. f_equal. f_equal. f_equal.
    now apply filter_other_not_owned.
Qed.

End FrozenFacts.

(** * The theorems at concrete inputs

    Each theorem with a hypothesis applied to an explicit run, and the runs
    at which the statements of the specification that the code does not meet
    fail. *)

Lemma get_or_create_user_twice_witness :
  is_connected (db fresh_world) = true /\
  unique_telegram_id (db fresh_world) /\
  exists u w1 w2,
    @get_or_create_user env_fallback 42 None fresh_world = (Ok (Some u), w1) /\
    @get_or_create_user env_fallback 42 (Some (lit "bob")) w1 = (Ok (Some u), w2) /\
    u_telegram_id u = 42 /\
    db w2 = db w1 /\
    users (db w1)
    = (if existsb (has_telegram_id 42) (users (db fresh_world))
       then users (db fresh_world) else users (db fresh_world) ++ [u]) /\
    messages (db w1) = messages (db fresh_world) /\
    user_rows 42 (db w2) = [u] /\
    unique_telegram_id (db w2).
Proof.
  split; [reflexivity|]. split; [constructor|].
  apply (@get_or_create_user_twice env_fallback 42 None (Some (lit "bob"))
           fresh_world).
  - reflexivity.
  - constructor.
Defined.

Lemma get_conversation_history_window_witness :
  is_connected (db three_rows) = true /\
  0 <= 1 /\
  exists rows,
    @get_conversation_history env_fallback 1 1 three_rows
    = (Ok rows, @tick three_rows) /\
    Z.of_nat (List.length rows) <= 1 /\
    newest_first rows /\
    chronological (rev rows) /\
    exists older,
      Permutation (map history_row (user_messages 1 (db three_rows)))
        (rows ++ older) /\
      forall r o, In r rows -> In o older -> h_created_at o <= h_created_at r.
Proof.
  split; [reflexivity|]. split; [lia|].
  apply (@get_conversation_history_window env_fallback 1 1 three_rows).
  - reflexivity.
  - lia.
Defined.

(** Counterexample to C5 as the specification states it: with a negative
    limit the statement puts no bound on the rows, so [limit = -1] yields
    both rows of user 1, which is more than -1 rows. *)
Lemma get_conversation_history_negative_limit :
  fst (@get_conversation_history env_fallback 1 (-1) three_rows)
  = Ok [mkHistoryRow (lit "assistant") (lit "Hello") 112;
        mkHistoryRow (lit "user") hi 110] /\
  ~ (forall (env : Env) user_id limit w rows w',
        get_conversation_history user_id limit w = (Ok rows, w') ->
        Z.of_nat (List.length rows) <= limit).
Proof.
  split; [reflexivity|].
  intros H.
  specialize (H env_fallback 1 (-1) three_rows _ _ eq_refl).
  simpl in H. lia.
Qed.

Lemma clear_conversation_frame_witness :
  is_connected (db three_rows) = true /\
  exists deleted w',
    @clear_conversation env_fallback 1 three_rows = (Ok deleted, w') /\
    user_messages 1 (db w') = [] /\
    (forall other, other <> 1 ->
       user_messages other (db w') = user_messages other (db three_rows)) /\
    messages (db w') = filter (not_owned_by 1) (messages (db three_rows)) /\
    users (db w') = users (db three_rows) /\
    (deleted = true <->
     exists m, In m (messages (db three_rows)) /\ m_user_id m = 1).
Proof.
  split; [reflexivity|].
  apply (@clear_conversation_frame env_fallback 1 three_rows).
  reflexivity.
Defined.

Lemma get_message_count_appends_witness :
  is_connected (db fresh_world) = true /\
  forallb (fun c => negb (is_clear_of 1 c)) mixed_calls = true /\
  @successful_appends env_fallback 1 mixed_calls fresh_world = 2%nat /\
  @get_message_count env_fallback 1 (@run_calls env_fallback mixed_calls fresh_world)
  = (Ok (Z.of_nat (List.length (user_messages 1 (db fresh_world)))
         + Z.of_nat (@successful_appends env_fallback 1 mixed_calls fresh_world)),
     tick (@run_calls env_fallback mixed_calls fresh_world)).
Proof.
  split; [reflexivity|]. split; [reflexivity|]. split; [reflexivity|].
  apply (@get_message_count_appends env_fallback 1 mixed_calls fresh_world).
  - reflexivity.
  - reflexivity.
Defined.

Lemma call_g4f_fallback_witness :
  available_models new_AIService = [gpt35] ++ gpt4 :: [gpt4_turbo] /\
  Forall failed
    (@attempts env_fallback new_AIService test_prompt (io_steps fresh_world) [gpt35]) /\
  text_of (@g4f_create env_fallback (io_steps fresh_world + List.length [gpt35])
             (create_call new_AIService gpt4 test_prompt))
  = Some (lit " Hello from the fallback ") /\
  exists w',
    @_call_g4f env_fallback new_AIService test_prompt fresh_world
    = (Ok (lit " Hello from the fallback "), w') /\
    g4f_calls w'
    = g4f_calls fresh_world
      ++ calls_for new_AIService test_prompt ([gpt35] ++ [gpt4]) /\
    log w'
    = log fresh_world
      ++ @attempts_log env_fallback new_AIService test_prompt
           (io_steps fresh_world) ([gpt35] ++ [gpt4]) /\
    (forall i x e,
        nth_error [gpt35] i = Some x ->
        @g4f_create env_fallback (io_steps fresh_world + i)
          (create_call new_AIService x test_prompt) = Raised e ->
        In (WARNING, ModelFailed x e)
          (@attempts_log env_fallback new_AIService test_prompt
             (io_steps fresh_world) ([gpt35] ++ [gpt4]))) /\
    db w' = db fresh_world /\ outbox w' = outbox fresh_world.
Proof.
  split; [reflexivity|]. split; [repeat constructor|]. split; [reflexivity|].
  apply (@call_g4f_fallback env_fallback new_AIService test_prompt fresh_world
           [gpt35] gpt4 [gpt4_turbo] (lit " Hello from the fallback ")).
  - reflexivity.
  - repeat constructor.
  - reflexivity.
Defined.

(** Counterexample to C3 as the specification states it: the first model
    returns [None], which is a failed attempt; the loop goes on to the second
    model and returns its text; and the log has the two DEBUG lines and the
    INFO line only: the failure of the first attempt is not logged. *)
Lemma non_text_failure_is_not_logged :
  let r := @_call_g4f env_none_first new_AIService test_prompt fresh_world in
  non_text (@g4f_create env_none_first 0
              (create_call new_AIService gpt35 test_prompt)) = true /\
  fst r = Ok (lit "Hello") /\
  log (snd r)
  = [(DEBUG, TryingModel gpt35); (DEBUG, TryingModel gpt4);
     (INFO, ModelSucceeded gpt4)] /\
  ~ (exists l e, In (l, ModelFailed gpt35 e) (log (snd r))) /\
  ~ (exists ev, In (WARNING, ev) (log (snd r)) \/ In (ERROR, ev) (log (snd r))).
Proof.
  simpl. repeat split; try reflexivity.
  - intros [l [e H]]. simpl in H.
    repeat (destruct H as [H|H]; [discriminate|]). exact H.
  - intros [ev [H|H]]; simpl in H;
      repeat (destruct H as [H|H]; [discriminate|]); exact H.
Qed.

Lemma generate_response_all_failed_witness :
  Forall failed
    (@attempts env_all_raise new_AIService (build_messages hi None)
       (io_steps fresh_world) (available_models new_AIService)) /\
  exists w1 w2,
    @_call_g4f env_all_raise new_AIService (build_messages hi None) fresh_world
    = (Raise (AllModelsFailed (Some (BackendError 2))), w1) /\
    g4f_calls w1
    = g4f_calls fresh_world
      ++ calls_for new_AIService (build_messages hi None)
           (available_models new_AIService) /\
    @generate_response env_all_raise new_AIService hi None fresh_world
    = (Ok apology, w2) /\
    db w2 = db fresh_world /\ outbox w2 = outbox fresh_world.
Proof.
  split; [repeat constructor|].
  apply (proj2 (@generate_response_all_failed env_all_raise new_AIService hi None
                  fresh_world)).
  repeat constructor.
Defined.

(** Counterexample to C4 as the specification states it.  When no model
    raises and none returns a text, every attempt has failed and the
    aggregate error carries no failure at all; when the first model raises
    and the later ones return [None], it carries the exception of the first
    attempt, not the failure of the last. *)
Lemma aggregate_error_misses_last_failure :
  (Forall failed
     (@attempts env_no_text new_AIService test_prompt 0
        (available_models new_AIService)) /\
   fst (@_call_g4f env_no_text new_AIService test_prompt fresh_world)
   = Raise (AllModelsFailed None)) /\
  (Forall failed
     (@attempts env_raise_then_none new_AIService test_prompt 0
        (available_models new_AIService)) /\
   @g4f_create env_raise_then_none 0 (create_call new_AIService gpt35 test_prompt)
   = Raised (BackendError 500) /\
   @g4f_create env_raise_then_none 2
     (create_call new_AIService gpt4_turbo test_prompt)
   = Returned PyNone /\
   fst (@_call_g4f env_raise_then_none new_AIService test_prompt fresh_world)
   = Raise (AllModelsFailed (Some (BackendError 500)))) /\
  ~ (forall (env : Env) self messages w,
        Forall failed (attempts self messages (io_steps w) (available_models self)) ->
        exists e, fst (_call_g4f self messages w) = Raise (AllModelsFailed (Some e))).
Proof.
  split; [split; [repeat constructor|reflexivity]|].
  split; [split; [repeat constructor|repeat split; reflexivity]|].
  intros H.
  destruct (H env_no_text new_AIService test_prompt fresh_world) as [e He].
  - repeat constructor.
  - discriminate.
Qed.

Lemma non_text_result_not_recorded_witness :
  @g4f_create env_no_text (io_steps fresh_world)
    (create_call new_AIService gpt35 test_prompt) = Returned PyNone /\
  text_of (Returned PyNone) = None /\
  @call_g4f_loop env_no_text new_AIService (gpt35 :: [gpt4; gpt4_turbo])
    test_prompt None fresh_world
  = @call_g4f_loop env_no_text new_AIService [gpt4; gpt4_turbo] test_prompt None
      (mkWorld (db fresh_world) (log fresh_world ++ [(DEBUG, TryingModel gpt35)])
         (g4f_calls fresh_world ++ [create_call new_AIService gpt35 test_prompt])
         (outbox fresh_world) (S (io_steps fresh_world))) /\
  forallb non_text
    (@attempts env_no_text new_AIService test_prompt (io_steps fresh_world)
       (available_models new_AIService)) = true /\
  exists w',
    @_call_g4f env_no_text new_AIService test_prompt fresh_world
    = (Raise (AllModelsFailed None), w') /\
    log w'
    = log fresh_world
      ++ map (fun m => (DEBUG, TryingModel m)) (available_models new_AIService)
      ++ [(ERROR, AllFailed None)].
Proof.
  split; [reflexivity|]. split; [reflexivity|]. split.
  - apply (proj1 (@non_text_result_not_recorded env_no_text new_AIService
                    test_prompt) gpt35 [gpt4; gpt4_turbo] None fresh_world PyNone);
      reflexivity.
  - split; [reflexivity|].
    apply (proj2 (@non_text_result_not_recorded env_no_text new_AIService
                    test_prompt) fresh_world).
    reflexivity.
Defined.

Lemma message_handler_ignores_blank_witness :
  (text (mkTgMessage (Some (lit "  ")) 42 None 7) = None \/
   exists t, text (mkTgMessage (Some (lit "  ")) 42 None 7) = Some t /\
             whitespace_only t) /\
  @message_handler env_fallback (mkTgMessage (Some (lit "  ")) 42 None 7)
    new_AIService three_rows = (Ok tt, three_rows).
Proof.
  assert (text (mkTgMessage (Some (lit "  ")) 42 None 7) = None \/
          exists t, text (mkTgMessage (Some (lit "  ")) 42 None 7) = Some t /\
                    whitespace_only t) as H.
  { right. exists (lit "  "). split; [reflexivity|].
    repeat constructor. }
  split; [exact H|].
  apply (@message_handler_ignores_blank env_fallback
           (mkTgMessage (Some (lit "  ")) 42 None 7) new_AIService three_rows H).
Defined.

Lemma message_handler_first_message_witness :
  @accepts_all env_fallback /\
  available_models new_AIService <> [] /\
  exists reply t_user t_in t_out tried rest w',
    @message_handler env_fallback (mkTgMessage (Some (lit "Hi")) 42 None 7)
      new_AIService fresh_world = (Ok tt, w') /\
    users (db w') = [mkUser 1 42 None t_user] /\
    messages (db w')
    = [mkMessage 1 1 (lit "user") (lit "Hi") t_in;
       mkMessage 2 1 (lit "assistant") reply t_out] /\
    outbox w' = [ChatAction 7 (lit "typing"); Answer reply] /\
    available_models new_AIService = tried ++ rest /\
    tried <> [] /\
    g4f_calls w' = calls_for new_AIService hi_prompt tried /\
    (forall c, In c (g4f_calls w') ->
       call_messages c = hi_prompt /\
       call_messages c
       <> [mkChat (lit "system") system_prompt; mkChat (lit "user") (lit "Hi")]).
Proof.
  assert (@accepts_all env_fallback) as Ha by (intros n o; reflexivity).
  assert (available_models new_AIService <> []) as Hm by discriminate.
  split; [exact Ha|]. split; [exact Hm|].
  apply (@message_handler_first_message env_fallback 42 None 7 new_AIService Ha Hm).
Defined.

Lemma generate_response_strips_witness :
  @_call_g4f env_fallback new_AIService (build_messages hi None) fresh_world
  = (Ok (lit " Hello from the fallback "),
     snd (@_call_g4f env_fallback new_AIService (build_messages hi None)
            fresh_world)) /\
  fst (@generate_response env_fallback new_AIService hi None fresh_world)
  = Ok (strip (lit " Hello from the fallback ")) /\
  strip (lit " Hello from the fallback ") = lit "Hello from the fallback" /\
  no_surrounding_whitespace (strip (lit " Hello from the fallback ")).
Proof.
  split; [reflexivity|].
  destruct (proj1 (@generate_response_strips env_fallback new_AIService hi None
                     fresh_world)
              (lit " Hello from the fallback ")
              (snd (@_call_g4f env_fallback new_AIService (build_messages hi None)
                      fresh_world))
              eq_refl) as [H1 [H2 _]].
  split; [exact H1|]. split; [reflexivity|exact H2].
Defined.

(** ** The further theorems at concrete inputs *)

Lemma store_stays_well_formed_witness :
  (well_formed (db fresh_world)) /\
  (let d := db (@handle_all env_fallback busy_day fresh_world) in
  (forall u1 u2, In u1 (users d) -> In u2 (users d) ->
     u_telegram_id u1 = u_telegram_id u2 \/ u_id u1 = u_id u2 -> u1 = u2) /\
  (forall m1 m2, In m1 (messages d) -> In m2 (messages d) ->
     m_id m1 = m_id m2 -> m1 = m2) /\
  increasing (map m_id (messages d)) /\
  (forall m, In m (messages d) ->
     m_role m = lit "user" \/ m_role m = lit "assistant")).
Proof.
  assert (well_formed (db fresh_world)) as H0.
  { unfold well_formed, unique_telegram_id, increasing, bounded_by; simpl; repeat split; repeat constructor; simpl; try lia; intuition discriminate. }
  split; [exact H0|].
  exact (@store_stays_well_formed env_fallback busy_day fresh_world H0).
Defined.

Lemma message_ids_never_reused_witness :
  (well_formed (db three_rows)) /\
  (In (mkMessage 3 1 (lit "assistant") (lit "Hello") 112) (messages (db three_rows))) /\
  (In (mkMessage 2 2 (lit "user") hi 111) (messages (db (@handle_all env_fallback busy_day three_rows)))) /\
  (In (mkMessage 2 2 (lit "user") hi 111) (messages (db three_rows)) \/ m_id (mkMessage 3 1 (lit "assistant") (lit "Hello") 112) < m_id (mkMessage 2 2 (lit "user") hi 111)).
Proof.
  assert (well_formed (db three_rows)) as H0.
  { unfold well_formed, unique_telegram_id, increasing, bounded_by; simpl; repeat split; repeat constructor; simpl; try lia; intuition discriminate. }
  assert (In (mkMessage 3 1 (lit "assistant") (lit "Hello") 112) (messages (db three_rows))) as H1.
  { vm_compute; repeat (first [left; reflexivity | right]). }
  assert (In (mkMessage 2 2 (lit "user") hi 111) (messages (db (@handle_all env_fallback busy_day three_rows)))) as H2.
  { vm_compute; repeat (first [left; reflexivity | right]). }
  split; [exact H0|].
  split; [exact H1|].
  split; [exact H2|].
  exact (@message_ids_never_reused env_fallback busy_day three_rows (mkMessage 3 1 (lit "assistant") (lit "Hello") 112) (mkMessage 2 2 (lit "user") hi 111) H0 H1 H2).
Defined.

Lemma users_are_kept_witness :
  (In (mkUser 1 42 None 100) (users (db three_rows))) /\
  (exists u', In u' (users (db (@handle_all env_fallback busy_day three_rows))) /\
             u_id u' = u_id (mkUser 1 42 None 100) /\ u_telegram_id u' = u_telegram_id (mkUser 1 42 None 100) /\
             u_created_at u' = u_created_at (mkUser 1 42 None 100)).
Proof.
  assert (In (mkUser 1 42 None 100) (users (db three_rows))) as H0.
  { vm_compute; repeat (first [left; reflexivity | right]). }
  split; [exact H0|].
  exact (@users_are_kept env_fallback busy_day three_rows (mkUser 1 42 None 100) H0).
Defined.

Lemma create_message_returns_row_witness :
  (is_connected (db three_rows) = true) /\
  (well_formed (db three_rows)) /\
  (role_check (lit "user") = true) /\
  (exists m w',
    @create_message env_fallback 1 (lit "user") hi three_rows = (Ok (Some m), w') /\
    m_user_id m = 1 /\ m_role m = (lit "user") /\ m_content m = hi /\
    m_created_at m = @current_timestamp env_fallback (io_steps three_rows) /\
    messages (db w') = messages (db three_rows) ++ [m] /\
    (forall old, In old (messages (db three_rows)) -> m_id old < m_id m) /\
    users (db w') = users (db three_rows)).
Proof.
  assert (is_connected (db three_rows) = true) as H0.
  { reflexivity. }
  assert (well_formed (db three_rows)) as H1.
  { unfold well_formed, unique_telegram_id, increasing, bounded_by; simpl; repeat split; repeat constructor; simpl; try lia; intuition discriminate. }
  assert (role_check (lit "user") = true) as H2.
  { reflexivity. }
  split; [exact H0|].
  split; [exact H1|].
  split; [exact H2|].
  exact (@create_message_returns_row env_fallback 1 (lit "user") hi three_rows H0 H1 H2).
Defined.


Lemma new_message_heads_history_witness :
  (is_connected (db three_rows) = true) /\
  (role_check (lit "user") = true) /\
  (all_older 1 (@current_timestamp env_fallback (io_steps three_rows)) (db three_rows)) /\
  (1 <> 0) /\
  (exists row w1 rest,
    @create_message env_fallback 1 (lit "user") hi three_rows = (Ok row, w1) /\
    fst (@get_conversation_history env_fallback 1 1 w1)
    = Ok (mkHistoryRow (lit "user") hi (@current_timestamp env_fallback (io_steps three_rows)) :: rest) /\
    (1 = 1 -> rest = [])).
Proof.
  assert (is_connected (db three_rows) = true) as H0.
  { reflexivity. }
  assert (role_check (lit "user") = true) as H1.
  { reflexivity. }
  assert (all_older 1 (@current_timestamp env_fallback (io_steps three_rows)) (db three_rows)) as H2.
  { intros m H; simpl in H; destruct H as [<-|[<-|[]]]; vm_compute; reflexivity. }
  assert (1 <> 0) as H3.
  { discriminate. }
  split; [exact H0|].
  split; [exact H1|].
  split; [exact H2|].
  split; [exact H3|].
  exact (@new_message_heads_history env_fallback 1 (lit "user") hi 1 three_rows H0 H1 H2 H3).
Defined.

Lemma get_user_by_id_finds_witness :
  (is_connected (db three_rows) = true) /\
  (well_formed (db three_rows)) /\
  (exists u w1,
    @get_or_create_user env_fallback 42 None three_rows = (Ok (Some u), w1) /\
    @get_user_by_id env_fallback (u_id u) w1 = (Ok (Some u), tick w1) /\
    forall id, users_seq (db w1) < id ->
               @get_user_by_id env_fallback id w1 = (Ok None, tick w1)).
Proof.
  assert (is_connected (db three_rows) = true) as H0.
  { reflexivity. }
  assert (well_formed (db three_rows)) as H1.
  { unfold well_formed, unique_telegram_id, increasing, bounded_by; simpl; repeat split; repeat constructor; simpl; try lia; intuition discriminate. }
  split; [exact H0|].
  split; [exact H1|].
  exact (@get_user_by_id_finds env_fallback 42 None three_rows H0 H1).
Defined.

Lemma update_username_renames_witness :
  (is_connected (db three_rows) = true) /\
  (exists b w',
    @update_username env_fallback 42 (lit "ann") three_rows = (Ok b, w') /\
    (b = true <-> user_rows 42 (db three_rows) <> []) /\
    (b = false -> db w' = db three_rows) /\
    map u_id (users (db w')) = map u_id (users (db three_rows)) /\
    messages (db w') = messages (db three_rows) /\
    forall u rest other,
      user_rows 42 (db three_rows) = u :: rest ->
      fst (@get_or_create_user env_fallback 42 other w')
      = Ok (Some (mkUser (u_id u) (u_telegram_id u) (Some (lit "ann"))
                    (u_created_at u)))).
Proof.
  assert (is_connected (db three_rows) = true) as H0.
  { reflexivity. }
  split; [exact H0|].
  exact (@update_username_renames env_fallback 42 (lit "ann") three_rows H0).
Defined.

Lemma closed_connection_raises_witness :
  (is_connected (db closed_world) = false) /\
  ((forall telegram_id username,
      @get_or_create_user env_fallback telegram_id username closed_world = (Raise not_connected, closed_world)) /\
  (forall user_id, @get_user_by_id env_fallback user_id closed_world = (Raise not_connected, closed_world)) /\
  (forall telegram_id username,
      @update_username env_fallback telegram_id username closed_world = (Raise not_connected, closed_world)) /\
  (forall user_id r c,
      @create_message env_fallback user_id r c closed_world = (Raise not_connected, closed_world)) /\
  (forall user_id limit,
      @get_conversation_history env_fallback user_id limit closed_world = (Raise not_connected, closed_world)) /\
  (forall user_id, @get_message_count env_fallback user_id closed_world = (Raise not_connected, closed_world)) /\
  (forall user_id, @clear_conversation env_fallback user_id closed_world = (Raise not_connected, closed_world))).
Proof.
  assert (is_connected (db closed_world) = false) as H0.
  { reflexivity. }
  split; [exact H0|].
  exact (@closed_connection_raises env_fallback closed_world H0).
Defined.

Lemma handlers_need_connection_witness :
  (is_connected (db closed_world) = false) /\
  (text hello_message = Some (lit "Hello bot")) /\
  (strip (lit "Hello bot") <> []) /\
  (@message_handler env_fallback hello_message new_AIService closed_world = (Raise not_connected, closed_world) /\
  @start_handler env_fallback hello_message closed_world = (Raise not_connected, closed_world) /\
  @clear_handler env_fallback hello_message closed_world = (Raise not_connected, closed_world)).
Proof.
  assert (is_connected (db closed_world) = false) as H0.
  { reflexivity. }
  assert (text hello_message = Some (lit "Hello bot")) as H1.
  { reflexivity. }
  assert (strip (lit "Hello bot") <> []) as H2.
  { vm_compute; discriminate. }
  split; [exact H0|].
  split; [exact H1|].
  split; [exact H2|].
  exact (@handlers_need_connection env_fallback hello_message new_AIService closed_world (lit "Hello bot") H0 H1 H2).
Defined.

Lemma clear_handler_clears_witness :
  (is_connected (db three_rows) = true) /\
  (@accepts_all env_fallback) /\
  (exists u w',
    @clear_handler env_fallback hello_message three_rows = (Ok tt, w') /\
    u_telegram_id u = from_user_id hello_message /\
    In u (users (db w')) /\
    users (db w')
    = (if existsb (has_telegram_id (from_user_id hello_message)) (users (db three_rows))
       then users (db three_rows) else users (db three_rows) ++ [u]) /\
    user_messages (u_id u) (db w') = [] /\
    (forall other, other <> u_id u ->
       user_messages other (db w') = user_messages other (db three_rows)) /\
    outbox w' = outbox three_rows ++ [Answer cleared_text]).
Proof.
  assert (is_connected (db three_rows) = true) as H0.
  { reflexivity. }
  assert (@accepts_all env_fallback) as H1.
  { intros n o; reflexivity. }
  split; [exact H0|].
  split; [exact H1|].
  exact (@clear_handler_clears env_fallback hello_message three_rows H0 H1).
Defined.

Lemma start_handler_registers_witness :
  (is_connected (db three_rows) = true) /\
  (well_formed (db three_rows)) /\
  (@accepts_all env_fallback) /\
  (exists u w',
    @start_handler env_fallback hello_message three_rows = (Ok tt, w') /\
    user_rows (from_user_id hello_message) (db w') = [u] /\
    users (db w')
    = (if existsb (has_telegram_id (from_user_id hello_message)) (users (db three_rows))
       then users (db three_rows) else users (db three_rows) ++ [u]) /\
    messages (db w') = messages (db three_rows) /\
    outbox w' = outbox three_rows ++ [Answer welcome_text]).
Proof.
  assert (is_connected (db three_rows) = true) as H0.
  { reflexivity. }
  assert (well_formed (db three_rows)) as H1.
  { unfold well_formed, unique_telegram_id, increasing, bounded_by; simpl; repeat split; repeat constructor; simpl; try lia; intuition discriminate. }
  assert (@accepts_all env_fallback) as H2.
  { intros n o; reflexivity. }
  split; [exact H0|].
  split; [exact H1|].
  split; [exact H2|].
  exact (@start_handler_registers env_fallback hello_message three_rows H0 H1 H2).
Defined.

Lemma message_handler_adds_two_rows_witness :
  (is_connected (db three_rows) = true) /\
  (text hello_message = Some (lit "Hello bot")) /\
  (strip (lit "Hello bot") <> []) /\
  (@accepts_all env_fallback) /\
  (exists u reply m_in m_out w',
    @message_handler env_fallback hello_message new_AIService three_rows = (Ok tt, w') /\
    u_telegram_id u = from_user_id hello_message /\
    In u (users (db w')) /\
    m_role m_in = lit "user" /\ m_content m_in = (lit "Hello bot") /\
    m_role m_out = lit "assistant" /\ m_content m_out = reply /\
    user_messages (u_id u) (db w')
    = user_messages (u_id u) (db three_rows) ++ [m_in; m_out] /\
    (forall other, other <> u_id u ->
       user_messages other (db w') = user_messages other (db three_rows)) /\
    outbox w' = outbox three_rows ++ [ChatAction (chat_id hello_message) (lit "typing");
                             Answer reply] /\
    fst (@get_message_count env_fallback (u_id u) w')
    = Ok (Z.of_nat (List.length (user_messages (u_id u) (db three_rows))) + 2)).
Proof.
  assert (is_connected (db three_rows) = true) as H0.
  { reflexivity. }
  assert (text hello_message = Some (lit "Hello bot")) as H1.
  { reflexivity. }
  assert (strip (lit "Hello bot") <> []) as H2.
  { vm_compute; discriminate. }
  assert (@accepts_all env_fallback) as H3.
  { intros n o; reflexivity. }
  split; [exact H0|].
  split; [exact H1|].
  split; [exact H2|].
  split; [exact H3|].
  exact (@message_handler_adds_two_rows env_fallback hello_message new_AIService three_rows (lit "Hello bot") H0 H1 H2 H3).
Defined.

Lemma message_handler_prompt_window_witness :
  (is_connected (db three_rows) = true) /\
  (text hello_message = Some (lit "Hello bot")) /\
  (strip (lit "Hello bot") <> []) /\
  (@accepts_all env_fallback) /\
  (exists u rows tried w',
    @message_handler env_fallback hello_message new_AIService three_rows = (Ok tt, w') /\
    u_telegram_id u = from_user_id hello_message /\
    (List.length rows <= 10)%nat /\
    newest_first rows /\
    (forall r, In r rows ->
       exists m, In m (messages (db w')) /\ m_user_id m = u_id u /\
                 history_row m = r) /\
    g4f_calls w'
    = g4f_calls three_rows
      ++ calls_for new_AIService
           (mkChat (lit "system") system_prompt
            :: map chat_of_row (rev rows) ++ [mkChat (lit "user") (lit "Hello bot")]) tried /\
    forall c, In c (g4f_calls w') -> In c (g4f_calls three_rows) \/
      (List.length (call_messages c) <= 12)%nat).
Proof.
  assert (is_connected (db three_rows) = true) as H0.
  { reflexivity. }
  assert (text hello_message = Some (lit "Hello bot")) as H1.
  { reflexivity. }
  assert (strip (lit "Hello bot") <> []) as H2.
  { vm_compute; discriminate. }
  assert (@accepts_all env_fallback) as H3.
  { intros n o; reflexivity. }
  split; [exact H0|].
  split; [exact H1|].
  split; [exact H2|].
  split; [exact H3|].
  exact (@message_handler_prompt_window env_fallback hello_message new_AIService three_rows (lit "Hello bot") H0 H1 H2 H3).
Defined.


Lemma typing_refused_aborts_witness :
  (is_connected (db three_rows) = true) /\
  (text hello_message = Some (lit "Hello bot")) /\
  (strip (lit "Hello bot") <> []) /\
  (@refuses_typing env_no_typing (chat_id hello_message) (TransportError 403)) /\
  (exists u m_in w',
    @message_handler env_no_typing hello_message new_AIService three_rows = (Raise (TransportError 403), w') /\
    u_telegram_id u = from_user_id hello_message /\
    m_user_id m_in = u_id u /\ m_role m_in = lit "user" /\ m_content m_in = (lit "Hello bot") /\
    messages (db w') = messages (db three_rows) ++ [m_in] /\
    g4f_calls w' = g4f_calls three_rows /\
    outbox w' = outbox three_rows).
Proof.
  assert (is_connected (db three_rows) = true) as H0.
  { reflexivity. }
  assert (text hello_message = Some (lit "Hello bot")) as H1.
  { reflexivity. }
  assert (strip (lit "Hello bot") <> []) as H2.
  { vm_compute; discriminate. }
  assert (@refuses_typing env_no_typing (chat_id hello_message) (TransportError 403)) as H3.
  { intros n; reflexivity. }
  split; [exact H0|].
  split; [exact H1|].
  split; [exact H2|].
  split; [exact H3|].
  exact (@typing_refused_aborts env_no_typing hello_message new_AIService three_rows (lit "Hello bot") (TransportError 403) H0 H1 H2 H3).
Defined.

Lemma reply_refused_apologises_witness :
  (is_connected (db three_rows) = true) /\
  (text hello_message = Some (lit "Hello bot")) /\
  (strip (lit "Hello bot") <> []) /\
  (@refuses_replies env_no_replies (TransportError 400)) /\
  (exists u reply m_in m_out w',
    @message_handler env_no_replies hello_message new_AIService three_rows = (Ok tt, w') /\
    u_telegram_id u = from_user_id hello_message /\
    m_user_id m_in = u_id u /\ m_role m_in = lit "user" /\ m_content m_in = (lit "Hello bot") /\
    m_user_id m_out = u_id u /\ m_role m_out = lit "assistant" /\
    m_content m_out = reply /\
    messages (db w') = messages (db three_rows) ++ [m_in; m_out] /\
    outbox w' = outbox three_rows ++ [ChatAction (chat_id hello_message) (lit "typing");
                             Answer processing_error_text] /\
    (reply <> processing_error_text ->
     exists before, log w' = before ++ [(ERROR, AIServiceError (TransportError 400))])).
Proof.
  assert (is_connected (db three_rows) = true) as H0.
  { reflexivity. }
  assert (text hello_message = Some (lit "Hello bot")) as H1.
  { reflexivity. }
  assert (strip (lit "Hello bot") <> []) as H2.
  { vm_compute; discriminate. }
  assert (@refuses_replies env_no_replies (TransportError 400)) as H3.
  { intros n o; reflexivity. }
  split; [exact H0|].
  split; [exact H1|].
  split; [exact H2|].
  split; [exact H3|].
  exact (@reply_refused_apologises env_no_replies hello_message new_AIService three_rows (lit "Hello bot") (TransportError 400) H0 H1 H2 H3).
Defined.

Lemma whitespace_answer_gives_empty_reply_witness :
  (is_connected (db three_rows) = true) /\
  (text hello_message = Some (lit "Hello bot")) /\
  (strip (lit "Hello bot") <> []) /\
  (@accepts_all env_blank) /\
  (available_models new_AIService <> []) /\
  ((lit "  ") <> []) /\
  (whitespace_only (lit "  ")) /\
  (@always_answers env_blank (lit "  ")) /\
  (exists m_out w',
    @message_handler env_blank hello_message new_AIService three_rows = (Ok tt, w') /\
    In m_out (messages (db w')) /\
    m_role m_out = lit "assistant" /\ m_content m_out = [] /\
    In (Answer []) (outbox w')).
Proof.
  assert (is_connected (db three_rows) = true) as H0.
  { reflexivity. }
  assert (text hello_message = Some (lit "Hello bot")) as H1.
  { reflexivity. }
  assert (strip (lit "Hello bot") <> []) as H2.
  { vm_compute; discriminate. }
  assert (@accepts_all env_blank) as H3.
  { intros n o; reflexivity. }
  assert (available_models new_AIService <> []) as H4.
  { discriminate. }
  assert ((lit "  ") <> []) as H5.
  { discriminate. }
  assert (whitespace_only (lit "  ")) as H6.
  { repeat constructor. }
  assert (@always_answers env_blank (lit "  ")) as H7.
  { intros n c; reflexivity. }
  split; [exact H0|].
  split; [exact H1|].
  split; [exact H2|].
  split; [exact H3|].
  split; [exact H4|].
  split; [exact H5|].
  split; [exact H6|].
  split; [exact H7|].
  exact (@whitespace_answer_gives_empty_reply env_blank hello_message new_AIService three_rows (lit "Hello bot") (lit "  ") H0 H1 H2 H3 H4 H5 H6 H7).
Defined.

Lemma second_insert_is_rejected_witness :
  (is_connected (db three_rows) = true) /\
  (user_rows 44 (db three_rows) = []) /\
  (exists u w1 e w2,
    @execute env_fallback _ (insert_user 44 None) three_rows = (Ok (mkCursor [] 1), w1) /\
    @execute env_fallback _ (insert_user 44 (Some (lit "bob"))) w1 = (Raise (IntegrityError e), w2) /\
    users (db w1) = users (db three_rows) ++ [u] /\
    u_telegram_id u = 44 /\ u_username u = None /\
    db w2 = db w1 /\
    user_rows 44 (db w2) = [u] /\
    log w2 = log three_rows ++ [(ERROR, DatabaseError (IntegrityError e))]).
Proof.
  assert (is_connected (db three_rows) = true) as H0.
  { reflexivity. }
  assert (user_rows 44 (db three_rows) = []) as H1.
  { reflexivity. }
  split; [exact H0|].
  split; [exact H1|].
  exact (@second_insert_is_rejected env_fallback 44 None (Some (lit "bob")) three_rows H0 H1).
Defined.

Lemma user_rows_are_frozen_witness :
  (forallb (fun u => negb (is_rename u)) handled_only = true) /\
  (exists new, users (db (@handle_all env_fallback handled_only three_rows)) = users (db three_rows) ++ new).
Proof.
  assert (forallb (fun u => negb (is_rename u)) handled_only = true) as H0.
  { reflexivity. }
  split; [exact H0|].
  exact (@user_rows_are_frozen env_fallback handled_only three_rows H0).
Defined.

Lemma clear_then_history_empty_witness :
  (is_connected (db three_rows) = true) /\
  (exists deleted w1,
    @clear_conversation env_fallback 1 three_rows = (Ok deleted, w1) /\
    (forall limit, fst (@get_conversation_history env_fallback 1 limit w1) = Ok []) /\
    fst (@get_message_count env_fallback 1 w1) = Ok 0 /\
    forall other limit,
      other <> 1 ->
      fst (@get_conversation_history env_fallback other limit w1)
      = fst (@get_conversation_history env_fallback other limit three_rows)).
Proof.
  assert (is_connected (db three_rows) = true) as H0.
  { reflexivity. }
  split; [exact H0|].
  exact (@clear_then_history_empty env_fallback 1 three_rows H0).
Defined.
